(** * metaplay-cli: the environment credential broker (package [envapi])
      and the typed request executor (package [metahttp])

    A shallow embedding of [TargetEnvironment] and its operations, of the
    package-private [httpRequest] they go through, and of [metahttp.Request].

    Go's [(value, error)] results are kept as pairs of options ([nil] is
    [None]), so that "no value next to an error" is a statement and not a
    consequence of the type.  A run either returns or panics, and records
    what it asked of the outside (HTTP calls, identity lookups, AWS calls)
    and everything it wrote to the log, in order. *)

From Stdlib Require Import String Ascii List ZArith Lia Bool DecimalString.
Import ListNotations.
Local Open Scope list_scope.
Local Open Scope string_scope.

(* ===================================================================== *)
(** ** Errors *)
(* ===================================================================== *)

(** An error produced by a library outside the repository (resty,
    encoding/json, encoding/base64, the AWS SDK, the auth package): only its
    dynamic type and its message are observed. *)
Record foreign_error : Type := mkForeign {
  fe_type : string;
  fe_text : string
}.

(** Go [error] values as this code builds or forwards them. *)
Inductive error : Type :=
| errorString (s : string)                (* errors.New, fmt.Errorf without %w *)
| wrapError (msg : string) (err : error)  (* fmt.Errorf with one %w *)
| foreign (e : foreign_error).            (* forwarded unchanged *)

(** [err.Error()] *)
Definition Error (e : error) : string :=
  match e with
  | errorString s => s
  | wrapError msg _ => msg
  | foreign f => fe_text f
  end.

(** [errors.Unwrap(err)] *)
Definition Unwrap (e : error) : option error :=
  match e with
  | wrapError _ inner => Some inner
  | _ => None
  end.

(** A Go result: a pointer to [T], or nil, and an error, or nil. *)
Definition result (T : Type) : Type := (option T * option error)%type.

(** [%d] of an [int]. *)
Definition itoa (n : Z) : string := NilZero.string_of_int (Z.to_int n).

(* ===================================================================== *)
(** ** Runs: return or panic, with the trace of what was done *)
(* ===================================================================== *)

Inductive level : Type := DebugLevel | ErrorLevel | PanicLevel.

Module resty.
(** [resty.New().SetAuthToken(t).SetBaseURL(u)] *)
Record Client : Type := mkClient {
  Token : string;
  BaseURL : string
}.

(** What a [*resty.Response] holds that the code reads: [StatusCode()] and
    [Body()].  [String()] is computed from the body, see [resty_String]. *)
Record Response : Type := mkResponse {
  StatusCode : Z;
  Body : string
}.
End resty.

Module auth.
Record TokenSet : Type := mkTokenSet { AccessToken : string }.
Record UserInfoResponse : Type := mkUserInfo { Email : string }.
End auth.

Module aws.
Record Credentials : Type := mkCredentials {
  AccessKeyID : string;
  SecretAccessKey : string;
  SessionToken : string
}.
(** What [config.LoadDefaultConfig] was given. *)
Record Config : Type := mkConfig {
  Region : string;
  Provider : Credentials
}.
End aws.

Module ecr.
Record AuthorizationData : Type := mkAuthorizationData {
  AuthorizationToken : option string;   (* *string *)
  ProxyEndpoint : option string         (* *string *)
}.
Record GetAuthorizationTokenOutput : Type := mkOutput {
  AuthorizationData_ : list AuthorizationData
}.
End ecr.

Inductive event : Type :=
| Log (l : level) (msg : string)
| HttpCall (c : resty.Client) (method path : string) (body : option string)
| FetchUserInfoCall (t : auth.TokenSet)
| LoadDefaultConfigCall (cfg : aws.Config)
| GetAuthorizationTokenCall (cfg : aws.Config).

Inductive outcome (A : Type) : Type :=
| Returned (a : A)
| Panicked (v : string).
Arguments Returned {A} a.
Arguments Panicked {A} v.

(** A computation: its outcome and the events it produced, oldest first. *)
Definition M (A : Type) : Type := (outcome A * list event)%type.

Definition ret {A} (a : A) : M A := (Returned a, []).

Definition bind {A B} (m : M A) (k : A -> M B) : M B :=
  match m with
  | (Returned a, t1) => let (o, t2) := k a in (o, (t1 ++ t2)%list)
  | (Panicked v, t1) => (Panicked v, t1)
  end.

Definition emit (e : event) : M unit := (Returned tt, [e]).
Definition panic {A} (v : string) : M A := (Panicked v, []).

Declare Scope go_scope.
Delimit Scope go_scope with go.
Notation "x <- m ;; k" := (bind m (fun x => k))
  (at level 61, m at next level, right associativity) : go_scope.
Notation "' pat <- m ;; k" := (bind m (fun x => match x with pat => k end))
  (at level 61, pat pattern, m at next level, right associativity) : go_scope.
Notation "m ;; k" := (bind m (fun _ => k))
  (at level 61, right associativity) : go_scope.
Local Open Scope go_scope.

Definition nil_dereference : string :=
  "runtime error: invalid memory address or nil pointer dereference".

(** Reading a field through a pointer. *)
Definition deref {A} (p : option A) : M A :=
  match p with
  | Some a => ret a
  | None => panic nil_dereference
  end.

(** [log.Panic().Msgf(..)]: the event is written, then the goroutine panics
    with the message. *)
Definition log_Panic {A} (msg : string) : M A :=
  emit (Log PanicLevel msg) ;; panic msg.

Definition outcome_of {A} (m : M A) : outcome A := fst m.
Definition trace_of {A} (m : M A) : list event := snd m.

(* ===================================================================== *)
(** ** Data of package envapi *)
(* ===================================================================== *)

Record TargetEnvironment : Type := mkTargetEnvironment {
  TokenSet : auth.TokenSet;   (* Tokens to use to access the environment. *)
  StackApiBaseURL : string;   (* Base URL of the StackAPI *)
  HumanId : string;           (* Environment human ID, eg, 'tiny-squids'. *)
  Resty : resty.Client        (* Resty client with authorization header configured. *)
}.

Record KubeConfigClusterData : Type := mkKubeConfigClusterData {
  CertificateAuthorityData : string;
  Server : string
}.

Record KubeConfigCluster : Type := mkKubeConfigCluster {
  cluster_Cluster : KubeConfigClusterData;
  cluster_Name : string
}.

Record KubeConfigContextData : Type := mkKubeConfigContextData {
  context_cluster : string;
  context_user : string;
  context_namespace : string
}.

Record KubeConfigContext : Type := mkKubeConfigContext {
  context_Context : KubeConfigContextData;
  context_Name : string
}.

Record KubeConfigUserDataExec : Type := mkKubeConfigUserDataExec {
  Command : string;
  Args : list string;
  exec_ApiVersion : string;
  InteractiveMode : string
}.

Record KubeConfigUserData : Type := mkKubeConfigUserData {
  Token : string;
  Exec : KubeConfigUserDataExec
}.

Record KubeConfigUser : Type := mkKubeConfigUser {
  user_Name : string;
  user_User : KubeConfigUserData
}.

Record KubeConfig : Type := mkKubeConfig {
  ApiVersion : string;
  Clusters : list KubeConfigCluster;
  Contexts : list KubeConfigContext;
  CurrentContext : string;
  Kind : string;
  Preferences : list (string * string);   (* map[string]interface{}, always empty here *)
  Users : list KubeConfigUser
}.

(** What the code reads of client-go's [clientauthentication] types.  There
    [ExecCredentialSpec.Cluster] is a pointer, so a payload without a
    cluster decodes to [nil]. *)
Module clientauthentication.
Record Cluster : Type := mkCluster {
  Server : string;
  CertificateAuthorityData : string     (* []byte *)
}.
Record ExecCredentialSpec : Type := mkSpec {
  Cluster_ : option Cluster
}.
Record ExecCredentialStatus : Type := mkStatus {
  Token : string
}.
End clientauthentication.

Record KubeExecCredential : Type := mkKubeExecCredential {
  exec_cred_ApiVersion : string;
  exec_cred_Kind : string;
  Spec : clientauthentication.ExecCredentialSpec;
  Status : clientauthentication.ExecCredentialStatus
}.

(** Modelled from the spec: the declaration of [EnvironmentDetails] is not
    among the sources; the spec gives it the server hostname, the Kubernetes
    namespace and the cloud region, which the code reads as
    [Deployment.ServerHostname], [Deployment.KubernetesNamespace] and
    [Deployment.AwsRegion]. *)
Record DeploymentDetails : Type := mkDeploymentDetails {
  ServerHostname : string;
  KubernetesNamespace : string;
  AwsRegion : string
}.

Record EnvironmentDetails : Type := mkEnvironmentDetails {
  Deployment : DeploymentDetails
}.

(** Container for AWS access credentials into the target environment. *)
Record AWSCredentials : Type := mkAWSCredentials {
  AccessKeyId : string;
  SecretAccessKey : string;
  SessionToken : string;
  Expiration : string
}.

(** Container for access information to an environment's docker registry. *)
Record DockerCredentials : Type := mkDockerCredentials {
  Username : string;
  Password : string;
  RegistryURL : string
}.

(* ===================================================================== *)
(** ** The outside *)
(* ===================================================================== *)

(** The collaborators behind the network and the SDKs, and the pure library
    functions the code calls.  Each is asked at most once per operation, so
    a function of the request is enough. *)
Record World : Type := mkWorld {
  (** [client.R().SetBody(body).Execute(method, path)] *)
  resty_Execute :
    resty.Client -> string -> string -> option string ->
    resty.Response + foreign_error;
  (** [auth.FetchUserInfo(tokenSet)] *)
  auth_FetchUserInfo : auth.TokenSet -> auth.UserInfoResponse + foreign_error;
  (** [config.LoadDefaultConfig(ctx, WithRegion(..), WithCredentialsProvider(..))] *)
  config_LoadDefaultConfig : aws.Config -> option foreign_error;
  (** [ecr.NewFromConfig(cfg).GetAuthorizationToken(ctx, &input)] *)
  ecr_GetAuthorizationToken :
    aws.Config -> ecr.GetAuthorizationTokenOutput + foreign_error;
  (** [base64.StdEncoding.DecodeString] and [EncodeToString] *)
  base64_DecodeString : string -> string + foreign_error;
  base64_EncodeToString : string -> string;
  (** [strings.TrimSpace] *)
  strings_TrimSpace : string -> string
}.

(** [String()] of a [*resty.Response], resty v2: the empty string for an empty
    body, and otherwise [strings.TrimSpace(string(r.body))], the body
    without the white space at its two ends. *)
Definition resty_String (w : World) (response : resty.Response) : string :=
  match resty.Body response with
  | EmptyString => EmptyString
  | body => strings_TrimSpace w body
  end.

(** [json.Unmarshal(data, &v)] on a value [v] of a struct type: what [v]
    holds afterwards, and the error.  [zero] is the zero value. *)
Class JSON (T : Type) : Type := {
  zero : T;
  json_Unmarshal : string -> T -> T * option foreign_error
}.

(** The two shapes a generic [TResponse] is instantiated at, told apart at
    run time by [any(result).(string)]. *)
Inductive shape (T : Type) : Type :=
| PlainText (conv : string -> T)      (* TResponse is string *)
| Structured (J : JSON T).            (* anything else: decoded as JSON *)
Arguments PlainText {T} conv.
Arguments Structured {T} J.

Class Response (T : Type) : Type := response_shape : shape T.

#[export] Instance Response_string : Response string :=
  PlainText (fun s => s).

#[export] Instance Response_struct {T} {J : JSON T} : Response T :=
  Structured J.

(** [var result TResponse] *)
Definition zero_value {T} (R : Response T) : T :=
  match R with
  | PlainText conv => conv ""
  | Structured J => zero
  end.

(** gopkg.in/yaml.v3 on [KubeConfig]: [Marshal], [Unmarshal], and the
    library's contract that a marshalled document parses back to itself. *)
Class YAML : Type := {
  yaml_Marshal : KubeConfig -> string;
  yaml_Unmarshal : string -> option KubeConfig;
  yaml_Unmarshal_Marshal : forall d, yaml_Unmarshal (yaml_Marshal d) = Some d
}.

(** encoding/json white space. *)
Definition json_space (c : ascii) : bool :=
  let n := nat_of_ascii c in
  Nat.eqb n 32 || Nat.eqb n 9 || Nat.eqb n 10 || Nat.eqb n 13.

Fixpoint skip_space (s : string) : string :=
  match s with
  | String c s' => if json_space c then skip_space s' else s
  | EmptyString => s
  end.

(** The document is the literal [null], white space around it allowed. *)
Definition json_null (data : string) : bool :=
  match skip_space data with
  | String "n" (String "u" (String "l" (String "l" rest))) =>
      match skip_space rest with EmptyString => true | _ => false end
  | _ => false
  end.

(** [json.Unmarshal(data, &p)] with [p] a pointer to a fresh value of the
    type: a JSON [null] sets [p] to [nil]; anything else is decoded into
    what [p] points at. *)
Definition json_Unmarshal_ptr {T} `{JSON T} (data : string)
  : option T * option foreign_error :=
  if json_null data then (None, None)
  else let (v, e) := json_Unmarshal data zero in (Some v, e).

(* ===================================================================== *)
(** ** packages unicode/utf8 and unicode, as far as [strings.TrimSpace]
       goes through them *)
(* ===================================================================== *)

Module utf8.

Definition RuneError : N := 65533.
Definition RuneSelf : N := 128.
Definition UTFMax : nat := 4.

(** The tables [first] and [acceptRanges]: the size of the encoding that a
    first byte above [RuneSelf] announces, and the range accepted for the
    second byte; [None] for a byte that starts no encoding. *)
Definition first (s0 : N) : option (nat * N * N) :=
  (if (194 <=? s0) && (s0 <=? 223) then Some (2%nat, 128, 191)
   else if s0 =? 224 then Some (3%nat, 160, 191)
   else if (225 <=? s0) && (s0 <=? 236) then Some (3%nat, 128, 191)
   else if s0 =? 237 then Some (3%nat, 128, 159)
   else if (238 <=? s0) && (s0 <=? 239) then Some (3%nat, 128, 191)
   else if s0 =? 240 then Some (4%nat, 144, 191)
   else if (241 <=? s0) && (s0 <=? 243) then Some (4%nat, 128, 191)
   else if s0 =? 244 then Some (4%nat, 128, 143)
   else None)%N.

(** A continuation byte: between [locb] and [hicb]. *)
Definition continuation (b : N) : bool := ((128 <=? b) && (b <=? 191))%N.

(** [utf8.DecodeRuneInString(s)]: the first rune and its width in bytes;
    [(RuneError, 1)] for an encoding that is not valid. *)
Definition DecodeRuneInString (s : string) : N * nat :=
  match s with
  | EmptyString => (RuneError, 0%nat)
  | String c0 t0 =>
      let s0 := N_of_ascii c0 in
      if (s0 <? RuneSelf)%N then (s0, 1%nat)
      else
        match first s0, t0 with
        | Some (sz, lo, hi), String c1 t1 =>
            let s1 := N_of_ascii c1 in
            if ((s1 <? lo) || (hi <? s1))%N then (RuneError, 1%nat)
            else if (sz <=? 2)%nat then
              ((N.land s0 31 * 64 + N.land s1 63)%N, 2%nat)
            else
              match t1 with
              | String c2 t2 =>
                  let s2 := N_of_ascii c2 in
                  if negb (continuation s2) then (RuneError, 1%nat)
                  else if (sz <=? 3)%nat then
                    ((N.land s0 15 * 4096 + N.land s1 63 * 64
                      + N.land s2 63)%N, 3%nat)
                  else
                    match t2 with
                    | String c3 _ =>
                        let s3 := N_of_ascii c3 in
                        if negb (continuation s3) then (RuneError, 1%nat)
                        else
                          ((N.land s0 7 * 262144 + N.land s1 63 * 4096
                            + N.land s2 63 * 64 + N.land s3 63)%N, 4%nat)
                    | EmptyString => (RuneError, 1%nat)
                    end
              | EmptyString => (RuneError, 1%nat)
              end
        | _, _ => (RuneError, 1%nat)
        end
  end.

(** [s[i]], for [i] below the length. *)
Definition byte_at (s : string) (i : nat) : N :=
  match String.get i s with
  | Some c => N_of_ascii c
  | None => 0%N
  end.

(** [s[n:]] *)
Fixpoint from (n : nat) (s : string) : string :=
  match n, s with
  | O, _ => s
  | S n', String _ t => from n' t
  | S _, EmptyString => EmptyString
  end.

(** [utf8.RuneStart(b)] *)
Definition RuneStart (b : N) : bool := negb (N.land b 192 =? 128)%N.

(** The loop of [DecodeLastRuneInString] that goes back to the start of
    the last rune, at most to [lim]. *)
Fixpoint back (fuel : nat) (s : string) (start lim : Z) : Z :=
  match fuel with
  | O => start
  | S fuel' =>
      if (start <? lim)%Z then start
      else if RuneStart (byte_at s (Z.to_nat start)) then start
      else back fuel' s (start - 1)%Z lim
  end.

(** [utf8.DecodeLastRuneInString(s)]: the last rune and its width. *)
Definition DecodeLastRuneInString (s : string) : N * nat :=
  let e := String.length s in
  match e with
  | O => (RuneError, 0%nat)
  | S last =>
      let r := byte_at s last in
      if (r <? RuneSelf)%N then (r, 1%nat)
      else
        let lim := Z.max 0 (Z.of_nat e - Z.of_nat UTFMax) in
        let start := back UTFMax s (Z.of_nat last - 1)%Z lim in
        let start := Z.to_nat (Z.max 0 start) in
        let (r, size) := DecodeRuneInString (from start s) in
        if Nat.eqb (start + size) e then (r, size) else (RuneError, 1%nat)
  end.

End utf8.

Module unicode.

(** [unicode.IsSpace(r)]: the Latin-1 spaces, and outside Latin-1 the runes
    of the property White_Space. *)
Definition IsSpace (r : N) : bool :=
  (if r <=? 255 then
     (r =? 9) || (r =? 10) || (r =? 11) || (r =? 12) || (r =? 13)
     || (r =? 32) || (r =? 133) || (r =? 160)
   else
     (r =? 5760) || ((8192 <=? r) && (r <=? 8202)) || (r =? 8232)
     || (r =? 8233) || (r =? 8239) || (r =? 8287) || (r =? 12288))%N.

End unicode.

(* ===================================================================== *)
(** ** package strings *)
(* ===================================================================== *)

Module strings.

(** [s[n:]] *)
Fixpoint drop (n : nat) (s : string) : string :=
  match n, s with
  | O, _ => s
  | S n', String _ s' => drop n' s'
  | S _, EmptyString => EmptyString
  end.

(** [s[:n]] *)
Fixpoint take (n : nat) (s : string) : string :=
  match n, s with
  | O, _ => EmptyString
  | S n', String c s' => String c (take n' s')
  | S _, EmptyString => EmptyString
  end.

(** [strings.Index(s, sep)]: the first position where [sep] starts;
    [None] stands for -1. *)
Fixpoint Index (s sep : string) : option nat :=
  if String.prefix sep s then Some O
  else match s with
       | EmptyString => None
       | String _ s' => option_map S (Index s' sep)
       end.

(** The loop of [genSplit]: at most [k] cuts, then the rest. *)
Fixpoint genSplit_loop (k : nat) (s sep : string) : list string :=
  match k with
  | O => [s]
  | S k' =>
      match Index s sep with
      | None => [s]
      | Some m =>
          take m s :: genSplit_loop k' (drop (m + String.length sep) s) sep
      end
  end.

(** [strings.SplitN(s, sep, n)] for a non-empty [sep] and [n >= 0], which
    is how this code calls it (the separator is a colon, [n] is 2). *)
Definition SplitN (s sep : string) (n : nat) : list string :=
  match n with
  | O => []
  | S _ => genSplit_loop (Nat.min n (String.length s + 1) - 1) s sep
  end.

(** The table [asciiSpace] of [TrimSpace]. *)
Definition asciiSpace (c : N) : bool :=
  ((c =? 9) || (c =? 10) || (c =? 11) || (c =? 12) || (c =? 13)
   || (c =? 32))%N.

(** [strings.TrimLeftFunc(s, unicode.IsSpace)] *)
Fixpoint TrimLeftFunc_loop (fuel : nat) (s : string) : string :=
  match fuel, s with
  | S fuel', String _ _ =>
      let (r, size) := utf8.DecodeRuneInString s in
      if unicode.IsSpace r then TrimLeftFunc_loop fuel' (drop size s) else s
  | _, _ => s
  end.

Definition TrimLeftFunc (s : string) : string :=
  TrimLeftFunc_loop (String.length s) s.

(** [lastIndexFunc(s, unicode.IsSpace, false)]: where the last rune that is
    no space starts; [None] stands for -1. *)
Fixpoint lastIndexFunc_loop (fuel : nat) (s : string) (i : nat)
  : option nat :=
  match fuel, i with
  | S fuel', S _ =>
      let (r, size) := utf8.DecodeLastRuneInString (take i s) in
      let i := (i - size)%nat in
      if negb (unicode.IsSpace r) then Some i
      else lastIndexFunc_loop fuel' s i
  | _, _ => None
  end.

(** [strings.TrimRightFunc(s, unicode.IsSpace)] *)
Definition TrimRightFunc (s : string) : string :=
  match lastIndexFunc_loop (String.length s) s (String.length s) with
  | Some i =>
      if (utf8.RuneSelf <=? utf8.byte_at s i)%N then
        let (_, wid) := utf8.DecodeRuneInString (drop i s) in
        take (i + wid) s
      else take (i + 1) s
  | None => EmptyString
  end.

(** [strings.TrimFunc(s, unicode.IsSpace)] *)
Definition TrimFunc (s : string) : string := TrimRightFunc (TrimLeftFunc s).

(** The second loop of [TrimSpace], over the end of [s[start:]]. *)
Fixpoint TrimSpace_stop (s : string) (stop : nat) : string :=
  match stop with
  | O => EmptyString
  | S stop' =>
      let c := utf8.byte_at s stop' in
      if (utf8.RuneSelf <=? c)%N then TrimRightFunc (take stop s)
      else if asciiSpace c then TrimSpace_stop s stop'
      else take stop s
  end.

(** [strings.TrimSpace(s)]: the bytes of the ASCII spaces are skipped at
    both ends; at the first byte that is not ASCII the rest is trimmed rune
    by rune. *)
Fixpoint TrimSpace (s : string) : string :=
  match s with
  | EmptyString => EmptyString
  | String c t =>
      let b := N_of_ascii c in
      if (utf8.RuneSelf <=? b)%N then TrimFunc s
      else if asciiSpace b then TrimSpace t
      else TrimSpace_stop s (String.length s)
  end.

End strings.


(* ===================================================================== *)
(** ** package envapi *)
(* ===================================================================== *)

Definition MethodGet : string := "GET".
Definition MethodPost : string := "POST".
Definition MethodPut : string := "PUT".
Definition StatusOK : Z := 200.
Definition StatusMultipleChoices : Z := 300.

Definition string_empty (s : string) : bool :=
  match s with EmptyString => true | _ => false end.

(** [code < http.StatusOK || code >= http.StatusMultipleChoices] *)
Definition status_failed (code : Z) : bool :=
  (code <? StatusOK)%Z || (code >=? StatusMultipleChoices)%Z.
Arguments status_failed code : simpl never.

Definition NewTargetEnvironment (tokenSet : auth.TokenSet)
    (stackApiBaseURL humanId : string) : TargetEnvironment :=
  {| TokenSet := tokenSet;
     StackApiBaseURL := stackApiBaseURL;
     HumanId := humanId;
     Resty := resty.mkClient (auth.AccessToken tokenSet) stackApiBaseURL |}.

Section Envapi.

Variable w : World.

(** [client.R().Get(path)], [client.R().SetBody(body).Post(path)], ... *)
Definition resty_call (client : resty.Client) (method path : string)
    (body : option string) : M (resty.Response + foreign_error) :=
  emit (HttpCall client method path body) ;;
  ret (resty_Execute w client method path body).

Definition httpRequest {T} `{Response T} (client : resty.Client)
    (method path : string) (body : option string) : M (result T) :=
  (* Perform the request *)
  r <- (if String.eqb method MethodGet then
          resty_call client MethodGet path None
        else if String.eqb method MethodPost then
          resty_call client MethodPost path body
        else
          log_Panic "HTTP request method not implemented") ;;
  match r with
  | inr err =>
      (* Handle request errors *)
      ret (None, Some (wrapError
             (method ++ " request to " ++ path ++ " failed: " ++ fe_text err)
             (foreign err)))
  | inl response =>
      (* Check response status code *)
      if status_failed (resty.StatusCode response) then
        ret (None, Some (errorString
               (method ++ " request to " ++ path ++
                " failed with status code " ++
                itoa (resty.StatusCode response))))
      else
        match response_shape with
        | PlainText conv =>
            (* TResponse is string: the body of the response as plaintext *)
            ret (Some (conv (resty_String w response)), None)
        | Structured _ =>
            (* complex types: unmarshal the body as JSON *)
            let rawBody := resty.Body response in
            match json_Unmarshal_ptr rawBody with
            | (_, Some err) =>
                emit (Log ErrorLevel
                        ("Failed to unmarshal response: " ++ fe_text err ++
                         ", raw body: " ++ rawBody)) ;;
                ret (None, Some (foreign err))
            | (result, None) => ret (result, None)
            end
        end
  end.

Definition httpGetRequest {T} `{Response T} (client : resty.Client)
    (path : string) : M (result T) :=
  httpRequest client MethodGet path None.

Definition httpPostRequest {T} `{Response T} (client : resty.Client)
    (path : string) (body : option string) : M (result T) :=
  httpRequest client MethodPost path body.

Context {JSON_AWSCredentials : JSON AWSCredentials}.
Context {JSON_KubeExecCredential : JSON KubeExecCredential}.
Context {JSON_EnvironmentDetails : JSON EnvironmentDetails}.
Context {Y : YAML}.

(** Request details about an environment from the StackAPI. *)
Definition GetDetails (target : TargetEnvironment)
  : M (result EnvironmentDetails) :=
  let path := "/v0/deployments/" ++ HumanId target in
  httpGetRequest (Resty target) path.

(** Get a short-lived kubeconfig with the access credentials embedded in
    the kubeconfig file. *)
Definition GetKubeConfigWithEmbeddedCredentials (target : TargetEnvironment)
  : M (result string) :=
  emit (Log DebugLevel "Fetching kubeconfig with embedded secret") ;;
  let path := "/v0/credentials/" ++ HumanId target ++ "/k8s" in
  httpPostRequest (Resty target) path None.

(** Get the Kubernetes credentials in the execcredential format. *)
Definition GetKubeExecCredential (target : TargetEnvironment)
  : M (result string) :=
  let path :=
    "/v0/credentials/" ++ HumanId target ++ "/k8s?type=execcredential" in
  httpPostRequest (Resty target) path None.

(** The [KubeConfig] literal handed to [yaml.Marshal]. *)
Definition kubeConfigDocument (target : TargetEnvironment)
    (cluster : clientauthentication.Cluster)
    (environment : EnvironmentDetails)
    (userinfo : auth.UserInfoResponse) : KubeConfig :=
  {| ApiVersion := "v1";
     Clusters :=
       [ {| cluster_Cluster :=
              {| CertificateAuthorityData :=
                   base64_EncodeToString w
                     (clientauthentication.CertificateAuthorityData cluster);
                 Server := clientauthentication.Server cluster |};
            cluster_Name := clientauthentication.Server cluster |} ];
     Contexts :=
       [ {| context_Context :=
              {| context_cluster := clientauthentication.Server cluster;
                 context_namespace :=
                   KubernetesNamespace (Deployment environment);
                 context_user := auth.Email userinfo |};
            context_Name := HumanId target |} ];
     CurrentContext := HumanId target;
     Kind := "Config";
     Preferences := [];
     Users :=
       [ {| user_Name := auth.Email userinfo;
            user_User :=
              {| Token := "";
                 Exec :=
                   {| Command := "metaplay";
                      Args := [ "environment";
                                "get-kubernetes-execcredential";
                                "--stack-api";
                                StackApiBaseURL target;
                                "--environment";
                                HumanId target ];
                      exec_ApiVersion :=
                        "client.authentication.k8s.io/v1beta1";
                      InteractiveMode := "Never" |} |} |} ] |}.

(** Get a kubeconfig payload which invokes the CLI to get the actual access
    credentials each time the kubeconfig is used. *)
Definition GetKubeConfigWithExecCredential (target : TargetEnvironment)
  : M (result string) :=
  let path :=
    "/v0/credentials/" ++ HumanId target ++ "/k8s?type=execcredential" in
  emit (Log DebugLevel
          ("Getting Kubernetes KubeConfig with execcredential from " ++
           resty.BaseURL (Resty target) ++ path ++ "...")) ;;
  '(credentials, err) <- httpPostRequest (Resty target) path None ;;
  match err with
  | Some e => ret (None, Some e)
  | None =>
  credentials <- deref credentials ;;
  cluster <- deref (clientauthentication.Cluster_ (Spec credentials)) ;;
  if string_empty (clientauthentication.CertificateAuthorityData cluster)
     && string_empty (clientauthentication.Server cluster) then
    ret (None, Some (errorString
           "Received kubeExecCredential with missing spec.cluster"))
  else
  (* Fetch environment namespace *)
  '(environment, err) <- GetDetails target ;;
  match err with
  | Some e => ret (None, Some e)
  | None =>
  environment <- deref environment ;;
  if string_empty (KubernetesNamespace (Deployment environment)) then
    ret (None, Some (errorString
           "Environment details did not contain a valid Kubernetes namespace"))
  else
  emit (FetchUserInfoCall (TokenSet target)) ;;
  match auth_FetchUserInfo w (TokenSet target) with
  | inr e =>
      ret (None, Some (wrapError
             ("Failed to fetch userinfo: " ++ fe_text e) (foreign e)))
  | inl userinfo =>
      let dump :=
        yaml_Marshal (kubeConfigDocument target cluster environment userinfo) in
      ret (Some dump, None)
  end
  end
  end.

(** Get AWS credentials against the target environment. *)
Definition GetAWSCredentials (target : TargetEnvironment)
  : M (result AWSCredentials) :=
  let path := "/v0/credentials/" ++ HumanId target ++ "/aws" in
  '(awsCredentials, err) <- httpPostRequest (Resty target) path None ;;
  (* [awsCredentials.AccessKeyId] is read before [err] is looked at *)
  credentials <- deref awsCredentials ;;
  if string_empty (AccessKeyId credentials) then
    ret (None, Some (errorString "AWS credentials missing AccessKeyId"))
  else if string_empty (SecretAccessKey credentials) then
    ret (None, Some (errorString "AWS credential missing SecretAccessKey"))
  else
    ret (awsCredentials, err).

(** Get Docker credentials for the environment's docker registry. *)
Definition GetDockerCredentials (target : TargetEnvironment)
    (envDetails : EnvironmentDetails) : M (result DockerCredentials) :=
  (* Fetch AWS credentials from Metaplay cloud *)
  emit (Log DebugLevel "Get AWS credentials") ;;
  '(awsCredentials, err) <- GetAWSCredentials target ;;
  match err with
  | Some e =>
      ret (None, Some (errorString
             ("failed to get AWS credentials: " ++ Error e)))
  | None =>
  (* Create AWS config with provided region and credentials *)
  emit (Log DebugLevel "Create AWS config") ;;
  awsCredentials <- deref awsCredentials ;;
  let cfg :=
    {| aws.Region := AwsRegion (Deployment envDetails);
       aws.Provider :=
         {| aws.AccessKeyID := AccessKeyId awsCredentials;
            aws.SecretAccessKey := SecretAccessKey awsCredentials;
            aws.SessionToken := SessionToken awsCredentials |} |} in
  emit (LoadDefaultConfigCall cfg) ;;
  match config_LoadDefaultConfig w cfg with
  | Some e => ret (None, Some (foreign e))
  | None =>
  (* Create an ECR client *)
  emit (Log DebugLevel "Create ECR client") ;;
  (* Fetch the ECR docker authentication token *)
  emit (Log DebugLevel "Fetch ECR login credentials from AWS") ;;
  emit (GetAuthorizationTokenCall cfg) ;;
  match ecr_GetAuthorizationToken w cfg with
  | inr e => ret (None, Some (foreign e))
  | inl response =>
  match ecr.AuthorizationData_ response with
  | {| ecr.AuthorizationToken := Some authorization64;
       ecr.ProxyEndpoint := Some registryURL |} :: _ =>
      (* Parse username and password from the response (separated by a ':') *)
      emit (Log DebugLevel "Parse ECR response") ;;
      match base64_DecodeString w authorization64 with
      | inr e => ret (None, Some (foreign e))
      | inl authorization =>
          match strings.SplitN authorization ":" 2 with
          | [username; password] =>
              emit (Log DebugLevel
                      ("ECR: username=" ++ username ++
                       ", proxyEndpoint=" ++ registryURL)) ;;
              ret (Some {| Username := username;
                           Password := password;
                           RegistryURL := registryURL |}, None)
          | _ =>
              ret (None, Some (errorString
                     "failed to parse authorization token"))
          end
      end
  | _ =>
      ret (None, Some (errorString
             "received an empty authorization token response for ECR repository"))
  end
  end
  end
  end.

End Envapi.

(* ===================================================================== *)
(** ** package metahttp *)
(* ===================================================================== *)

Module metahttp.

Record Client : Type := mkClient {
  TokenSet : auth.TokenSet;  (* Tokens to use to access the environment. *)
  BaseURL : string;          (* Base URL of the target API *)
  Resty : resty.Client       (* Resty client with authorization header configured. *)
}.

Definition NewClient (tokenSet : auth.TokenSet) (baseURL : string) : Client :=
  {| TokenSet := tokenSet;
     BaseURL := baseURL;
     Resty := resty.mkClient (auth.AccessToken tokenSet) baseURL |}.

Section Request.

Variable w : World.

(** Make a HTTP request to the target URL with the specified method and
    body, and unmarshal the response into the specified type.  The result
    is a value, not a pointer. *)
Definition Request {T} {R : Response T} (c : Client) (method url : string)
    (body : option string) : M (T * option error) :=
  let result := zero_value R in
  (* Perform the request *)
  r <- (if String.eqb method MethodGet then
          resty_call w (Resty c) MethodGet url None
        else if String.eqb method MethodPost then
          resty_call w (Resty c) MethodPost url body
        else if String.eqb method MethodPut then
          resty_call w (Resty c) MethodPut url body
        else
          log_Panic ("HTTP request method '" ++ method ++
                     "' not implemented")) ;;
  match r with
  | inr err =>
      (* Handle request errors *)
      ret (result, Some (wrapError
             (method ++ " request to " ++ BaseURL c ++ url ++
              " failed: " ++ fe_text err)
             (foreign err)))
  | inl response =>
      (* Check response status code *)
      if status_failed (resty.StatusCode response) then
        ret (result, Some (errorString
               (method ++ " request to " ++ BaseURL c ++ url ++
                " failed with status code " ++
                itoa (resty.StatusCode response))))
      else
        match R with
        | PlainText conv =>
            ret (conv (resty_String w response), None)
        | Structured _ =>
            let rawBody := resty.Body response in
            match json_Unmarshal rawBody result with
            | (result, Some err) =>
                emit (Log ErrorLevel
                        ("Failed to unmarshal response: " ++ fe_text err ++
                         ", raw body: " ++ rawBody)) ;;
                ret (result, Some (foreign err))
            | (result, None) => ret (result, None)
            end
        end
  end.

Definition Get {T} `{Response T} (c : Client) (url : string)
  : M (T * option error) :=
  Request c MethodGet url None.

Definition Post {T} `{Response T} (c : Client) (url : string)
    (body : option string) : M (T * option error) :=
  Request c MethodPost url body.

Definition Put {T} `{Response T} (c : Client) (url : string)
    (body : option string) : M (T * option error) :=
  Request c MethodPut url body.

End Request.

End metahttp.


(* ===================================================================== *)
(** ** Concrete collaborators, to run the operations *)
(* ===================================================================== *)

(** encoding/base64, [StdEncoding]: the RFC 4648 alphabet with padding.
    The decoder goes through the input as [Decode] and [decodeQuantum] do:
    carriage returns and line feeds are skipped wherever they stand, and a
    [CorruptInputError] carries the offset that Go reports. *)
Module base64.

Definition encodeStd : string :=
  "ABCDEFGHIJKLMNOPQRSTUVWXYZabcdefghijklmnopqrstuvwxyz0123456789+/".

Definition digit (n : N) : ascii :=
  match String.get (N.to_nat n) encodeStd with
  | Some c => c
  | None => "="%char
  end.

Fixpoint position (c : ascii) (alphabet : string) : option N :=
  match alphabet with
  | EmptyString => None
  | String a rest =>
      if Ascii.eqb a c then Some 0%N
      else option_map N.succ (position c rest)
  end.

Definition value (c : ascii) : option N := position c encodeStd.

Definition byte (n : N) : ascii := ascii_of_N (n mod 256).

Fixpoint EncodeToString (src : string) : string :=
  match src with
  | EmptyString => EmptyString
  | String a EmptyString =>
      let n := (N_of_ascii a * 65536)%N in
      String (digit (n / 262144)) (String (digit (n / 4096 mod 64)) "==")
  | String a (String b EmptyString) =>
      let n := (N_of_ascii a * 65536 + N_of_ascii b * 256)%N in
      String (digit (n / 262144)) (String (digit (n / 4096 mod 64))
        (String (digit (n / 64 mod 64)) "="))
  | String a (String b (String c rest)) =>
      let n := (N_of_ascii a * 65536 + N_of_ascii b * 256 + N_of_ascii c)%N in
      String (digit (n / 262144)) (String (digit (n / 4096 mod 64))
        (String (digit (n / 64 mod 64)) (String (digit (n mod 64))
          (EncodeToString rest))))
  end.

Definition CorruptInputError (offset : nat) : foreign_error :=
  {| fe_type := "base64.CorruptInputError";
     fe_text := "illegal base64 data at input byte " ++
                itoa (Z.of_nat offset) |}.

Definition newline (c : ascii) : bool :=
  Ascii.eqb c "010" || Ascii.eqb c "013".

Definition is_pad (c : ascii) : bool := Ascii.eqb c "=".

(** The loops of [decodeQuantum] that skip over newlines. *)
Fixpoint skip_newlines (s : string) (si : nat) : string * nat :=
  match s with
  | String c rest =>
      if newline c then skip_newlines rest (S si) else (s, si)
  | EmptyString => (s, si)
  end.

(** The bytes of a quantum of [dlen] digits, the digits that are missing
    counted as zero. *)
Definition quantum (dbuf : list N) : string :=
  let val := (nth 0 dbuf 0 * 262144 + nth 1 dbuf 0 * 4096
              + nth 2 dbuf 0 * 64 + nth 3 dbuf 0)%N in
  match List.length dbuf with
  | 4%nat => String (byte (val / 65536))
               (String (byte (val / 256)) (String (byte val) EmptyString))
  | 3%nat => String (byte (val / 65536))
               (String (byte (val / 256)) EmptyString)
  | 2%nat => String (byte (val / 65536)) EmptyString
  | _ => EmptyString
  end.

(** The padding of a quantum of [j] digits, its first = already consumed:
    what is left of the input behind the padding, or the error. *)
Definition padding (j : nat) (rest : string) (si : nat)
  : string * nat + foreign_error :=
  match j with
  | 0%nat | 1%nat =>
      (* incorrect padding *)
      inr (CorruptInputError (si - 1))
  | 2%nat =>
      (* == is expected, the first = is already consumed *)
      let (rest, si) := skip_newlines rest si in
      match rest with
      | EmptyString =>
          (* not enough padding *)
          inr (CorruptInputError si)
      | String c rest' =>
          if negb (is_pad c) then
            (* incorrect padding *)
            inr (CorruptInputError (si - 1))
          else inl (rest', S si)
      end
  | _ => inl (rest, si)
  end.

(** The loop of [Decode] over [decodeQuantum]: [s] is [src[si:]] and [dbuf]
    holds the [j] digits of the quantum read so far.  The bytes decoded
    before an error are not kept, since the code reads them only when there
    is no error. *)
Fixpoint decode (s : string) (si : nat) (dbuf : list N)
  : string + foreign_error :=
  match s with
  | EmptyString =>
      match dbuf with
      | [] => inl EmptyString
      | _ => inr (CorruptInputError (si - List.length dbuf))
      end
  | String c rest =>
      let si := S si in
      match value c with
      | Some out =>
          let dbuf := (dbuf ++ [out])%list in
          if Nat.eqb (List.length dbuf) 4 then
            match decode rest si [] with
            | inl tail => inl (quantum dbuf ++ tail)
            | inr e => inr e
            end
          else decode rest si dbuf
      | None =>
          if newline c then decode rest si dbuf
          else if negb (is_pad c) then inr (CorruptInputError (si - 1))
          else
            (* We've reached the end and there's padding *)
            match padding (List.length dbuf) rest si with
            | inr e => inr e
            | inl (rest, si) =>
                let (rest, si) := skip_newlines rest si in
                match rest with
                | EmptyString => inl (quantum dbuf)
                | String _ _ =>
                    (* trailing garbage *)
                    inr (CorruptInputError si)
                end
            end
      end
  end.

(** [base64.StdEncoding.DecodeString(s)] *)
Definition DecodeString (s : string) : string + foreign_error :=
  decode s 0 [].

End base64.

(** A serialization of [KubeConfig] that parses back, standing in for YAML
    when an operation is run: every byte of a scalar goes behind a dot, a
    semicolon closes the scalar, and sequences nest as scalars. *)
Module wire.

Fixpoint quote (s : string) : string :=
  match s with
  | EmptyString => ";"
  | String c rest => String "." (String c (quote rest))
  end.

Fixpoint fields (l : list string) : string :=
  match l with
  | [] => EmptyString
  | a :: rest => quote a ++ fields rest
  end.

(** The scalars of a text, followed by whatever was left unclosed. *)
Fixpoint scan (s : string) : list string :=
  match s with
  | EmptyString => [EmptyString]
  | String m s1 =>
      if Ascii.eqb m "." then
        match s1 with
        | EmptyString => [EmptyString]
        | String c s2 =>
            match scan s2 with
            | h :: t => String c h :: t
            | [] => []
            end
        end
      else if Ascii.eqb m ";" then EmptyString :: scan s1
      else [EmptyString]
  end.

Definition unfields (s : string) : list string := removelast (scan s).

Fixpoint mapM {A B} (f : A -> option B) (l : list A) : option (list B) :=
  match l with
  | [] => Some []
  | a :: rest =>
      match f a, mapM f rest with
      | Some b, Some bs => Some (b :: bs)
      | _, _ => None
      end
  end.

Definition sequence {A} (enc : A -> string) (l : list A) : string :=
  fields (map enc l).

Definition unsequence {A} (dec : string -> option A) (s : string)
  : option (list A) :=
  mapM dec (unfields s).

Definition enc_cluster (c : KubeConfigCluster) : string :=
  fields [ cluster_Name c;
           CertificateAuthorityData (cluster_Cluster c);
           Server (cluster_Cluster c) ].

Definition dec_cluster (s : string) : option KubeConfigCluster :=
  match unfields s with
  | [name; ca; server] =>
      Some {| cluster_Cluster :=
                {| CertificateAuthorityData := ca; Server := server |};
              cluster_Name := name |}
  | _ => None
  end.

Definition enc_context (c : KubeConfigContext) : string :=
  fields [ context_Name c;
           context_cluster (context_Context c);
           context_user (context_Context c);
           context_namespace (context_Context c) ].

Definition dec_context (s : string) : option KubeConfigContext :=
  match unfields s with
  | [name; cluster; user; namespace] =>
      Some {| context_Context :=
                {| context_cluster := cluster;
                   context_user := user;
                   context_namespace := namespace |};
              context_Name := name |}
  | _ => None
  end.

Definition enc_user (u : KubeConfigUser) : string :=
  let e := Exec (user_User u) in
  fields [ user_Name u; Token (user_User u); Command e; fields (Args e);
           exec_ApiVersion e; InteractiveMode e ].

Definition dec_user (s : string) : option KubeConfigUser :=
  match unfields s with
  | [name; token; command; args; apiVersion; interactiveMode] =>
      Some {| user_Name := name;
              user_User :=
                {| Token := token;
                   Exec := {| Command := command;
                              Args := unfields args;
                              exec_ApiVersion := apiVersion;
                              InteractiveMode := interactiveMode |} |} |}
  | _ => None
  end.

Definition enc_preference (p : string * string) : string :=
  fields [fst p; snd p].

Definition dec_preference (s : string) : option (string * string) :=
  match unfields s with
  | [k; v] => Some (k, v)
  | _ => None
  end.

Definition Marshal (d : KubeConfig) : string :=
  fields [ ApiVersion d;
           sequence enc_cluster (Clusters d);
           sequence enc_context (Contexts d);
           CurrentContext d;
           Kind d;
           sequence enc_preference (Preferences d);
           sequence enc_user (Users d) ].

Definition Unmarshal (s : string) : option KubeConfig :=
  match unfields s with
  | [apiVersion; clusters; contexts; current; kind; preferences; users] =>
      match unsequence dec_cluster clusters,
            unsequence dec_context contexts,
            unsequence dec_preference preferences,
            unsequence dec_user users with
      | Some cl, Some cx, Some pr, Some us =>
          Some {| ApiVersion := apiVersion;
                  Clusters := cl;
                  Contexts := cx;
                  CurrentContext := current;
                  Kind := kind;
                  Preferences := pr;
                  Users := us |}
      | _, _, _, _ => None
      end
  | _ => None
  end.

End wire.

(** Worlds given by tables: the responses of the StackAPI by method and
    path, and a JSON decoder that knows the bodies listed. *)
Module scripted.

Definition connection_refused : foreign_error :=
  {| fe_type := "*url.Error"; fe_text := "connection refused" |}.

Definition SyntaxError : foreign_error :=
  {| fe_type := "*json.SyntaxError";
     fe_text := "unexpected end of JSON input" |}.

Definition route : Type :=
  (string * string * (resty.Response + foreign_error))%type.

Fixpoint serve (routes : list route) (method path : string)
  : resty.Response + foreign_error :=
  match routes with
  | [] => inr connection_refused
  | (m, p, r) :: rest =>
      if String.eqb m method && String.eqb p path then r
      else serve rest method path
  end.

Fixpoint lookup {T} (table : list (string * T)) (data : string) : option T :=
  match table with
  | [] => None
  | (d, v) :: rest => if String.eqb d data then Some v else lookup rest data
  end.

(** A decoder given by a table of the documents it knows.  The document
    [null] leaves the value as it is and is no error; a document that is
    not in the table is a syntax error. *)
Definition decoder {T} (z : T) (table : list (string * T)) : JSON T :=
  {| zero := z;
     json_Unmarshal := fun data v =>
       if json_null data then (v, None)
       else
         match lookup table data with
         | Some x => (x, None)
         | None => (v, Some SyntaxError)
         end |}.

Definition ok (body : string) : resty.Response + foreign_error :=
  inl {| resty.StatusCode := 200; resty.Body := body |}.

Definition status (code : Z) (body : string)
  : resty.Response + foreign_error :=
  inl {| resty.StatusCode := code; resty.Body := body |}.

Definition world (routes : list route)
    (userinfo : auth.UserInfoResponse + foreign_error)
    (tokens : ecr.GetAuthorizationTokenOutput + foreign_error) : World :=
  {| resty_Execute := fun _ method path _ => serve routes method path;
     auth_FetchUserInfo := fun _ => userinfo;
     config_LoadDefaultConfig := fun _ => None;
     ecr_GetAuthorizationToken := fun _ => tokens;
     base64_DecodeString := base64.DecodeString;
     base64_EncodeToString := base64.EncodeToString;
     strings_TrimSpace := strings.TrimSpace |}.

(** JSON text: a string literal and an object of already printed values. *)
Definition jstring (s : string) : string :=
  String (ascii_of_nat 34) (s ++ String (ascii_of_nat 34) EmptyString).

Fixpoint jmembers (l : list (string * string)) : string :=
  match l with
  | [] => EmptyString
  | [(k, v)] => jstring k ++ ":" ++ v
  | (k, v) :: rest => jstring k ++ ":" ++ v ++ "," ++ jmembers rest
  end.

Definition jobject (l : list (string * string)) : string :=
  "{" ++ jmembers l ++ "}".

(** The environment 'tiny-squids' and what its StackAPI may answer. *)
Definition target : TargetEnvironment :=
  NewTargetEnvironment {| auth.AccessToken := "token" |}
    "https://infra.example/stackapi" "tiny-squids".

Definition aws_path : string := "/v0/credentials/tiny-squids/aws".
Definition k8s_path : string :=
  "/v0/credentials/tiny-squids/k8s?type=execcredential".
Definition details_path : string := "/v0/deployments/tiny-squids".

(* AWS credentials *)
Definition no_credentials : AWSCredentials :=
  {| AccessKeyId := ""; SecretAccessKey := ""; SessionToken := "";
     Expiration := "" |}.

Definition credentials : AWSCredentials :=
  {| AccessKeyId := "AKIAEXAMPLE"; SecretAccessKey := "secret";
     SessionToken := ""; Expiration := "" |}.

Definition no_secret : AWSCredentials :=
  {| AccessKeyId := "AKIAEXAMPLE"; SecretAccessKey := "";
     SessionToken := ""; Expiration := "" |}.

Definition no_key : AWSCredentials :=
  {| AccessKeyId := ""; SecretAccessKey := "secret";
     SessionToken := ""; Expiration := "" |}.

Definition credentials_body : string :=
  jobject [ ("AccessKeyId", jstring "AKIAEXAMPLE");
            ("SecretAccessKey", jstring "secret") ].
Definition no_secret_body : string :=
  jobject [ ("AccessKeyId", jstring "AKIAEXAMPLE");
            ("SecretAccessKey", jstring "") ].
Definition no_key_body : string :=
  jobject [ ("AccessKeyId", jstring "");
            ("SecretAccessKey", jstring "secret") ].

Definition JSON_AWSCredentials : JSON AWSCredentials :=
  decoder no_credentials
    [ (credentials_body, credentials);
      (no_secret_body, no_secret);
      (no_key_body, no_key) ].

(* exec credentials *)
Definition exec_credential (cluster : option clientauthentication.Cluster)
  : KubeExecCredential :=
  {| exec_cred_ApiVersion := "client.authentication.k8s.io/v1beta1";
     exec_cred_Kind := "ExecCredential";
     Spec := {| clientauthentication.Cluster_ := cluster |};
     Status := {| clientauthentication.Token := "" |} |}.

Definition no_exec_credential : KubeExecCredential :=
  {| exec_cred_ApiVersion := ""; exec_cred_Kind := "";
     Spec := {| clientauthentication.Cluster_ := None |};
     Status := {| clientauthentication.Token := "" |} |}.

Definition cluster : clientauthentication.Cluster :=
  {| clientauthentication.Server := "https://k8s.example";
     clientauthentication.CertificateAuthorityData := "CA" |}.

Definition empty_cluster : clientauthentication.Cluster :=
  {| clientauthentication.Server := "";
     clientauthentication.CertificateAuthorityData := "" |}.

Definition exec_body (cluster : string) : string :=
  jobject [ ("apiVersion", jstring "client.authentication.k8s.io/v1beta1");
            ("kind", jstring "ExecCredential");
            ("spec", jobject [("cluster", cluster)]) ].

Definition cluster_body : string :=
  exec_body (jobject [ ("server", jstring "https://k8s.example");
                       ("certificateAuthorityData", jstring "Q0E=") ]).
Definition empty_cluster_body : string := exec_body (jobject []).

(** A payload whose spec has no cluster at all. *)
Definition no_cluster_body : string :=
  jobject [ ("apiVersion", jstring "client.authentication.k8s.io/v1beta1");
            ("kind", jstring "ExecCredential");
            ("spec", jobject []) ].

Definition JSON_KubeExecCredential : JSON KubeExecCredential :=
  decoder no_exec_credential
    [ (cluster_body, exec_credential (Some cluster));
      (empty_cluster_body, exec_credential (Some empty_cluster));
      (no_cluster_body, exec_credential None) ].

(* deployment details *)
Definition details (namespace : string) : EnvironmentDetails :=
  {| Deployment := {| ServerHostname := "tiny-squids.example";
                      KubernetesNamespace := namespace;
                      AwsRegion := "eu-west-1" |} |}.

Definition details_body (namespace : string) : string :=
  jobject [ ("deployment",
             jobject [ ("server_hostname", jstring "tiny-squids.example");
                       ("kubernetes_namespace", jstring namespace);
                       ("aws_region", jstring "eu-west-1") ]) ].

Definition JSON_EnvironmentDetails : JSON EnvironmentDetails :=
  decoder (details "")
    [ (details_body "tiny-squids-ns", details "tiny-squids-ns");
      (details_body "", details "") ].

Definition developer : auth.UserInfoResponse :=
  {| auth.Email := "dev@example.com" |}.

Definition userinfo : auth.UserInfoResponse + foreign_error := inl developer.

Definition no_session : foreign_error :=
  {| fe_type := "*errors.errorString"; fe_text := "not logged in" |}.

(* registry authorization tokens *)
Definition registry : string := "https://123456789012.dkr.ecr.example".

Definition authorization (token : string)
  : ecr.GetAuthorizationTokenOutput + foreign_error :=
  inl {| ecr.AuthorizationData_ :=
           [ {| ecr.AuthorizationToken := Some token;
                ecr.ProxyEndpoint := Some registry |} ] |}.

Definition no_authorization
  : ecr.GetAuthorizationTokenOutput + foreign_error :=
  inl {| ecr.AuthorizationData_ := [] |}.

Definition access_denied : foreign_error :=
  {| fe_type := "*smithy.OperationError"; fe_text := "AccessDenied" |}.

(** A StackAPI that answers everything, and a registry whose token is
    the base64 of [AWS:pass]. *)
Definition healthy : World :=
  world
    [ ("POST", k8s_path, ok cluster_body);
      ("GET", details_path, ok (details_body "tiny-squids-ns"));
      ("POST", aws_path, ok credentials_body) ]
    userinfo (authorization "QVdTOnBhc3M=").

End scripted.

(* ===================================================================== *)
(** ** What the claims speak of *)
(* ===================================================================== *)

(** The status is in [200,300). *)
Definition status_ok (code : Z) : bool :=
  (StatusOK <=? code)%Z && (code <? StatusMultipleChoices)%Z.

(** The StackAPI answers the request with a status in [200,300) and a body
    that decodes, without error, to [p] ([None] when the body is [null]). *)
Definition serves {T} {J : JSON T} (w : World) (client : resty.Client)
    (method path : string) (body : option string) (p : option T) : Prop :=
  exists response,
    resty_Execute w client method path body = inl response /\
    status_ok (resty.StatusCode response) = true /\
    json_Unmarshal_ptr (resty.Body response) = (p, None).

(** The request fails: a transport error, or a status outside [200,300). *)
Definition fails (w : World) (client : resty.Client)
    (method path : string) (body : option string) : Prop :=
  match resty_Execute w client method path body with
  | inr _ => True
  | inl response => status_ok (resty.StatusCode response) = false
  end.

(** The error [httpRequest] builds for a failed request. *)
Definition request_error (w : World) (client : resty.Client)
    (method path : string) (body : option string) : error :=
  match resty_Execute w client method path body with
  | inr err =>
      wrapError (method ++ " request to " ++ path ++ " failed: " ++ fe_text err)
        (foreign err)
  | inl response =>
      errorString (method ++ " request to " ++ path ++
                   " failed with status code " ++
                   itoa (resty.StatusCode response))
  end.

(** The body is served with a status in [200,300) but does not parse. *)
Definition garbles {T} {J : JSON T} (w : World) (client : resty.Client)
    (method path : string) (body : option string)
    (rawBody : string) (partial : T) (cause : foreign_error) : Prop :=
  exists response,
    resty_Execute w client method path body = inl response /\
    status_ok (resty.StatusCode response) = true /\
    resty.Body response = rawBody /\
    json_null rawBody = false /\
    json_Unmarshal rawBody zero = (partial, Some cause).

(** What was asked of the outside, the log left out. *)
Definition is_call (e : event) : bool :=
  match e with
  | Log _ _ => false
  | _ => true
  end.

Definition calls (t : list event) : list event := filter is_call t.

Definition execcredential_path (target : TargetEnvironment) : string :=
  "/v0/credentials/" ++ HumanId target ++ "/k8s?type=execcredential".
Definition deployment_path (target : TargetEnvironment) : string :=
  "/v0/deployments/" ++ HumanId target.
Definition aws_path (target : TargetEnvironment) : string :=
  "/v0/credentials/" ++ HumanId target ++ "/aws".

Definition post_execcredential (target : TargetEnvironment) : event :=
  HttpCall (Resty target) MethodPost (execcredential_path target) None.
Definition get_details (target : TargetEnvironment) : event :=
  HttpCall (Resty target) MethodGet (deployment_path target) None.
Definition fetch_userinfo (target : TargetEnvironment) : event :=
  FetchUserInfoCall (TokenSet target).

(** What [GetKubeConfigWithExecCredential] writes to the log first. *)
Definition announce (target : TargetEnvironment) : event :=
  Log DebugLevel
    ("Getting Kubernetes KubeConfig with execcredential from " ++
     resty.BaseURL (Resty target) ++ execcredential_path target ++ "...").

(** [spec.cluster] carries CA data or a server URL. *)
Definition nonempty_cluster (c : clientauthentication.Cluster) : Prop :=
  clientauthentication.CertificateAuthorityData c <> "" \/
  clientauthentication.Server c <> "".

(** The four identifiers of a kubeconfig: the current context, and the
    names of its contexts, clusters and users. *)
Definition identifiers (d : KubeConfig)
  : string * list string * list string * list string :=
  (CurrentContext d, map context_Name (Contexts d),
   map cluster_Name (Clusters d), map user_Name (Users d)).

(** The AWS configuration [GetDockerCredentials] builds from the region of
    the deployment and the credentials of the environment. *)
Definition aws_config (envDetails : EnvironmentDetails) (c : AWSCredentials)
  : aws.Config :=
  {| aws.Region := AwsRegion (Deployment envDetails);
     aws.Provider :=
       {| aws.AccessKeyID := AccessKeyId c;
          aws.SecretAccessKey := SecretAccessKey c;
          aws.SessionToken := SessionToken c |} |}.

(** Everything before the registry's answer went well, and the answer is
    [out]: the StackAPI served complete credentials, the AWS configuration
    loaded, and the authorization-token request returned [out]. *)
Definition registry_answers {J : JSON AWSCredentials} (w : World)
    (target : TargetEnvironment) (envDetails : EnvironmentDetails)
    (out : ecr.GetAuthorizationTokenOutput) : Prop :=
  exists c,
    serves w (Resty target) MethodPost (aws_path target) None (Some c) /\
    AccessKeyId c <> "" /\
    SecretAccessKey c <> "" /\
    config_LoadDefaultConfig w (aws_config envDetails c) = None /\
    ecr_GetAuthorizationToken w (aws_config envDetails c) = inl out.

(** The result list is empty, or its first element lacks the token or the
    proxy endpoint. *)
Definition missing_authorization (out : ecr.GetAuthorizationTokenOutput)
  : Prop :=
  match ecr.AuthorizationData_ out with
  | [] => True
  | d :: _ =>
      ecr.AuthorizationToken d = None \/ ecr.ProxyEndpoint d = None
  end.

(** The body that goes out with a request: none with a GET, which is sent
    without [SetBody]. *)
Definition sent (method : string) (body : option string) : option string :=
  if String.eqb method MethodGet then None else body.

(** After the call itself, a request executor writes at most error-level
    lines to the log. *)
Definition only_errors_logged (log : list event) : Prop :=
  forall e, In e log -> exists msg, e = Log ErrorLevel msg.

(** The line written to the log when a body does not parse. *)
Definition unmarshal_failure (cause : foreign_error) (rawBody : string)
  : event :=
  Log ErrorLevel ("Failed to unmarshal response: " ++ fe_text cause ++
                  ", raw body: " ++ rawBody).

(** The spec's names for the errors the code builds in place. *)
Definition MissingClusterInfoError : error :=
  errorString "Received kubeExecCredential with missing spec.cluster".
Definition MissingNamespaceError : error :=
  errorString "Environment details did not contain a valid Kubernetes namespace".
Definition IdentityResolutionError (cause : foreign_error) : error :=
  wrapError ("Failed to fetch userinfo: " ++ fe_text cause) (foreign cause).
Definition IncompleteCredentialError_AccessKeyId : error :=
  errorString "AWS credentials missing AccessKeyId".
Definition IncompleteCredentialError_SecretAccessKey : error :=
  errorString "AWS credential missing SecretAccessKey".
Definition EmptyAuthorizationTokenError : error :=
  errorString "received an empty authorization token response for ECR repository".
Definition AuthorizationTokenParseError : error :=
  errorString "failed to parse authorization token".

(** [strings.Contains(s, substr)] *)
Definition Contains (s substr : string) : bool :=
  match strings.Index s substr with
  | Some _ => true
  | None => false
  end.

(** Modelled from the spec's words, for comparison with what the code
    returns: a [DecodeError{path, cause}] is an error of its own that
    carries the path and has the parse error as its cause. *)
Definition is_DecodeError (path : string) (cause : foreign_error)
    (e : error) : Prop :=
  Unwrap e = Some (foreign cause) /\ Contains (Error e) path = true.

(** No colon among the bytes of [s]. *)
Definition colon_free (s : string) : Prop :=
  ~ In ":"%char (list_ascii_of_string s).

(* ===================================================================== *)
(** ** package metahttp: Download *)
(* ===================================================================== *)

Section Download.

(** [c.Resty.R().SetOutput(filePath).Get(url)]: the response, or the error
    of the transport. *)
Variable resty_Output :
  resty.Client -> string -> string -> resty.Response + foreign_error.

(** Download a file from the specified URL to the specified file path. *)
Definition Download (c : metahttp.Client) (url filePath : string)
  : result resty.Response :=
  match resty_Output (metahttp.Resty c) filePath url with
  | inr err =>
      (None,
       Some (wrapError
               ("Failed to download file from " ++ metahttp.BaseURL c ++
                filePath ++ ": " ++ fe_text err)
               (foreign err)))
  | inl response => (Some response, None)
  end.

End Download.

(** The first [k] of the calls [GetKubeConfigWithExecCredential] may make,
    in the order it makes them. *)
Definition kubeconfig_calls (target : TargetEnvironment) : list event :=
  [post_execcredential target; get_details target; fetch_userinfo target].

(** The calls of [GetDockerCredentials], for credentials [c]. *)
Definition post_aws (target : TargetEnvironment) : event :=
  HttpCall (Resty target) MethodPost (aws_path target) None.

Definition docker_calls (target : TargetEnvironment)
    (envDetails : EnvironmentDetails) (c : AWSCredentials) : list event :=
  [ post_aws target;
    LoadDefaultConfigCall (aws_config envDetails c);
    GetAuthorizationTokenCall (aws_config envDetails c) ].


(* ===================================================================== *)
(** ** package strings, continued; fmt *)
(* ===================================================================== *)

(** [strings.Join(elems, sep)] *)
Fixpoint Join (elems : list string) (sep : string) : string :=
  match elems with
  | [] => EmptyString
  | [a] => a
  | a :: rest => a ++ sep ++ Join rest sep
  end.

(** [strings.HasSuffix(s, suffix)] *)
Definition HasSuffix (s suffix : string) : bool :=
  (String.length suffix <=? String.length s)%nat &&
  String.eqb (strings.drop (String.length s - String.length suffix) s) suffix.

(** The loop of [strings.Replace] for a non-empty [old]: cut at the next
    [old], at most [k] times. *)
Fixpoint Replace_loop (k : nat) (s old new : string) : string :=
  match k with
  | O => s
  | S k' =>
      match strings.Index s old with
      | None => s
      | Some j =>
          strings.take j s ++ new ++
          Replace_loop k' (strings.drop (j + String.length old) s) old new
      end
  end.

(** [strings.Replace(s, old, new, -1)] for a non-empty [old]: every
    occurrence, left to right, without overlap.  There are at most
    [len(s)] of them. *)
Definition ReplaceAll (s old new : string) : string :=
  if String.eqb old new then s
  else Replace_loop (String.length s) s old new.

(** [%v] of a [[]string] *)
Definition fmt_strings (l : list string) : string := "[" ++ Join l " " ++ "]".

(* ===================================================================== *)
(** ** package styles *)
(* ===================================================================== *)

Module styles.

(** [supportscolor.Support], as far as [init] reads it. *)
Record Support : Type := mkSupport {
  SupportsColor : bool;
  Has256 : bool;
  Has16m : bool
}.

(** [lipgloss.Color] *)
Definition Color : Type := string.

(** [lipgloss.Style], as far as [init] sets it. *)
Record Style : Type := mkStyle {
  foreground : option Color;
  bold : bool
}.

Definition NewStyle : Style := {| foreground := None; bold := false |}.
Definition Foreground (s : Style) (c : Color) : Style :=
  {| foreground := Some c; bold := bold s |}.
Definition Bold (s : Style) (v : bool) : Style :=
  {| foreground := foreground s; bold := v |}.

(** The variables of the package that [init] assigns. *)
Record Globals : Type := mkGlobals {
  ColorNeutral : Color;
  ColorOrange : Color;
  ColorGreen : Color;
  ColorBlue : Color;
  ColorRed : Color;
  ColorYellow : Color;
  StyleTitle : Style;
  StyleSuccess : Style;
  StyleError : Style;
  StyleWarning : Style;
  StyleTechnical : Style;
  StyleMuted : Style;
  StylePrompt : Style
}.

(** [init], given what [supportscolor.SupportsColor] answers for the
    standard output. *)
Definition init (colorSupport : Support) : Globals :=
  (* Use appropriate colors based on terminal capabilities *)
  let '(ColorNeutral, ColorOrange, ColorGreen, ColorBlue, ColorRed,
        ColorYellow) :=
    if Has16m colorSupport then
      (* Terminal supports true color (24-bit) *)
      ("#737373", "#ff7a00", "#28a745", "#2d90dc", "#ef4444", "#ffff55")
    else if Has256 colorSupport then
      (* Terminal supports 256 colors (8-bit) *)
      ("240", "208", "34", "33", "196", "226")
    else if SupportsColor colorSupport then
      (* Terminal only supports basic 16 colors *)
      ("darkgray", "yellow", "green", "blue", "red", "yellow")
    else
      (* Fallback for terminals with no color support *)
      ("white", "white", "white", "white", "white", "white") in
  (* Initialize styles with the appropriate colors *)
  {| ColorNeutral := ColorNeutral;
     ColorOrange := ColorOrange;
     ColorGreen := ColorGreen;
     ColorBlue := ColorBlue;
     ColorRed := ColorRed;
     ColorYellow := ColorYellow;
     StyleTitle := Bold (Foreground NewStyle ColorBlue) true;
     StyleSuccess := Foreground NewStyle ColorGreen;
     StyleError := Foreground NewStyle ColorRed;
     StyleWarning := Foreground NewStyle ColorYellow;
     StyleTechnical := Foreground NewStyle ColorBlue;
     StyleMuted := Foreground NewStyle ColorNeutral;
     StylePrompt := Bold (Foreground NewStyle ColorOrange) true |}.

(** The colors and the styles a run of the program has. *)
Definition colors (g : Globals) : list Color :=
  [ ColorNeutral g; ColorOrange g; ColorGreen g; ColorBlue g; ColorRed g;
    ColorYellow g ].

Definition all_styles (g : Globals) : list Style :=
  [ StyleTitle g; StyleSuccess g; StyleError g; StyleWarning g;
    StyleTechnical g; StyleMuted g; StylePrompt g ].

End styles.

(* ===================================================================== *)
(** ** package cmd: runs of a command *)
(* ===================================================================== *)

Module cmd.

Inductive severity : Type := LDebug | LInfo | LError | LPanic.

(** A helm release, as far as the commands read it. *)
Record Release : Type := mkRelease { Name : string }.

(** What a command does that can be seen from outside. *)
Inductive action : Type :=
| Broker (e : event)                      (* what package envapi did *)
| Say (l : severity) (msg : string)       (* zerolog *)
| RequireLoggedIn                         (* tui.RequireLoggedIn *)
| NewActionConfig (kubeconfig : option string) (namespace : string)
| HelmListReleases (chart : string)
| UninstallRelease (release : Release)
| ExecChild (dir command : string) (args : list string)
| DockerInfo                              (* checkCommand("docker", "info") *)
| Exec (dir : string) (env : list string) (command : string)
       (args : list string)               (* executeCommand *)
| DetectLatest (slug : string)
| UpdateTo (version exe : string).

(** A command returns, calls [os.Exit], or panics. *)
Inductive ending (A : Type) : Type :=
| Done (a : A)
| Exit (code : Z)
| Crash (v : string).
Arguments Done {A} a.
Arguments Exit {A} code.
Arguments Crash {A} v.

Definition C (A : Type) : Type := (ending A * list action)%type.

Definition pure {A} (a : A) : C A := (Done a, []).

Definition andThen {A B} (m : C A) (k : A -> C B) : C B :=
  match m with
  | (Done a, t1) => let (o, t2) := k a in (o, (t1 ++ t2)%list)
  | (Exit code, t1) => (Exit code, t1)
  | (Crash v, t1) => (Crash v, t1)
  end.

Definition act (a : action) : C unit := (Done tt, [a]).
Definition say (l : severity) (msg : string) : C unit := act (Say l msg).
Definition os_Exit {A} (code : Z) : C A := (Exit code, []).
Definition crash {A} (v : string) : C A := (Crash v, []).

(** A call into package envapi: its events, and its panic if it panics. *)
Definition lift {A} (m : M A) : C A :=
  match m with
  | (Returned a, t) => (Done a, map Broker t)
  | (Panicked v, t) => (Crash v, map Broker t)
  end.

Definition ending_of {A} (m : C A) : ending A := fst m.
Definition actions_of {A} (m : C A) : list action := snd m.

(** What was done, the log left out. *)
Definition is_effect (a : action) : bool :=
  match a with
  | Say _ _ => false
  | Broker (Log _ _) => false
  | _ => true
  end.

Definition effects (t : list action) : list action := filter is_effect t.

End cmd.

Declare Scope cmd_scope.
Delimit Scope cmd_scope with cmd.
Notation "x <- m ;; k" := (cmd.andThen m (fun x => k))
  (at level 61, m at next level, right associativity) : cmd_scope.
Notation "' pat <- m ;; k" :=
  (cmd.andThen m (fun x => match x with pat => k end))
  (at level 61, pat pattern, m at next level, right associativity)
  : cmd_scope.
Notation "m ;; k" := (cmd.andThen m (fun _ => k))
  (at level 61, right associativity) : cmd_scope.

(* ===================================================================== *)
(** ** cmd: remove game-server, remove botclients *)
(* ===================================================================== *)

Module remove.

Import cmd.

(** The environment of the project file, as far as the commands read it:
    [StackDomain], [HumanID] and [GetKubernetesNamespace()]. *)
Record EnvironmentConfig : Type := mkEnvironmentConfig {
  StackDomain : string;
  HumanID : string;
  KubernetesNamespace : string
}.

(** What the two commands call that is not among the sources: the project
    and login helpers of package cmd, and package helmutil. *)
Record Deps (Project AuthProvider ActionConfig : Type) : Type := mkDeps {
  tryResolveProject : Project + error;
  getAuthProvider : Project -> AuthProvider;
  tui_RequireLoggedIn : AuthProvider -> auth.TokenSet + error;
  resolveEnvironment :
    Project -> auth.TokenSet -> string -> EnvironmentConfig + error;
  helmutil_NewActionConfig : option string -> string -> ActionConfig + error;
  helmutil_HelmListReleases :
    ActionConfig -> string -> list Release * option error;
  helmutil_UninstallRelease : ActionConfig -> Release -> option error;
  metaplayGameServerChartName : string;
  metaplayLoadTestChartName : string
}.
Arguments tryResolveProject {Project AuthProvider ActionConfig} d.
Arguments getAuthProvider {Project AuthProvider ActionConfig} d.
Arguments tui_RequireLoggedIn {Project AuthProvider ActionConfig} d.
Arguments resolveEnvironment {Project AuthProvider ActionConfig} d.
Arguments helmutil_NewActionConfig {Project AuthProvider ActionConfig} d.
Arguments helmutil_HelmListReleases {Project AuthProvider ActionConfig} d.
Arguments helmutil_UninstallRelease {Project AuthProvider ActionConfig} d.
Arguments metaplayGameServerChartName {Project AuthProvider ActionConfig} d.
Arguments metaplayLoadTestChartName {Project AuthProvider ActionConfig} d.

Record removeGameServerOpts : Type := mkRemoveGameServerOpts {
  game_server_argEnvironment : string
}.

Record removeBotClientsOpts : Type := mkRemoveBotClientsOpts {
  botclients_argEnvironment : string
}.

Section Run.

Context {Project AuthProvider ActionConfig : Type}.
Variable w : World.
Variable d : Deps Project AuthProvider ActionConfig.

Local Open Scope cmd_scope.

(** The loop of remove game-server over the releases. *)
Fixpoint removeReleases (actionConfig : ActionConfig)
    (helmReleases : list Release) : C unit :=
  match helmReleases with
  | [] => pure tt
  | release :: rest =>
      say LInfo ("Remove release " ++ Name release ++ "...") ;;
      act (UninstallRelease release) ;;
      match helmutil_UninstallRelease d actionConfig release with
      | Some err =>
          say LError ("Failed to uninstall Helm release " ++ Name release ++
                      ": " ++ Error err) ;;
          os_Exit 1
      | None => removeReleases actionConfig rest
      end
  end.

(** [removeGameServerOpts.Run] *)
Definition RunGameServer (o : removeGameServerOpts) : C (option error) :=
  (* Try to resolve the project & auth provider. *)
  match tryResolveProject d with
  | inr err => pure (Some err)
  | inl project =>
  let authProvider := getAuthProvider d project in
  (* Ensure the user is logged in. *)
  act RequireLoggedIn ;;
  match tui_RequireLoggedIn d authProvider with
  | inr err => pure (Some err)
  | inl tokenSet =>
  (* Resolve environment. *)
  match resolveEnvironment d project tokenSet (game_server_argEnvironment o) with
  | inr err => pure (Some err)
  | inl envConfig =>
  (* Create TargetEnvironment. *)
  let targetEnv :=
    NewTargetEnvironment tokenSet (StackDomain envConfig) (HumanID envConfig) in
  (* Get kubeconfig to access the environment; err is overwritten below. *)
  '(kubeconfigPayload, _) <-
    lift (GetKubeConfigWithEmbeddedCredentials w targetEnv) ;;
  say LDebug "Resolved kubeconfig to access environment" ;;
  (* Configure Helm. *)
  act (NewActionConfig kubeconfigPayload (KubernetesNamespace envConfig)) ;;
  match helmutil_NewActionConfig d kubeconfigPayload
          (KubernetesNamespace envConfig) with
  | inr err =>
      say LError ("Failed to initialize Helm config: " ++ Error err) ;;
      os_Exit 1
  | inl actionConfig =>
  (* Resolve all deployed game server Helm releases; err is not read. *)
  act (HelmListReleases (metaplayGameServerChartName d)) ;;
  let '(helmReleases, _) :=
    helmutil_HelmListReleases d actionConfig (metaplayGameServerChartName d) in
  if (List.length helmReleases =? 0)%nat then
    say LError "No game server deployment found" ;;
    os_Exit 0
  else
  (* Uninstall all Helm releases. *)
  removeReleases actionConfig helmReleases ;;
  say LInfo "Successfully removed game server deployment" ;;
  pure None
  end
  end
  end
  end.

(** The loop of remove botclients over the releases: the error to return,
    if any. *)
Fixpoint uninstallReleases (actionConfig : ActionConfig)
    (helmReleases : list Release) : C (option error) :=
  match helmReleases with
  | [] => pure None
  | release :: rest =>
      say LInfo ("Uninstall Helm release " ++ Name release ++ "...") ;;
      act (UninstallRelease release) ;;
      match helmutil_UninstallRelease d actionConfig release with
      | Some err =>
          pure (Some (wrapError
                        ("failed to uninstall Helm relese " ++ Name release ++
                         ": " ++ Error err) err))
      | None => uninstallReleases actionConfig rest
      end
  end.

(** [removeBotClientsOpts.Run] *)
Definition RunBotClients (o : removeBotClientsOpts) : C (option error) :=
  match tryResolveProject d with
  | inr err => pure (Some err)
  | inl project =>
  let authProvider := getAuthProvider d project in
  act RequireLoggedIn ;;
  match tui_RequireLoggedIn d authProvider with
  | inr err => pure (Some err)
  | inl tokenSet =>
  match resolveEnvironment d project tokenSet (botclients_argEnvironment o) with
  | inr err => pure (Some err)
  | inl envConfig =>
  let targetEnv :=
    NewTargetEnvironment tokenSet (StackDomain envConfig) (HumanID envConfig) in
  '(kubeconfigPayload, _) <-
    lift (GetKubeConfigWithEmbeddedCredentials w targetEnv) ;;
  say LDebug "Resolved kubeconfig to access environment" ;;
  act (NewActionConfig kubeconfigPayload (KubernetesNamespace envConfig)) ;;
  match helmutil_NewActionConfig d kubeconfigPayload
          (KubernetesNamespace envConfig) with
  | inr err =>
      say LError ("Failed to initialize Helm config: " ++ Error err) ;;
      os_Exit 1
  | inl actionConfig =>
  act (HelmListReleases (metaplayLoadTestChartName d)) ;;
  let '(helmReleases, _) :=
    helmutil_HelmListReleases d actionConfig (metaplayLoadTestChartName d) in
  if (List.length helmReleases =? 0)%nat then
    pure (Some (errorString "no existing bots deployment found"))
  else
  err <- uninstallReleases actionConfig helmReleases ;;
  match err with
  | Some e => pure (Some e)
  | None =>
      say LInfo "Successfully uninstalled bots deployment" ;;
      pure None
  end
  end
  end
  end
  end.

End Run.

End remove.


(* ===================================================================== *)
(** ** cmd: dev botclient *)
(* ===================================================================== *)

Module botclient.

Import cmd.

Record devBotClientOpts : Type := mkDevBotClientOpts {
  flagEnvironment : string;
  extraArgs : list string
}.

(** The project, as far as the command reads it:
    [project.VersionMetadata.MinDotnetSdkVersion] and
    [project.GetBotClientDir()]. *)
Record Project : Type := mkProject {
  MinDotnetSdkVersion : string;
  BotClientDir : string
}.

(** What the command calls that is not among the sources. *)
Record Deps : Type := mkDeps {
  resolveProject : Project + error;
  tui_RequireLoggedIn : auth.TokenSet + error;
  FindEnvironmentConfig :
    Project -> string -> remove.EnvironmentConfig + error;
  checkDotnetSdkVersion : string -> option error;
  execChildInteractive : string -> string -> list string -> option error
}.

(** [devBotClientOpts.Prepare] *)
Definition Prepare (o : devBotClientOpts) (args : list string)
  : devBotClientOpts * option error :=
  ({| flagEnvironment := flagEnvironment o; extraArgs := args |}, None).

Section Run.

Variable w : World.
Context {JD : JSON EnvironmentDetails}.
Variable d : Deps.

Local Open Scope cmd_scope.

(** The part of [Run] under [if o.flagEnvironment != ""]: the flags for the
    target environment, or the error to return. *)
Definition resolveTargetEnvFlags (o : devBotClientOpts) (project : Project)
  : C (list string * option error) :=
  if negb (string_empty (flagEnvironment o)) then
    (* Ensure the user is logged in *)
    act RequireLoggedIn ;;
    match tui_RequireLoggedIn d with
    | inr err => pure ([], Some err)
    | inl tokenSet =>
    (* Resolve target environment from metaplay-project.yaml. *)
    match FindEnvironmentConfig d project (flagEnvironment o) with
    | inr err => pure ([], Some err)
    | inl envConfig =>
    (* Create TargetEnvironment. *)
    let targetEnv :=
      NewTargetEnvironment tokenSet (remove.StackDomain envConfig)
        (remove.HumanID envConfig) in
    (* Fetch environment info. *)
    '(envInfo, err) <- lift (GetDetails w targetEnv) ;;
    match err with
    | Some e => pure ([], Some e)
    | None =>
    envInfo <- lift (deref envInfo) ;;
    (* Construct flags for botclient. *)
    let targetEnvFlags :=
      [ "--Bot:ServerHost=" ++ ServerHostname (Deployment envInfo);
        "--Bot:EnableTls=true" ] in
    say LDebug ("Flags to run against environment " ++ flagEnvironment o ++
                ": " ++ fmt_strings targetEnvFlags) ;;
    pure (targetEnvFlags, None)
    end
    end
    end
  else pure ([], None).

(** [devBotClientOpts.Run] *)
Definition Run (o : devBotClientOpts) : C (option error) :=
  (* Load project config. *)
  match resolveProject d with
  | inr err => pure (Some err)
  | inl project =>
  (* Resolve target environment flags (if specified) *)
  '(targetEnvFlags, err) <- resolveTargetEnvFlags o project ;;
  match err with
  | Some e => pure (Some e)
  | None =>
  (* Check for .NET SDK installation and required version. *)
  match checkDotnetSdkVersion d (MinDotnetSdkVersion project) with
  | Some err => pure (Some err)
  | None =>
  (* Resolve botclient path. *)
  let botClientPath := BotClientDir project in
  (* Build the BotClient project *)
  act (ExecChild botClientPath "dotnet" ["build"]) ;;
  match execChildInteractive d botClientPath "dotnet" ["build"] with
  | Some err =>
      say LError ("Failed to build the BotClient .NET project: " ++ Error err) ;;
      os_Exit 1
  | None =>
  (* Run the project without rebuilding *)
  let botRunFlags := (["run"; "--no-build"] ++ targetEnvFlags)%list in
  let botRunFlags := (botRunFlags ++ extraArgs o)%list in
  act (ExecChild botClientPath "dotnet" botRunFlags) ;;
  match execChildInteractive d botClientPath "dotnet" botRunFlags with
  | Some err =>
      say LError ("BotClient exited with error: " ++ Error err) ;;
      os_Exit 1
  | None =>
  (* BotClients terminated normally *)
  say LInfo "BotClient terminated normally" ;;
  pure None
  end
  end
  end
  end
  end.

End Run.

End botclient.

(* ===================================================================== *)
(** ** cmd: update cli *)
(* ===================================================================== *)

Module update.

Import cmd.

(** What the command calls: package version and go-selfupdate.  A release
    is read through [Version()] only. *)
Record Deps (Source Updater : Type) : Type := mkDeps {
  version_IsDevBuild : bool;
  selfupdate_NewGitHubSource : Source + error;
  selfupdate_NewUpdater : Source -> Updater + error;
  (** [updater.DetectLatest(ctx, slug)]: latest, found, err *)
  updater_DetectLatest : Updater -> string -> option string * bool * option error;
  selfupdate_ExecutablePath : string + error;
  updater_UpdateTo : Updater -> option string -> string -> option error
}.
Arguments version_IsDevBuild {Source Updater} d.
Arguments selfupdate_NewGitHubSource {Source Updater} d.
Arguments selfupdate_NewUpdater {Source Updater} d.
Arguments updater_DetectLatest {Source Updater} d.
Arguments selfupdate_ExecutablePath {Source Updater} d.
Arguments updater_UpdateTo {Source Updater} d.

Section Run.

Context {Source Updater : Type}.
Variable d : Deps Source Updater.

Local Open Scope cmd_scope.

Definition version_text (release : option string) : string :=
  match release with Some v => v | None => "" end.

(** [updateCliOpts.Run] *)
Definition Run : C (option error) :=
  if version_IsDevBuild d then
    pure (Some (errorString
                  "The update command is disabled on development builds!"))
  else
  match selfupdate_NewGitHubSource d with
  | inr _ =>
      pure (Some (errorString
                    "Failed to initialize the Metaplay CLI updater source"))
  | inl source =>
  match selfupdate_NewUpdater d source with
  | inr _ =>
      pure (Some (errorString "Failed to initialize the Metaplay CLI updater"))
  | inl updater =>
  act (DetectLatest "metaplay/cli") ;;
  match updater_DetectLatest d updater "metaplay/cli" with
  | (_, _, Some _) =>
      pure (Some (errorString
                    "Failed to detect the latest Metaplay CLI version"))
  | (latest, found, None) =>
  if negb found then
    say LInfo "No newer Metaplay CLI version found" ;;
    pure None
  else
  match selfupdate_ExecutablePath d with
  | inr _ =>
      pure (Some (errorString
                    "Could not determine the Metaplay CLI executable path"))
  | inl exe =>
  act (UpdateTo (version_text latest) exe) ;;
  match updater_UpdateTo d updater latest exe with
  | Some _ =>
      pure (Some (errorString "Failed to update the Metaplay CLI binary"))
  | None =>
  version <- lift (deref latest) ;;
  say LInfo ("Successfully updated to version " ++ version) ;;
  pure None
  end
  end
  end
  end
  end.

End Run.

End update.


(* ===================================================================== *)
(** ** cmd: build docker-image *)
(* ===================================================================== *)

Module build.

Import cmd.

(** Build docker image for the project. *)
Record buildDockerImageOpts : Type := mkBuildDockerImageOpts {
  flagBuildEngine : string;
  flagArchitecture : string;
  flagCommitID : string;
  flagBuildNumber : string;
  argImageName : string;
  extraArgs : list string
}.

(** The project, as far as the command reads it: [config.ProjectHumanID],
    [config.DotnetRuntimeVersion.Segments()], the human ids of
    [config.Environments], [relativeDir], and what [getBuildRootDir()],
    [getSdkRootDir()], [getBackendDir()] and [getSharedCodeDir()] give. *)
Record Project : Type := mkProject {
  ProjectHumanID : string;
  DotnetRuntimeVersionSegments : list Z;
  Environments : list string;
  relativeDir : string;
  BuildRootDir : string;
  SdkRootDir : string;
  BackendDir : string;
  SharedCodeDir : string
}.

(** How the select of [checkDockerAvailable] ends: the goroutine running
    [docker info] delivers its result, or the five seconds pass first. *)
Inductive race : Type :=
| Delivered (err : option foreign_error)
| TimedOut.

(** The operating system, the project loader and package styles. *)
Record Deps : Type := mkDeps {
  resolveProject : Project + error;
  time_Now_Unix : Z;
  os_LookupEnv : string -> option string;
  os_Environ : list string;
  (** [_, err := os.Stat(path); os.IsNotExist(err)] *)
  os_NotExist : string -> bool;
  filepath_Join : string -> string -> string;
  filepath_Abs : string -> string + foreign_error;
  filepath_Rel : string -> string -> string + foreign_error;
  filepath_ToSlash : string -> string;
  docker_info : race;
  (** [cmd.Run()] of [exec.Command(command, args...)] with [Dir] and [Env] *)
  exec_Run :
    string -> list string -> string -> list string -> option foreign_error;
  styles_RenderTitle : string -> string;
  styles_RenderTechnical : string -> string;
  styles_RenderMuted : string -> string;
  styles_RenderWarning : string -> string;
  styles_RenderSuccess : string -> string;
  (** [fmt.Sprintf] where the format is not a literal *)
  fmt_Sprintf : string -> list string -> string
}.

(** [buildDockerImageOpts.Prepare] *)
Definition Prepare (o : buildDockerImageOpts) (args : list string)
  : buildDockerImageOpts * option error :=
  (* Handle image name. *)
  let name :=
    match args with
    | [] => "<projectID>:<timestamp>"
    | first :: _ => first
    end in
  (* Store extra args. *)
  let extra :=
    match args with
    | [] => extraArgs o
    | _ :: rest => rest
    end in
  ({| flagBuildEngine := flagBuildEngine o;
      flagArchitecture := flagArchitecture o;
      flagCommitID := flagCommitID o;
      flagBuildNumber := flagBuildNumber o;
      argImageName := name;
      extraArgs := extra |}, None).

Fixpoint contains (slice : list string) (value : string) : bool :=
  match slice with
  | [] => false
  | v :: rest => if String.eqb v value then true else contains rest value
  end.

Section Run.

Variable d : Deps.

Local Open Scope cmd_scope.

Fixpoint detectEnvVar (keys : list string) : string :=
  match keys with
  | [] => ""
  | key :: rest =>
      match os_LookupEnv d key with
      | Some val => val
      | None => detectEnvVar rest
      end
  end.

Definition validBuildEngines : list string := ["buildx"; "buildkit"].

(** The loop of [resolveBuildEngine] over the valid engines. *)
Fixpoint matchEngine (valid : list string) (engine : string) : option string :=
  match valid with
  | [] => None
  | validEngine :: rest =>
      if String.eqb engine validEngine then Some engine
      else matchEngine rest engine
  end.

Definition resolveBuildEngine (engine : string) : string * option error :=
  (* If not specified, auto-detect *)
  if string_empty engine then
    (* Bitbucket doesn't support buildx, fall back to buildkit *)
    match os_LookupEnv d "BITBUCKET_PIPELINE_UUID" with
    | Some _ => ("buildkit", None)
    | None => ("buildx", None)
    end
  else
    (* Check validity if specified *)
    match matchEngine validBuildEngines engine with
    | Some e => (e, None)
    | None =>
        ("", Some (errorString
                     ("invalid Docker build engine '" ++ engine ++
                      "', must be one of: " ++ fmt_strings validBuildEngines)))
    end.

(** [checkCommand], on the error of [cmd.Run()] *)
Definition checkCommand (ran : option foreign_error) : option error :=
  match ran with
  | Some err => Some (errorString ("command failed: " ++ fe_text err))
  | None => None
  end.

(** [executeCommand]: runs a command with the given arguments in the
    specified working directory. *)
Definition executeCommand (workingDir : string) (env : list string)
    (command : string) (args : list string) : C (option error) :=
  act (Exec workingDir env command args) ;;
  pure (option_map foreign (exec_Run d workingDir env command args)).

(** [rebasePath] calculates a new path for [targetPath] such that it is
    relative to [newBaseDir] instead of the current working directory. *)
Definition rebasePath (targetPath newBaseDir : string)
  : string * option error :=
  match filepath_Abs d newBaseDir with
  | inr err =>
      ("", Some (wrapError
                   ("failed to resolve absolute base path: " ++ fe_text err)
                   (foreign err)))
  | inl absNewBaseDir =>
  match filepath_Abs d targetPath with
  | inr err =>
      ("", Some (wrapError
                   ("failed to resolve absolute target path: " ++ fe_text err)
                   (foreign err)))
  | inl absTargetPath =>
  match filepath_Rel d absNewBaseDir absTargetPath with
  | inr err =>
      ("", Some (wrapError
                   ("failed to resolve relative path: " ++ fe_text err)
                   (foreign err)))
  | inl relativePath => (relativePath, None)
  end
  end
  end.

(** Check if docker is available and running, with a short timeout. *)
Definition checkDockerAvailable : C (option error) :=
  act DockerInfo ;;
  match docker_info d with
  | Delivered ran =>
      match checkCommand ran with
      | Some err =>
          pure (Some (wrapError
                        ("docker is not available: " ++ Error err ++
                         ". Ensure docker is installed and working.") err))
      | None => pure None
      end
  | TimedOut =>
      pure (Some (errorString
                    "docker availablity check timed out. Ensure docker is running and responsive."))
  end.

(** The block of [Run] that settles the commit id. *)
Definition resolveCommitId (o : buildDockerImageOpts) : C string :=
  let commitId := flagCommitID o in
  if string_empty commitId then
    let commitId :=
      detectEnvVar
        [ "GIT_COMMIT"; "GITHUB_SHA"; "CI_COMMIT_SHA"; "CIRCLE_SHA1";
          "TRAVIS_COMMIT"; "BUILD_SOURCEVERSION"; "BITBUCKET_COMMIT";
          "BUILD_VCS_NUMBER"; "BUILDKITE_COMMIT"; "DRONE_COMMIT_SHA";
          "SEMAPHORE_GIT_SHA" ] in
    if negb (string_empty commitId) then
      say LInfo ("Commit ID:" ++ " " ++ styles_RenderTechnical d commitId ++
                 " " ++ styles_RenderMuted d "(auto-detected)") ;;
      pure commitId
    else
      let commitId := "none" in (* default if not specified *)
      say LInfo ("Commit ID:" ++ " " ++ styles_RenderTechnical d commitId ++
                 " " ++
                 styles_RenderWarning d
                   "[failed to auto-detect; specify with --commit-id=<id>]") ;;
      pure commitId
  else
    say LInfo ("Commit ID:" ++ " " ++ styles_RenderTechnical d commitId) ;;
    pure commitId.

(** The block of [Run] that settles the build number. *)
Definition resolveBuildNumber (o : buildDockerImageOpts) : C string :=
  let buildNumber := flagBuildNumber o in
  if string_empty buildNumber then
    let buildNumber :=
      detectEnvVar
        [ "BUILD_NUMBER"; "GITHUB_RUN_NUMBER"; "CI_PIPELINE_IID";
          "CIRCLE_BUILD_NUM"; "TRAVIS_BUILD_NUMBER"; "BUILD_BUILDNUMBER";
          "BITBUCKET_BUILD_NUMBER"; "BUILDKITE_BUILD_NUMBER";
          "DRONE_BUILD_NUMBER"; "SEMAPHORE_BUILD_NUMBER" ] in
    if negb (string_empty buildNumber) then
      say LInfo ("Build number: " ++ styles_RenderTechnical d buildNumber ++
                 " (auto-detected)") ;;
      pure buildNumber
    else
      let buildNumber := "none" in (* default if not specified *)
      say LInfo ("Build number: " ++ styles_RenderTechnical d buildNumber ++
                 " " ++
                 styles_RenderWarning d
                   "[failed to auto-detect; specify with --commit-number=<number>]") ;;
      pure buildNumber
  else
    say LInfo ("Build number: " ++ styles_RenderTechnical d buildNumber) ;;
    pure buildNumber.

(** [rebasePath], with the exit of [Run] when it fails. *)
Definition rebaseOrExit (targetPath newBaseDir what : string) : C string :=
  match rebasePath targetPath newBaseDir with
  | (_, Some err) =>
      say LError ("Failed to resolve relative path to " ++ what ++ ": " ++
                  Error err) ;;
      os_Exit 2
  | (rebased, None) => pure rebased
  end.

(** [segments[i]] *)
Definition index (segments : list Z) (i : nat) : C Z :=
  match nth_error segments i with
  | Some v => pure v
  | None =>
      crash ("runtime error: index out of range [" ++ itoa (Z.of_nat i) ++
             "] with length " ++ itoa (Z.of_nat (List.length segments)))
  end.

(** The bytes of the check mark in the message of success. *)
Definition check_mark : string :=
  String (ascii_of_nat 226) (String (ascii_of_nat 156)
    (String (ascii_of_nat 133) EmptyString)).

(** The image name [Run] builds: [<timestamp>] filled in with the current
    unix time, then [<projectID>] with the project's slug. *)
Definition resolveImageName (o : buildDockerImageOpts) (project : Project)
  : string :=
  let imageName :=
    ReplaceAll (argImageName o) "<timestamp>" (itoa (time_Now_Unix d)) in
  ReplaceAll imageName "<projectID>" (ProjectHumanID project).

(** The arguments of the docker build, after those of the engine. *)
Definition buildArgs (imageName dockerFile platform sdkRoot projectRoot
    backendDir sharedCodeDir dotnetVersion projectID buildNumber commitId
    : string) : list string :=
  [ "--pull";
    "-t"; imageName;
    "-f"; filepath_ToSlash d dockerFile;
    "--platform"; platform;
    "--build-arg"; "SDK_ROOT=" ++ filepath_ToSlash d sdkRoot;
    "--build-arg"; "PROJECT_ROOT=" ++ filepath_ToSlash d projectRoot;
    "--build-arg"; "BACKEND_DIR=" ++ filepath_ToSlash d backendDir;
    "--build-arg"; "SHARED_CODE_DIR=" ++ filepath_ToSlash d sharedCodeDir;
    "--build-arg"; "DOTNET_VERSION=" ++ dotnetVersion;
    "--build-arg"; "PROJECT_ID=" ++ projectID;
    "--build-arg"; "BUILD_NUMBER=" ++ buildNumber;
    "--build-arg"; "COMMIT_ID=" ++ commitId ].

(** [buildDockerImageOpts.Run] *)
Definition Run (o : buildDockerImageOpts) : C (option error) :=
  say LInfo "" ;;
  say LInfo (styles_RenderTitle d "Build Docker Image") ;;
  say LInfo "" ;;
  (* Find & load the project config file. *)
  match resolveProject d with
  | inr err => pure (Some err)
  | inl project =>
  (* Resolve image name to use. *)
  let imageName := resolveImageName o project in
  if HasSuffix imageName ":latest" then
    say LError
      "Building docker image with 'latest' tag is not allowed. Use a commit hash or timestamp instead." ;;
    os_Exit 1
  else
  (* Log extra arguments. *)
  (if (0 <? List.length (extraArgs o))%nat then
     say LDebug ("Extra args to docker: " ++ Join (extraArgs o) " ")
   else pure tt) ;;
  say LInfo ("Project ID: " ++
             styles_RenderTechnical d (ProjectHumanID project)) ;;
  say LInfo ("Image name: " ++ styles_RenderTechnical d imageName) ;;
  (* Auto-detect git commit ID *)
  commitId <- resolveCommitId o ;;
  (* Auto-detect build number *)
  buildNumber <- resolveBuildNumber o ;;
  (* Resolve docker build root directory. *)
  let buildRootDir := BuildRootDir project in
  (* Check that sdkRoot is a valid directory *)
  let sdkRootPath := SdkRootDir project in
  if os_NotExist d sdkRootPath then
    say LError ("The Metaplay SDK directory '" ++ sdkRootPath ++
                "' does not exist.") ;;
    os_Exit 2
  else
  let dockerFilePath := filepath_Join d sdkRootPath "Dockerfile.server" in
  if os_NotExist d dockerFilePath then
    say LError ("Cannot locate Dockerfile.server at " ++ dockerFilePath ++
                ".") ;;
    os_Exit 2
  else
  (* Check project root directory. *)
  let projectBackendDir := BackendDir project in
  if os_NotExist d projectBackendDir then
    say LError ("Unable to find project backend in '" ++ projectBackendDir ++
                "'.") ;;
    os_Exit 2
  else
  (* Check SharedCode directory. *)
  let sharedCodeDir := SharedCodeDir project in
  if os_NotExist d sharedCodeDir then
    say LError ("The shared code directory (" ++ sharedCodeDir ++
                ") does not exist.") ;;
    os_Exit 2
  else
  (* Resolve target platform. *)
  let validArchitectures := ["amd64"; "arm64"] in
  if negb (contains validArchitectures (flagArchitecture o)) then
    say LError ("Invalid architecture '" ++ flagArchitecture o ++
                "'. Must be one of " ++ fmt_strings validArchitectures ++
                ".") ;;
    os_Exit 2
  else
  let platform := "linux/" ++ flagArchitecture o in
  say LInfo ("Target platform: " ++ styles_RenderTechnical d platform) ;;
  (* Check that docker is installed and running *)
  say LDebug "Check if docker is available" ;;
  err <- checkDockerAvailable ;;
  match err with
  | Some e => pure (Some e)
  | None =>
  (* Resolve docker build engine *)
  say LDebug "Resolve docker build engine" ;;
  match resolveBuildEngine (flagBuildEngine o) with
  | (_, Some err) =>
      say LError ("Failed to resolve docker build engine: " ++ Error err) ;;
      os_Exit 1
  | (buildEngine, None) =>
  say LInfo ("Docker build engine: " ++
             styles_RenderTechnical d buildEngine) ;;
  (* Rebase paths to be relative to docker build root. *)
  rebasedSdkRoot <-
    rebaseOrExit sdkRootPath buildRootDir "MetaplaySDK/ from build root" ;;
  rebasedDockerFilePath <-
    rebaseOrExit dockerFilePath buildRootDir
      "Dockerfile.server from build root" ;;
  rebasedProjectRoot <-
    rebaseOrExit (relativeDir project) buildRootDir
      "project root from build root" ;;
  (* Rebase paths relative to project root dir. *)
  rebasedBackendDir <-
    rebaseOrExit projectBackendDir (relativeDir project)
      "project backend directory from project root" ;;
  rebasedSharedCodeDir <-
    rebaseOrExit sharedCodeDir (relativeDir project)
      "project shared code directory from project root" ;;
  (* Silence docker's recomendation messages at end-of-build. *)
  let dockerEnv := (os_Environ d ++ ["DOCKER_CLI_HINTS=false"])%list in
  (* Handle build engine differences. *)
  '(dockerEnv, buildEngineArgs) <-
    (if String.eqb buildEngine "buildkit" then
       pure ((dockerEnv ++ ["DOCKER_BUILDKIT=1"])%list, ["build"])
     else if String.eqb buildEngine "buildx" then
       pure (dockerEnv, ["buildx"; "build"; "--load"])
     else
       say LPanic ("Unsupported docker build engine: " ++ buildEngine) ;;
       crash ("Unsupported docker build engine: " ++ buildEngine)) ;;
  (* Resolve .NET runtime version to build project for. *)
  let projectDotnetVersionSegments := DotnetRuntimeVersionSegments project in
  major <- index projectDotnetVersionSegments 0 ;;
  minor <- index projectDotnetVersionSegments 1 ;;
  let projectDotnetVersion := itoa major ++ "." ++ itoa minor in
  (* Resolve final docker build invocation *)
  let dockerArgs :=
    (buildEngineArgs ++
     buildArgs imageName rebasedDockerFilePath platform rebasedSdkRoot
       rebasedProjectRoot rebasedBackendDir rebasedSharedCodeDir
       projectDotnetVersion (ProjectHumanID project) buildNumber commitId)%list in
  let dockerArgs := (dockerArgs ++ extraArgs o)%list in
  let dockerArgs := (dockerArgs ++ ["."])%list in
  say LInfo "" ;;
  say LInfo (fmt_Sprintf d (styles_RenderMuted d "docker %s")
               [Join dockerArgs " "]) ;;
  say LInfo "" ;;
  (* Execute the docker build *)
  err <- executeCommand buildRootDir dockerEnv "docker" dockerArgs ;;
  match err with
  | Some e =>
      say LError ("Docker build failed: " ++ Error e) ;;
      os_Exit 1
  | None =>
  say LInfo "" ;;
  say LInfo (check_mark ++ " " ++
             styles_RenderSuccess d "Successfully built docker image" ++
             " " ++ styles_RenderTechnical d imageName) ;;
  say LInfo "" ;;
  say LInfo "You can deploy the image to a cloud environment using:" ;;
  say LInfo (fmt_Sprintf d
               (styles_RenderTechnical d
                  "  metaplay deploy game-server ENVIRONMENT %s")
               [imageName]) ;;
  let envsIDs := map (styles_RenderTechnical d) (Environments project) in
  say LInfo ("Available environments: " ++ Join envsIDs ", ") ;;
  pure None
  end
  end
  end
  end.

End Run.

End build.


(* ===================================================================== *)
(** ** Concrete surroundings for the commands *)
(* ===================================================================== *)

Module samples.

(** An operating system: an environment given by a table, every path
    present, docker at hand, styles that leave the text as it is. *)
Definition project : build.Project :=
  {| build.ProjectHumanID := "mygame";
     build.DotnetRuntimeVersionSegments := [8; 0; 0]%Z;
     build.Environments := ["tiny-squids"];
     build.relativeDir := ".";
     build.BuildRootDir := "..";
     build.SdkRootDir := "../MetaplaySDK";
     build.BackendDir := "Backend";
     build.SharedCodeDir := "Assets/SharedCode" |}.

Definition os (env : list (string * string)) : build.Deps :=
  {| build.resolveProject := inl project;
     build.time_Now_Unix := 1700000000;
     build.os_LookupEnv := scripted.lookup env;
     build.os_Environ := map (fun kv => fst kv ++ "=" ++ snd kv) env;
     build.os_NotExist := fun _ => false;
     build.filepath_Join := fun a b => a ++ "/" ++ b;
     build.filepath_Abs := fun p => inl ("/work/" ++ p);
     build.filepath_Rel := fun base p => inl p;
     build.filepath_ToSlash := fun p => p;
     build.docker_info := build.Delivered None;
     build.exec_Run := fun _ _ _ _ => None;
     build.styles_RenderTitle := fun s => s;
     build.styles_RenderTechnical := fun s => s;
     build.styles_RenderMuted := fun s => s;
     build.styles_RenderWarning := fun s => s;
     build.styles_RenderSuccess := fun s => s;
     build.fmt_Sprintf := fun f args => f ++ " " ++ Join args " " |}.

Definition opts (imageName : string) (extraArgs : list string)
  : build.buildDockerImageOpts :=
  {| build.flagBuildEngine := "";
     build.flagArchitecture := "amd64";
     build.flagCommitID := "";
     build.flagBuildNumber := "";
     build.argImageName := imageName;
     build.extraArgs := extraArgs |}.

(** A project with one environment, a user who is logged in, and a helm
    that lists [releases] and fails to uninstall the one named [stuck]. *)
Definition environment : remove.EnvironmentConfig :=
  {| remove.StackDomain := "https://infra.example/stackapi";
     remove.HumanID := "tiny-squids";
     remove.KubernetesNamespace := "tiny-squids-ns" |}.

Definition tokenSet : auth.TokenSet := {| auth.AccessToken := "token" |}.

Definition locked : error := errorString "release is locked".

Definition helm (releases : list cmd.Release) (stuck : string)
  : remove.Deps unit unit unit :=
  {| remove.tryResolveProject := inl tt;
     remove.getAuthProvider := fun _ => tt;
     remove.tui_RequireLoggedIn := fun _ => inl tokenSet;
     remove.resolveEnvironment := fun _ _ _ => inl environment;
     remove.helmutil_NewActionConfig := fun _ _ => inl tt;
     remove.helmutil_HelmListReleases := fun _ _ => (releases, None);
     remove.helmutil_UninstallRelease := fun _ release =>
       if String.eqb (cmd.Name release) stuck then Some locked else None;
     remove.metaplayGameServerChartName := "metaplay-gameserver";
     remove.metaplayLoadTestChartName := "metaplay-loadtest" |}.

(** A dotnet whose build fails when [broken]. *)
Definition dotnet (broken : bool) : botclient.Deps :=
  {| botclient.resolveProject :=
       inl {| botclient.MinDotnetSdkVersion := "8.0";
              botclient.BotClientDir := "Backend/BotClient" |};
     botclient.tui_RequireLoggedIn := inl tokenSet;
     botclient.FindEnvironmentConfig := fun _ _ => inl environment;
     botclient.checkDotnetSdkVersion := fun _ => None;
     botclient.execChildInteractive := fun _ _ args =>
       match args with
       | ["build"] =>
           if broken then Some (errorString "exit status 1") else None
       | _ => None
       end |}.

(** An updater that finds release 1.2.3. *)
Definition updater (dev : bool) : update.Deps unit unit :=
  {| update.version_IsDevBuild := dev;
     update.selfupdate_NewGitHubSource := inl tt;
     update.selfupdate_NewUpdater := fun _ => inl tt;
     update.updater_DetectLatest := fun _ _ => (Some "1.2.3", true, None);
     update.selfupdate_ExecutablePath := inl "/usr/local/bin/metaplay";
     update.updater_UpdateTo := fun _ _ _ => None |}.


(** Helm listings: three game servers of which the second is stuck, two bot
    deployments of which the first is stuck, listings that uninstall, and
    an empty one. *)
Definition release (name : string) : cmd.Release := {| cmd.Name := name |}.

Definition games_stuck : remove.Deps unit unit unit :=
  helm [release "game-a"; release "game-b"; release "game-c"] "game-b".
Definition bots_stuck : remove.Deps unit unit unit :=
  helm [release "bots-a"; release "bots-b"] "bots-a".
Definition games : remove.Deps unit unit unit :=
  helm [release "game-a"; release "game-b"] "".
Definition bots : remove.Deps unit unit unit :=
  helm [release "bots-a"] "".
Definition nothing : remove.Deps unit unit unit := helm [] "".

(** What the kubeconfig request gives in the world [scripted.healthy],
    which has no route for it. *)
Definition refused : option error :=
  Some (request_error scripted.healthy (Resty scripted.target) MethodPost
          "/v0/credentials/tiny-squids/k8s" None).

(** A StackAPI whose answer for the details of the environment is the JSON
    [null]. *)
Definition null_details : World :=
  scripted.world [ ("GET", scripted.details_path, scripted.ok "null") ]
    scripted.userinfo scripted.no_authorization.

Definition bots_opts (env : string) : botclient.devBotClientOpts :=
  {| botclient.flagEnvironment := env;
     botclient.extraArgs := ["-MaxBots=5"] |}.

Definition bots_project : botclient.Project :=
  {| botclient.MinDotnetSdkVersion := "8.0";
     botclient.BotClientDir := "Backend/BotClient" |}.

(** A text between white space: a line feed and two blanks before it, a
    blank, a carriage return and a line feed behind it. *)
Definition padded (text : string) : string :=
  String "010" (String " " (String " " text))
  ++ String " " (String "013" (String "010" EmptyString)).

(** A StackAPI that serves the kubeconfig with white space around it; the
    text itself is no JSON. *)
Definition padded_kubeconfig : World :=
  scripted.world
    [ ("POST", "/v0/credentials/tiny-squids/k8s",
       scripted.ok (padded "not: [json")) ]
    scripted.userinfo scripted.no_authorization.

End samples.

(* ===================================================================== *)
(** ** What the properties of the commands speak of *)
(* ===================================================================== *)

Definition kubeconfig_path (target : TargetEnvironment) : string :=
  "/v0/credentials/" ++ HumanId target ++ "/k8s".
Definition post_kubeconfig (target : TargetEnvironment) : event :=
  HttpCall (Resty target) MethodPost (kubeconfig_path target) None.

(** The project, the login and the environment [env] of the project file
    all resolve. *)
Definition resolves {Project AuthProvider ActionConfig : Type}
    (d : remove.Deps Project AuthProvider ActionConfig) (env : string)
    (tokenSet : auth.TokenSet) (envConfig : remove.EnvironmentConfig)
  : Prop :=
  exists project,
    remove.tryResolveProject d = inl project /\
    remove.tui_RequireLoggedIn d (remove.getAuthProvider d project)
      = inl tokenSet /\
    remove.resolveEnvironment d project tokenSet env = inl envConfig.

(** The target environment the commands build from a login and an
    environment of the project file. *)
Definition target_of (tokenSet : auth.TokenSet)
    (envConfig : remove.EnvironmentConfig) : TargetEnvironment :=
  NewTargetEnvironment tokenSet (remove.StackDomain envConfig)
    (remove.HumanID envConfig).

(** Helm is configured with [payload] for the namespace of the environment
    and lists [releases] for [chart]; whether the listing also gave an error
    is left open. *)
Definition helm_lists {Project AuthProvider ActionConfig : Type}
    (d : remove.Deps Project AuthProvider ActionConfig)
    (payload : option string) (envConfig : remove.EnvironmentConfig)
    (chart : string) (actionConfig : ActionConfig)
    (releases : list cmd.Release) : Prop :=
  remove.helmutil_NewActionConfig d payload
    (remove.KubernetesNamespace envConfig) = inl actionConfig /\
  fst (remove.helmutil_HelmListReleases d actionConfig chart) = releases.

(** The release uninstalls without error. *)
Definition uninstalls {Project AuthProvider ActionConfig : Type}
    (d : remove.Deps Project AuthProvider ActionConfig)
    (actionConfig : ActionConfig) (release : cmd.Release) : Prop :=
  remove.helmutil_UninstallRelease d actionConfig release = None.

(** What a remove command does before it uninstalls anything. *)
Definition helm_prelude (target : TargetEnvironment)
    (payload : option string) (namespace chart : string)
  : list cmd.action :=
  [ cmd.RequireLoggedIn;
    cmd.Broker (post_kubeconfig target);
    cmd.NewActionConfig payload namespace;
    cmd.HelmListReleases chart ].

(** The two commands on the environment [env]. *)
Definition remove_game_server {Project AuthProvider ActionConfig : Type}
    (w : World) (d : remove.Deps Project AuthProvider ActionConfig)
    (env : string) : cmd.C (option error) :=
  remove.RunGameServer w d
    {| remove.game_server_argEnvironment := env |}.

Definition remove_botclients {Project AuthProvider ActionConfig : Type}
    (w : World) (d : remove.Deps Project AuthProvider ActionConfig)
    (env : string) : cmd.C (option error) :=
  remove.RunBotClients w d
    {| remove.botclients_argEnvironment := env |}.

(** The error remove botclients returns for a release that did not
    uninstall. *)
Definition uninstall_error (release : cmd.Release) (err : error) : error :=
  wrapError ("failed to uninstall Helm relese " ++ cmd.Name release ++
             ": " ++ Error err) err.

(** The dotnet invocations of dev botclient. *)
Definition dotnet_build (project : botclient.Project) : cmd.action :=
  cmd.ExecChild (botclient.BotClientDir project) "dotnet" ["build"].
Definition dotnet_run (project : botclient.Project) (flags : list string)
  : cmd.action :=
  cmd.ExecChild (botclient.BotClientDir project) "dotnet"
    ("run" :: "--no-build" :: flags).


(* ===================================================================== *)
(** ** The stand-in codec meets the YAML contract *)
(* ===================================================================== *)

Section Wire.

Import wire.

Lemma wire_scan_quote (a rest : string) :
  scan (quote a ++ rest) = a :: scan rest.
Proof.
  induction a as [|c a IH]; simpl.
  - reflexivity.
  - now rewrite IH.
Qed.

Lemma wire_scan_fields (l : list string) :
  scan (fields l) = (l ++ [EmptyString])%list.
Proof.
  induction l as [|a l IH]; simpl.
  - reflexivity.
  - now rewrite wire_scan_quote, IH.
Qed.

Lemma wire_unfields_fields (l : list string) : unfields (fields l) = l.
Proof.
  unfold unfields. rewrite wire_scan_fields. apply removelast_last.
Qed.

Lemma wire_unsequence_sequence {A} (enc : A -> string) (dec : string -> option A) :
  (forall a, dec (enc a) = Some a) ->
  forall l, unsequence dec (sequence enc l) = Some l.
Proof.
  intros inv l. unfold unsequence, sequence. rewrite wire_unfields_fields.
  induction l as [|a l IH]; simpl.
  - reflexivity.
  - now rewrite inv, IH.
Qed.

Lemma wire_dec_enc_cluster c : dec_cluster (enc_cluster c) = Some c.
Proof.
  unfold dec_cluster, enc_cluster. rewrite wire_unfields_fields.
  now destruct c as [[ca server] name].
Qed.

Lemma wire_dec_enc_context c : dec_context (enc_context c) = Some c.
Proof.
  unfold dec_context, enc_context. rewrite wire_unfields_fields.
  now destruct c as [[cl us ns] name].
Qed.

Lemma wire_dec_enc_user u : dec_user (enc_user u) = Some u.
Proof.
  unfold dec_user, enc_user. cbv zeta. rewrite wire_unfields_fields.
  rewrite wire_unfields_fields.
  now destruct u as [name [token [command args api mode]]].
Qed.

Lemma wire_dec_enc_preference p : dec_preference (enc_preference p) = Some p.
Proof.
  unfold dec_preference, enc_preference. rewrite wire_unfields_fields.
  now destruct p.
Qed.

Lemma wire_Unmarshal_Marshal d : wire.Unmarshal (wire.Marshal d) = Some d.
Proof.
  unfold Unmarshal, Marshal. rewrite wire_unfields_fields.
  rewrite (wire_unsequence_sequence _ _ wire_dec_enc_cluster).
  rewrite (wire_unsequence_sequence _ _ wire_dec_enc_context).
  rewrite (wire_unsequence_sequence _ _ wire_dec_enc_preference).
  rewrite (wire_unsequence_sequence _ _ wire_dec_enc_user).
  now destruct d.
Qed.


End Wire.

#[export] Instance wire_YAML : YAML := {
  yaml_Marshal := wire.Marshal;
  yaml_Unmarshal := wire.Unmarshal;
  yaml_Unmarshal_Marshal := wire_Unmarshal_Marshal
}.

(* ===================================================================== *)
(** ** The request executor of package envapi *)
(* ===================================================================== *)

Lemma status_failed_negb (code : Z) :
  status_failed code = negb (status_ok code).
Proof.
  unfold status_failed, status_ok, StatusOK, StatusMultipleChoices.
  rewrite Z.geb_leb.
  destruct (Z.ltb_spec code 200), (Z.leb_spec 300 code),
           (Z.leb_spec 200 code), (Z.ltb_spec code 300);
    simpl; try reflexivity; lia.
Qed.

Section HttpRequest.

Variable w : World.
Context {T : Type} {J : JSON T}.

Lemma httpPostRequest_serves client path body (p : option T) :
  serves w client MethodPost path body p ->
  httpPostRequest w client path body =
    (Returned (p, None), [HttpCall client MethodPost path body]).
Proof.
  intros (response & Hexec & Hstatus & Hjson).
  unfold httpPostRequest, httpRequest, resty_call. simpl.
  rewrite Hexec. simpl. rewrite status_failed_negb, Hstatus. simpl.
  unfold response_shape, Response_struct.
  rewrite Hjson. reflexivity.
Qed.

Lemma httpGetRequest_serves client path (p : option T) :
  serves w client MethodGet path None p ->
  httpGetRequest w client path =
    (Returned (p, None), [HttpCall client MethodGet path None]).
Proof.
  intros (response & Hexec & Hstatus & Hjson).
  unfold httpGetRequest, httpRequest, resty_call. simpl.
  rewrite Hexec. simpl. rewrite status_failed_negb, Hstatus. simpl.
  unfold response_shape, Response_struct.
  rewrite Hjson. reflexivity.
Qed.

Lemma httpPostRequest_fails client path body :
  fails w client MethodPost path body ->
  httpPostRequest (T := T) w client path body =
    (Returned (None, Some (request_error w client MethodPost path body)),
     [HttpCall client MethodPost path body]).
Proof.
  unfold fails, request_error, httpPostRequest, httpRequest, resty_call.
  simpl. destruct (resty_Execute w client MethodPost path body) as [r|e].
  - intros H. simpl. rewrite status_failed_negb, H. reflexivity.
  - reflexivity.
Qed.

Lemma httpGetRequest_fails client path :
  fails w client MethodGet path None ->
  httpGetRequest (T := T) w client path =
    (Returned (None, Some (request_error w client MethodGet path None)),
     [HttpCall client MethodGet path None]).
Proof.
  unfold fails, request_error, httpGetRequest, httpRequest, resty_call.
  simpl. destruct (resty_Execute w client MethodGet path None) as [r|e].
  - intros H. simpl. rewrite status_failed_negb, H. reflexivity.
  - reflexivity.
Qed.

Lemma json_Unmarshal_ptr_garbled rawBody (partial : T) cause :
  json_null rawBody = false ->
  json_Unmarshal rawBody zero = (partial, Some cause) ->
  json_Unmarshal_ptr rawBody = (Some partial, Some cause).
Proof.
  intros Hnull Hjson. unfold json_Unmarshal_ptr. now rewrite Hnull, Hjson.
Qed.

Lemma httpPostRequest_garbles client path body rawBody (partial : T) cause :
  garbles w client MethodPost path body rawBody partial cause ->
  httpPostRequest (T := T) w client path body =
    (Returned (None, Some (foreign cause)),
     [HttpCall client MethodPost path body;
      Log ErrorLevel ("Failed to unmarshal response: " ++ fe_text cause ++
                      ", raw body: " ++ rawBody)]).
Proof.
  intros (response & Hexec & Hstatus & Hbody & Hnull & Hjson).
  unfold httpPostRequest, httpRequest, resty_call. simpl.
  rewrite Hexec. simpl. rewrite status_failed_negb, Hstatus. simpl.
  unfold response_shape, Response_struct. rewrite Hbody.
  rewrite (json_Unmarshal_ptr_garbled _ _ _ Hnull Hjson). reflexivity.
Qed.

Lemma httpGetRequest_garbles client path rawBody (partial : T) cause :
  garbles w client MethodGet path None rawBody partial cause ->
  httpGetRequest (T := T) w client path =
    (Returned (None, Some (foreign cause)),
     [HttpCall client MethodGet path None;
      Log ErrorLevel ("Failed to unmarshal response: " ++ fe_text cause ++
                      ", raw body: " ++ rawBody)]).
Proof.
  intros (response & Hexec & Hstatus & Hbody & Hnull & Hjson).
  unfold httpGetRequest, httpRequest, resty_call. simpl.
  rewrite Hexec. simpl. rewrite status_failed_negb, Hstatus. simpl.
  unfold response_shape, Response_struct. rewrite Hbody.
  rewrite (json_Unmarshal_ptr_garbled _ _ _ Hnull Hjson). reflexivity.
Qed.

(** Whatever the StackAPI answers, a POST through [httpRequest] returns,
    with at most one of value and error, after exactly one call. *)
Lemma httpPostRequest_returns client path body :
  exists (r : result T) log,
    httpPostRequest w client path body =
      (Returned r, HttpCall client MethodPost path body :: log) /\
    calls log = [] /\
    (fst r = None \/ snd r = None).
Proof.
  unfold httpPostRequest, httpRequest, resty_call. simpl.
  destruct (resty_Execute w client MethodPost path body) as [response|e];
    simpl.
  - rewrite status_failed_negb.
    destruct (status_ok (resty.StatusCode response)); simpl.
    + unfold response_shape, Response_struct.
      destruct (json_Unmarshal_ptr (resty.Body response)) as [p [e|]];
        simpl; eexists; eexists; (split; [reflexivity|]); simpl; auto.
    + eexists; eexists; (split; [reflexivity|]); simpl; auto.
  - eexists; eexists; (split; [reflexivity|]); simpl; auto.
Qed.

(** A POST that returns either failed, or was served what it returns. *)
Lemma httpPostRequest_inv client path body (r : result T) t :
  httpPostRequest w client path body = (Returned r, t) ->
  (exists p, r = (p, None) /\ serves w client MethodPost path body p) \/
  (exists e, r = (None, Some e)).
Proof.
  unfold httpPostRequest, httpRequest, resty_call, serves. simpl.
  destruct (resty_Execute w client MethodPost path body) as [response|e]
    eqn:Hexec; simpl.
  - rewrite status_failed_negb.
    destruct (status_ok (resty.StatusCode response)) eqn:Hstatus; simpl.
    + unfold response_shape, Response_struct.
      destruct (json_Unmarshal_ptr (resty.Body response)) as [p [e|]]
        eqn:Hjson; simpl; intros [= <- _].
      * right. eauto.
      * left. exists p. split; [reflexivity|]. exists response. auto.
    + intros [= <- _]. right. eauto.
  - intros [= <- _]. right. eauto.
Qed.

End HttpRequest.

(* ===================================================================== *)
(** ** GetAWSCredentials *)
(* ===================================================================== *)

Lemma string_empty_true (s : string) : string_empty s = true <-> s = "".
Proof. destruct s; simpl; split; congruence. Qed.

Lemma string_empty_false (s : string) : string_empty s = false <-> s <> "".
Proof. destruct s; simpl; split; congruence. Qed.

Section AWS.

Variable w : World.
Context {J : JSON AWSCredentials}.
Variable target : TargetEnvironment.

Let post : event := HttpCall (Resty target) MethodPost (aws_path target) None.

(** A failed request leaves [awsCredentials] nil, and the first field read
    dereferences it. *)
Lemma GetAWSCredentials_failed_request :
  fails w (Resty target) MethodPost (aws_path target) None ->
  GetAWSCredentials w target = (Panicked nil_dereference, [post]).
Proof.
  intros Hfails. unfold GetAWSCredentials. cbv zeta.
  fold (aws_path target).
  rewrite (httpPostRequest_fails w _ _ _ Hfails). reflexivity.
Qed.

Lemma GetAWSCredentials_served (c : AWSCredentials) :
  serves w (Resty target) MethodPost (aws_path target) None (Some c) ->
  GetAWSCredentials w target =
    (Returned
       (if string_empty (AccessKeyId c) then
          (None, Some IncompleteCredentialError_AccessKeyId)
        else if string_empty (SecretAccessKey c) then
          (None, Some IncompleteCredentialError_SecretAccessKey)
        else (Some c, None)),
     [post]).
Proof.
  intros Hserves. unfold GetAWSCredentials. cbv zeta.
  fold (aws_path target).
  rewrite (httpPostRequest_serves w _ _ _ _ Hserves). simpl.
  destruct (string_empty (AccessKeyId c)); [reflexivity|].
  destruct (string_empty (SecretAccessKey c)); reflexivity.
Qed.

Lemma GetAWSCredentials_complete (c : AWSCredentials) :
  serves w (Resty target) MethodPost (aws_path target) None (Some c) ->
  AccessKeyId c <> "" ->
  SecretAccessKey c <> "" ->
  GetAWSCredentials w target = (Returned (Some c, None), [post]).
Proof.
  intros Hserves Hkey Hsecret.
  rewrite (GetAWSCredentials_served c Hserves).
  apply string_empty_false in Hkey, Hsecret.
  now rewrite Hkey, Hsecret.
Qed.

(** What [GetAWSCredentials] returns, when it returns: credentials with
    both keys, as the StackAPI served them, and no error; or an error of its
    own and no credentials. *)
Lemma GetAWSCredentials_returns (r : result AWSCredentials) t :
  GetAWSCredentials w target = (Returned r, t) ->
  (exists c, r = (Some c, None) /\
             serves w (Resty target) MethodPost (aws_path target) None
               (Some c) /\
             AccessKeyId c <> "" /\ SecretAccessKey c <> "") \/
  r = (None, Some IncompleteCredentialError_AccessKeyId) \/
  r = (None, Some IncompleteCredentialError_SecretAccessKey).
Proof.
  unfold GetAWSCredentials. cbv zeta. fold (aws_path target).
  destruct (httpPostRequest (T := AWSCredentials) w (Resty target)
              (aws_path target) None) as [[[p e]|v] t1] eqn:Hrun;
    simpl; [|discriminate].
  destruct p as [c|]; simpl; [|discriminate].
  destruct (httpPostRequest_inv w _ _ _ _ _ Hrun)
    as [(p & Hr & Hserves)|(e' & Hr)]; [|discriminate].
  injection Hr as <- ->.
  destruct (string_empty (AccessKeyId c)) eqn:Hkey; simpl.
  - intros [= <- _]. auto.
  - destruct (string_empty (SecretAccessKey c)) eqn:Hsecret; simpl.
    + intros [= <- _]. auto.
    + intros [= <- _]. left. exists c.
      apply string_empty_false in Hkey, Hsecret. auto.
Qed.

End AWS.

(** C1: a concrete run in which the POST to /v0/credentials/{humanId}/aws
    fails.  Against a StackAPI that answers 500, and against one that cannot
    be reached, [GetAWSCredentials] does not return the error of the
    request: it panics on a nil pointer dereference, because the credentials
    are read before the error is looked at. *)
Theorem GetAWSCredentials_failed_post_panics :
  let refused := scripted.world [] scripted.userinfo scripted.no_authorization in
  let broken :=
    scripted.world [("POST", scripted.aws_path, scripted.status 500 "")]
      scripted.userinfo scripted.no_authorization in
  let J := scripted.JSON_AWSCredentials in
  fails broken (Resty scripted.target) MethodPost scripted.aws_path None /\
  fails refused (Resty scripted.target) MethodPost scripted.aws_path None /\
  outcome_of (GetAWSCredentials broken scripted.target)
    = Panicked nil_dereference /\
  outcome_of (GetAWSCredentials refused scripted.target)
    = Panicked nil_dereference /\
  httpPostRequest (T := AWSCredentials) broken (Resty scripted.target)
      scripted.aws_path None
    = (Returned
         (None,
          Some (errorString
                  "POST request to /v0/credentials/tiny-squids/aws failed with status code 500")),
       [HttpCall (Resty scripted.target) "POST" scripted.aws_path None]).
Proof.
  cbv zeta. repeat split; vm_compute; reflexivity.
Qed.

(** C7: when the POST is answered with a status in [200,300) (200 among
    them) and the body decodes to credentials with an empty
    [SecretAccessKey] and a non-empty [AccessKeyId], [GetAWSCredentials]
    returns no credentials and the error that names [SecretAccessKey]; with
    an empty [AccessKeyId] it returns no credentials and the error that
    names [AccessKeyId]. *)
Theorem GetAWSCredentials_incomplete :
  forall (w : World) (J : JSON AWSCredentials) (target : TargetEnvironment)
         (c : AWSCredentials),
    serves w (Resty target) MethodPost (aws_path target) None (Some c) ->
    (AccessKeyId c <> "" -> SecretAccessKey c = "" ->
       GetAWSCredentials w target =
         (Returned (None, Some IncompleteCredentialError_SecretAccessKey),
          [HttpCall (Resty target) MethodPost (aws_path target) None])) /\
    (AccessKeyId c = "" ->
       GetAWSCredentials w target =
         (Returned (None, Some IncompleteCredentialError_AccessKeyId),
          [HttpCall (Resty target) MethodPost (aws_path target) None])) /\
    Contains (Error IncompleteCredentialError_SecretAccessKey)
      "SecretAccessKey" = true /\
    Contains (Error IncompleteCredentialError_AccessKeyId)
      "AccessKeyId" = true.
Proof.
  intros w J target c Hserves.
  rewrite (GetAWSCredentials_served w target c Hserves).
  repeat split.
  - intros Hkey Hsecret. apply string_empty_false in Hkey.
    apply string_empty_true in Hsecret. now rewrite Hkey, Hsecret.
  - intros Hkey. apply string_empty_true in Hkey. now rewrite Hkey.
Qed.

Lemma GetAWSCredentials_incomplete_witness :
  let w := scripted.world
             [("POST", scripted.aws_path, scripted.ok scripted.no_secret_body)]
             scripted.userinfo scripted.no_authorization in
  let J := scripted.JSON_AWSCredentials in
  serves w (Resty scripted.target) MethodPost (aws_path scripted.target) None
    (Some scripted.no_secret) /\
  GetAWSCredentials w scripted.target =
    (Returned (None, Some (errorString "AWS credential missing SecretAccessKey")),
     [HttpCall (Resty scripted.target) MethodPost (aws_path scripted.target) None]).
Proof.
  cbv zeta.
  assert (Hserves :
    serves (J := scripted.JSON_AWSCredentials)
      (scripted.world
         [("POST", scripted.aws_path, scripted.ok scripted.no_secret_body)]
         scripted.userinfo scripted.no_authorization)
      (Resty scripted.target) MethodPost (aws_path scripted.target) None
      (Some scripted.no_secret)).
  { eexists. repeat split; vm_compute; reflexivity. }
  split; [exact Hserves|].
  apply (GetAWSCredentials_incomplete _ _ _ _ Hserves).
  - vm_compute. discriminate.
  - reflexivity.
Defined.

(* ===================================================================== *)
(** ** GetKubeConfigWithExecCredential *)
(* ===================================================================== *)

Section KubeConfig.

Variable w : World.
Context {JE : JSON KubeExecCredential} {JD : JSON EnvironmentDetails}.
Context {Y : YAML}.
Variable target : TargetEnvironment.

Let run : M (result string) := GetKubeConfigWithExecCredential w target.

Lemma nonempty_cluster_test c :
  nonempty_cluster c ->
  string_empty (clientauthentication.CertificateAuthorityData c)
  && string_empty (clientauthentication.Server c) = false.
Proof.
  intros [H|H]; apply string_empty_false in H; rewrite H.
  - reflexivity.
  - apply andb_false_r.
Qed.

Ltac start :=
  unfold run, GetKubeConfigWithExecCredential, GetDetails; cbv zeta;
  fold (execcredential_path target); fold (deployment_path target).

Lemma run_post_fails :
  fails w (Resty target) MethodPost (execcredential_path target) None ->
  run = (Returned
           (None,
            Some (request_error w (Resty target) MethodPost
                    (execcredential_path target) None)),
         [announce target; post_execcredential target]).
Proof.
  intros Hpost. start.
  rewrite (httpPostRequest_fails w _ _ _ Hpost). reflexivity.
Qed.

Lemma run_post_garbles rawBody (partial : KubeExecCredential) cause :
  garbles w (Resty target) MethodPost (execcredential_path target) None
    rawBody partial cause ->
  outcome_of run = Returned (None, Some (foreign cause)) /\
  calls (trace_of run) = [post_execcredential target].
Proof.
  intros Hpost. start.
  rewrite (httpPostRequest_garbles w _ _ _ _ _ _ Hpost). split; reflexivity.
Qed.

Lemma run_missing_cluster credentials cluster :
  serves w (Resty target) MethodPost (execcredential_path target) None
    (Some credentials) ->
  clientauthentication.Cluster_ (Spec credentials) = Some cluster ->
  clientauthentication.CertificateAuthorityData cluster = "" ->
  clientauthentication.Server cluster = "" ->
  run = (Returned (None, Some MissingClusterInfoError),
         [announce target; post_execcredential target]).
Proof.
  intros Hpost Hcluster Hca Hserver. start.
  rewrite (httpPostRequest_serves w _ _ _ _ Hpost). simpl.
  rewrite Hcluster. simpl. rewrite Hca, Hserver. reflexivity.
Qed.

(** A payload without [spec.cluster] decodes to a nil pointer, and the
    first read through it panics, after the POST alone. *)
Lemma run_no_cluster credentials :
  serves w (Resty target) MethodPost (execcredential_path target) None
    (Some credentials) ->
  clientauthentication.Cluster_ (Spec credentials) = None ->
  run = (Panicked nil_dereference,
         [announce target; post_execcredential target]).
Proof.
  intros Hpost Hcluster. start.
  rewrite (httpPostRequest_serves w _ _ _ _ Hpost). simpl.
  rewrite Hcluster. reflexivity.
Qed.

(** A payload that is the JSON null decodes to a nil pointer and no error,
    and the first read through it panics, after the POST alone. *)
Lemma run_null_credentials :
  serves w (Resty target) MethodPost (execcredential_path target) None
    (@None KubeExecCredential) ->
  run = (Panicked nil_dereference,
         [announce target; post_execcredential target]).
Proof.
  intros Hpost. start.
  rewrite (httpPostRequest_serves w _ _ _ _ Hpost). reflexivity.
Qed.

Section Cluster.

Variable credentials : KubeExecCredential.
Variable cluster : clientauthentication.Cluster.
Hypothesis Hpost :
  serves w (Resty target) MethodPost (execcredential_path target) None
    (Some credentials).
Hypothesis Hcluster :
  clientauthentication.Cluster_ (Spec credentials) = Some cluster.
Hypothesis Hnonempty : nonempty_cluster cluster.

Ltac past_cluster :=
  start; rewrite (httpPostRequest_serves w _ _ _ _ Hpost); simpl;
  rewrite Hcluster; simpl; rewrite (nonempty_cluster_test _ Hnonempty).

Lemma run_details_fails :
  fails w (Resty target) MethodGet (deployment_path target) None ->
  run = (Returned
           (None,
            Some (request_error w (Resty target) MethodGet
                    (deployment_path target) None)),
         [announce target; post_execcredential target; get_details target]).
Proof.
  intros Hget. past_cluster.
  rewrite (httpGetRequest_fails w _ _ Hget). reflexivity.
Qed.

Lemma run_details_garbles rawBody (partial : EnvironmentDetails) cause :
  garbles w (Resty target) MethodGet (deployment_path target) None
    rawBody partial cause ->
  outcome_of run = Returned (None, Some (foreign cause)) /\
  calls (trace_of run) = [post_execcredential target; get_details target].
Proof.
  intros Hget. past_cluster.
  rewrite (httpGetRequest_garbles w _ _ _ _ _ Hget). split; reflexivity.
Qed.

Section Details.

Variable environment : EnvironmentDetails.
Hypothesis Hget :
  serves w (Resty target) MethodGet (deployment_path target) None (Some environment).

Ltac past_details :=
  past_cluster; rewrite (httpGetRequest_serves w _ _ _ Hget); simpl.

Lemma run_missing_namespace :
  KubernetesNamespace (Deployment environment) = "" ->
  run = (Returned (None, Some MissingNamespaceError),
         [announce target; post_execcredential target; get_details target]).
Proof.
  intros Hns. past_details. rewrite Hns. reflexivity.
Qed.

Lemma run_identity_fails cause :
  KubernetesNamespace (Deployment environment) <> "" ->
  auth_FetchUserInfo w (TokenSet target) = inr cause ->
  run = (Returned (None, Some (IdentityResolutionError cause)),
         [announce target; post_execcredential target; get_details target;
          fetch_userinfo target]).
Proof.
  intros Hns Hauth. past_details.
  apply string_empty_false in Hns. rewrite Hns. simpl.
  rewrite Hauth. reflexivity.
Qed.

Lemma run_assembles userinfo :
  KubernetesNamespace (Deployment environment) <> "" ->
  auth_FetchUserInfo w (TokenSet target) = inl userinfo ->
  run = (Returned
           (Some (yaml_Marshal
                    (kubeConfigDocument w target cluster environment userinfo)),
            None),
         [announce target; post_execcredential target; get_details target;
          fetch_userinfo target]).
Proof.
  intros Hns Hauth. past_details.
  apply string_empty_false in Hns. rewrite Hns. simpl.
  rewrite Hauth. reflexivity.
Qed.

End Details.
End Cluster.

(** Every returned kubeconfig is the marshalled document of a cluster, an
    environment and a user the outside supplied. *)
Lemma run_assembled_inv dump t :
  run = (Returned (Some dump, None), t) ->
  exists cluster environment userinfo,
    dump = yaml_Marshal
             (kubeConfigDocument w target cluster environment userinfo) /\
    nonempty_cluster cluster /\
    KubernetesNamespace (Deployment environment) <> "" /\
    auth_FetchUserInfo w (TokenSet target) = inl userinfo.
Proof.
  start.
  destruct (httpPostRequest (T := KubeExecCredential) w (Resty target)
              (execcredential_path target) None) as [[[p e]|v] t1];
    simpl; [|discriminate].
  destruct e as [e|]; simpl; [discriminate|].
  destruct p as [credentials|]; simpl; [|discriminate].
  destruct (clientauthentication.Cluster_ (Spec credentials)) as [cluster|];
    simpl; [|discriminate].
  destruct (string_empty (clientauthentication.CertificateAuthorityData cluster)
            && string_empty (clientauthentication.Server cluster)) eqn:Hempty;
    simpl; [discriminate|].
  destruct (httpGetRequest (T := EnvironmentDetails) w (Resty target)
              (deployment_path target)) as [[[p e]|v] t2];
    simpl; [|discriminate].
  destruct e as [e|]; simpl; [discriminate|].
  destruct p as [environment|]; simpl; [|discriminate].
  destruct (string_empty (KubernetesNamespace (Deployment environment)))
    eqn:Hns; simpl; [discriminate|].
  destruct (auth_FetchUserInfo w (TokenSet target)) as [userinfo|cause];
    simpl; [|discriminate].
  intros [= <- _]. exists cluster, environment, userinfo.
  repeat split.
  - apply andb_false_iff in Hempty.
    destruct Hempty as [H|H]; apply string_empty_false in H;
      [left|right]; exact H.
  - now apply string_empty_false.
Qed.

End KubeConfig.

(** The order of the calls, for a payload whose [spec.cluster] is present:
    [GetKubeConfigWithExecCredential] asks the outside in the order
    exec-credential POST, deployment-details GET, identity lookup, and stops
    at the first failure.  In particular a [spec.cluster] that is there and
    has neither CA data nor server URL gives [MissingClusterInfoError] after
    the POST alone (no deployment-details call), and an empty namespace
    gives [MissingNamespaceError] after the POST and the GET alone (the
    identity provider is not called). *)
Theorem GetKubeConfigWithExecCredential_order :
  forall (w : World) (JE : JSON KubeExecCredential)
         (JD : JSON EnvironmentDetails) (Y : YAML)
         (target : TargetEnvironment),
    let run := GetKubeConfigWithExecCredential w target in
    let post := post_execcredential target in
    let get := get_details target in
    let identity := fetch_userinfo target in
    (fails w (Resty target) MethodPost (execcredential_path target) None ->
       outcome_of run
         = Returned (None, Some (request_error w (Resty target) MethodPost
                                   (execcredential_path target) None)) /\
       calls (trace_of run) = [post]) /\
    (forall rawBody (partial : KubeExecCredential) cause,
       garbles w (Resty target) MethodPost (execcredential_path target) None
         rawBody partial cause ->
       outcome_of run = Returned (None, Some (foreign cause)) /\
       calls (trace_of run) = [post]) /\
    (forall credentials cluster,
       serves w (Resty target) MethodPost (execcredential_path target) None
         (Some credentials) ->
       clientauthentication.Cluster_ (Spec credentials) = Some cluster ->
       (clientauthentication.CertificateAuthorityData cluster = "" ->
        clientauthentication.Server cluster = "" ->
          outcome_of run = Returned (None, Some MissingClusterInfoError) /\
          calls (trace_of run) = [post]) /\
       (nonempty_cluster cluster ->
          (fails w (Resty target) MethodGet (deployment_path target) None ->
             outcome_of run
               = Returned (None, Some (request_error w (Resty target) MethodGet
                                         (deployment_path target) None)) /\
             calls (trace_of run) = [post; get]) /\
          (forall rawBody (partial : EnvironmentDetails) cause,
             garbles w (Resty target) MethodGet (deployment_path target) None
               rawBody partial cause ->
             outcome_of run = Returned (None, Some (foreign cause)) /\
             calls (trace_of run) = [post; get]) /\
          (forall environment,
             serves w (Resty target) MethodGet (deployment_path target) None
               (Some environment) ->
             (KubernetesNamespace (Deployment environment) = "" ->
                outcome_of run = Returned (None, Some MissingNamespaceError) /\
                calls (trace_of run) = [post; get]) /\
             (KubernetesNamespace (Deployment environment) <> "" ->
                (forall cause,
                   auth_FetchUserInfo w (TokenSet target) = inr cause ->
                   outcome_of run
                     = Returned (None, Some (IdentityResolutionError cause)) /\
                   calls (trace_of run) = [post; get; identity]) /\
                (forall userinfo,
                   auth_FetchUserInfo w (TokenSet target) = inl userinfo ->
                   outcome_of run
                     = Returned
                         (Some (yaml_Marshal
                                  (kubeConfigDocument w target cluster
                                     environment userinfo)),
                          None) /\
                   calls (trace_of run) = [post; get; identity]))))).
Proof.
  intros w JE JD Y target. cbv zeta.
  split; [|split].
  - intros H. rewrite (run_post_fails w target H). split; reflexivity.
  - intros rawBody partial cause H.
    exact (run_post_garbles w target rawBody partial cause H).
  - intros credentials cluster Hpost Hcluster. split.
    + intros Hca Hserver.
      rewrite (run_missing_cluster w target _ _ Hpost Hcluster Hca Hserver).
      split; reflexivity.
    + intros Hnonempty. split; [|split].
      * intros H.
        rewrite (run_details_fails w target _ _ Hpost Hcluster Hnonempty H).
        split; reflexivity.
      * intros rawBody partial cause H.
        exact (run_details_garbles w target _ _ Hpost Hcluster Hnonempty
                 rawBody partial cause H).
      * intros environment Hget. split.
        -- intros Hns.
           rewrite (run_missing_namespace w target _ _ Hpost Hcluster
                      Hnonempty _ Hget Hns).
           split; reflexivity.
        -- intros Hns. split.
           ++ intros cause Hauth.
              rewrite (run_identity_fails w target _ _ Hpost Hcluster
                         Hnonempty _ Hget cause Hns Hauth).
              split; reflexivity.
           ++ intros userinfo Hauth.
              rewrite (run_assembles w target _ _ Hpost Hcluster
                         Hnonempty _ Hget userinfo Hns Hauth).
              split; reflexivity.
Qed.

Lemma GetKubeConfigWithExecCredential_order_witness :
  let JE := scripted.JSON_KubeExecCredential in
  let JD := scripted.JSON_EnvironmentDetails in
  let no_cluster :=
    scripted.world
      [("POST", scripted.k8s_path, scripted.ok scripted.empty_cluster_body)]
      scripted.userinfo scripted.no_authorization in
  let no_namespace :=
    scripted.world
      [("POST", scripted.k8s_path, scripted.ok scripted.cluster_body);
       ("GET", scripted.details_path, scripted.ok (scripted.details_body ""))]
      scripted.userinfo scripted.no_authorization in
  (outcome_of (GetKubeConfigWithExecCredential no_cluster scripted.target)
     = Returned (None, Some MissingClusterInfoError) /\
   calls (trace_of (GetKubeConfigWithExecCredential no_cluster scripted.target))
     = [post_execcredential scripted.target]) /\
  (outcome_of (GetKubeConfigWithExecCredential no_namespace scripted.target)
     = Returned (None, Some MissingNamespaceError) /\
   calls (trace_of (GetKubeConfigWithExecCredential no_namespace scripted.target))
     = [post_execcredential scripted.target; get_details scripted.target]).
Proof.
  cbv zeta. split.
  - pose proof (GetKubeConfigWithExecCredential_order
                  (scripted.world
                     [("POST", scripted.k8s_path,
                       scripted.ok scripted.empty_cluster_body)]
                     scripted.userinfo scripted.no_authorization)
                  scripted.JSON_KubeExecCredential
                  scripted.JSON_EnvironmentDetails wire_YAML scripted.target)
      as H.
    cbv zeta in H. destruct H as (_ & _ & H).
    destruct (H (scripted.exec_credential (Some scripted.empty_cluster))
                scripted.empty_cluster) as (Hempty & _).
    + eexists. repeat split; vm_compute; reflexivity.
    + reflexivity.
    + apply Hempty; reflexivity.
  - pose proof (GetKubeConfigWithExecCredential_order
                  (scripted.world
                     [("POST", scripted.k8s_path,
                       scripted.ok scripted.cluster_body);
                      ("GET", scripted.details_path,
                       scripted.ok (scripted.details_body ""))]
                     scripted.userinfo scripted.no_authorization)
                  scripted.JSON_KubeExecCredential
                  scripted.JSON_EnvironmentDetails wire_YAML scripted.target)
      as H.
    cbv zeta in H. destruct H as (_ & _ & H).
    destruct (H (scripted.exec_credential (Some scripted.cluster))
                scripted.cluster) as (_ & Hcluster).
    + eexists. repeat split; vm_compute; reflexivity.
    + reflexivity.
    + destruct Hcluster as (_ & _ & Hdetails).
      * left. vm_compute. discriminate.
      * destruct (Hdetails (scripted.details "")) as (Hns & _).
        -- eexists. repeat split; vm_compute; reflexivity.
        -- apply Hns. reflexivity.
Defined.

(** C2: concrete runs in which the exec-credential payload has no cluster
    information.  A StackAPI that answers 200 with a payload whose spec has
    no cluster, and one that answers 200 with the JSON null, are both
    served without error, and [GetKubeConfigWithExecCredential] does not
    return [MissingClusterInfoError]: it panics on a nil pointer
    dereference after the POST alone, because [credentials.Spec.Cluster] is
    read through pointers that were not checked.  Only a cluster that is
    present and empty gives the error.  The general statements are
    [run_no_cluster] and [run_null_credentials]. *)
Theorem GetKubeConfigWithExecCredential_absent_cluster_panics :
  let JE := scripted.JSON_KubeExecCredential in
  let JD := scripted.JSON_EnvironmentDetails in
  let Y := wire_YAML in
  let target := scripted.target in
  let answers body :=
    scripted.world [("POST", scripted.k8s_path, scripted.ok body)]
      scripted.userinfo scripted.no_authorization in
  let absent := answers scripted.no_cluster_body in
  let null := answers "null" in
  let empty := answers scripted.empty_cluster_body in
  (serves absent (Resty target) MethodPost (execcredential_path target) None
     (Some (scripted.exec_credential None)) /\
   GetKubeConfigWithExecCredential absent target =
     (Panicked nil_dereference,
      [announce target; post_execcredential target])) /\
  (serves null (Resty target) MethodPost (execcredential_path target) None
     (@None KubeExecCredential) /\
   GetKubeConfigWithExecCredential null target =
     (Panicked nil_dereference,
      [announce target; post_execcredential target])) /\
  GetKubeConfigWithExecCredential empty target =
    (Returned (None, Some MissingClusterInfoError),
     [announce target; post_execcredential target]).
Proof.
  cbv zeta. split; [split|split; [split|]].
  - eexists. repeat split; vm_compute; reflexivity.
  - vm_compute. reflexivity.
  - eexists. repeat split; vm_compute; reflexivity.
  - vm_compute. reflexivity.
  - vm_compute. reflexivity.
Qed.

(** C3: in every kubeconfig [GetKubeConfigWithExecCredential] returns, the
    one user entry is an exec hook: no token, command "metaplay", the
    arguments environment, get-kubernetes-execcredential, --stack-api, the
    stack API base URL, --environment, the human id, in this order, the
    apiVersion client.authentication.k8s.io/v1beta1 and interactiveMode
    Never. *)
Theorem kubeconfig_user_is_exec_hook :
  forall (w : World) (JE : JSON KubeExecCredential)
         (JD : JSON EnvironmentDetails) (Y : YAML)
         (target : TargetEnvironment) (dump : string),
    outcome_of (GetKubeConfigWithExecCredential w target)
      = Returned (Some dump, None) ->
    exists doc user,
      dump = yaml_Marshal doc /\
      yaml_Unmarshal dump = Some doc /\
      Users doc = [user] /\
      Token (user_User user) = "" /\
      Command (Exec (user_User user)) = "metaplay" /\
      Args (Exec (user_User user))
        = [ "environment"; "get-kubernetes-execcredential";
            "--stack-api"; StackApiBaseURL target;
            "--environment"; HumanId target ] /\
      exec_ApiVersion (Exec (user_User user))
        = "client.authentication.k8s.io/v1beta1" /\
      InteractiveMode (Exec (user_User user)) = "Never".
Proof.
  intros w JE JD Y target dump Hrun.
  destruct (GetKubeConfigWithExecCredential w target) as [o t] eqn:Heq.
  simpl in Hrun. subst o.
  destruct (run_assembled_inv w target dump t Heq)
    as (cluster & environment & userinfo & -> & _).
  eexists. eexists.
  split; [reflexivity|].
  split; [apply yaml_Unmarshal_Marshal|].
  split; [reflexivity|].
  repeat split.
Qed.

(** C4: when the exec-credential payload has CA data or a server URL, the
    deployment has a namespace and the identity lookup answers, the
    kubeconfig is returned and has exactly one cluster, one context and one
    user; current-context is the name of the context, which is the human id;
    the context names the cluster, whose name is the server URL, and the
    user, whose name is the email; and parsing the serialized document gives
    these four identifiers back.  The last part rests on the YAML library's
    contract that a marshalled document parses back to itself. *)
Theorem kubeconfig_one_of_each_and_roundtrip :
  forall (w : World) (JE : JSON KubeExecCredential)
         (JD : JSON EnvironmentDetails) (Y : YAML)
         (target : TargetEnvironment)
         (credentials : KubeExecCredential)
         (cluster : clientauthentication.Cluster)
         (environment : EnvironmentDetails)
         (userinfo : auth.UserInfoResponse),
    serves w (Resty target) MethodPost (execcredential_path target) None
      (Some credentials) ->
    clientauthentication.Cluster_ (Spec credentials) = Some cluster ->
    nonempty_cluster cluster ->
    serves w (Resty target) MethodGet (deployment_path target) None
      (Some environment) ->
    KubernetesNamespace (Deployment environment) <> "" ->
    auth_FetchUserInfo w (TokenSet target) = inl userinfo ->
    exists dump doc cl cx us,
      outcome_of (GetKubeConfigWithExecCredential w target)
        = Returned (Some dump, None) /\
      dump = yaml_Marshal doc /\
      Clusters doc = [cl] /\ Contexts doc = [cx] /\ Users doc = [us] /\
      CurrentContext doc = context_Name cx /\
      context_Name cx = HumanId target /\
      context_cluster (context_Context cx) = cluster_Name cl /\
      cluster_Name cl = clientauthentication.Server cluster /\
      context_user (context_Context cx) = user_Name us /\
      user_Name us = auth.Email userinfo /\
      option_map identifiers (yaml_Unmarshal dump) = Some (identifiers doc) /\
      identifiers doc
        = (HumanId target, [HumanId target],
           [clientauthentication.Server cluster], [auth.Email userinfo]).
Proof.
  intros w JE JD Y target credentials cluster environment userinfo
         Hpost Hcluster Hnonempty Hget Hns Hauth.
  rewrite (run_assembles w target _ _ Hpost Hcluster Hnonempty _ Hget
             userinfo Hns Hauth).
  eexists. eexists. eexists. eexists. eexists.
  split; [reflexivity|].
  split; [reflexivity|].
  split; [reflexivity|].
  split; [reflexivity|].
  split; [reflexivity|].
  rewrite yaml_Unmarshal_Marshal.
  repeat split.
Qed.

Lemma kubeconfig_user_is_exec_hook_witness :
  let JE := scripted.JSON_KubeExecCredential in
  let JD := scripted.JSON_EnvironmentDetails in
  exists dump,
    outcome_of (GetKubeConfigWithExecCredential scripted.healthy scripted.target)
      = Returned (Some dump, None) /\
    exists doc user,
      dump = yaml_Marshal doc /\
      yaml_Unmarshal dump = Some doc /\
      Users doc = [user] /\
      Token (user_User user) = "" /\
      Command (Exec (user_User user)) = "metaplay" /\
      Args (Exec (user_User user))
        = [ "environment"; "get-kubernetes-execcredential";
            "--stack-api"; "https://infra.example/stackapi";
            "--environment"; "tiny-squids" ] /\
      exec_ApiVersion (Exec (user_User user))
        = "client.authentication.k8s.io/v1beta1" /\
      InteractiveMode (Exec (user_User user)) = "Never".
Proof.
  cbv zeta. eexists. split.
  - vm_compute. reflexivity.
  - apply (kubeconfig_user_is_exec_hook scripted.healthy
             scripted.JSON_KubeExecCredential scripted.JSON_EnvironmentDetails
             wire_YAML scripted.target).
    vm_compute. reflexivity.
Defined.

Lemma kubeconfig_one_of_each_and_roundtrip_witness :
  let JE := scripted.JSON_KubeExecCredential in
  let JD := scripted.JSON_EnvironmentDetails in
  exists dump doc cl cx us,
    outcome_of (GetKubeConfigWithExecCredential scripted.healthy scripted.target)
      = Returned (Some dump, None) /\
    dump = yaml_Marshal doc /\
    Clusters doc = [cl] /\ Contexts doc = [cx] /\ Users doc = [us] /\
    CurrentContext doc = context_Name cx /\
    context_Name cx = "tiny-squids" /\
    context_cluster (context_Context cx) = cluster_Name cl /\
    cluster_Name cl = "https://k8s.example" /\
    context_user (context_Context cx) = user_Name us /\
    user_Name us = "dev@example.com" /\
    option_map identifiers (yaml_Unmarshal dump) = Some (identifiers doc) /\
    identifiers doc
      = ("tiny-squids", ["tiny-squids"],
         ["https://k8s.example"], ["dev@example.com"]).
Proof.
  cbv zeta.
  apply (kubeconfig_one_of_each_and_roundtrip scripted.healthy
           scripted.JSON_KubeExecCredential scripted.JSON_EnvironmentDetails
           wire_YAML scripted.target
           (scripted.exec_credential (Some scripted.cluster))
           scripted.cluster (scripted.details "tiny-squids-ns")
           scripted.developer).
  - eexists. repeat split; vm_compute; reflexivity.
  - reflexivity.
  - left. vm_compute. discriminate.
  - eexists. repeat split; vm_compute; reflexivity.
  - vm_compute. discriminate.
  - reflexivity.
Defined.

(* ===================================================================== *)
(** ** strings.SplitN at a colon *)
(* ===================================================================== *)

Lemma prefix_colon (c : ascii) (s : string) :
  String.prefix ":" (String c s) = true <-> c = ":"%char.
Proof.
  change (String.prefix ":" (String c s))
    with (if ascii_dec ":" c then String.prefix "" s else false).
  destruct (ascii_dec ":" c) as [<-|Hne].
  - destruct s; simpl; tauto.
  - split; [discriminate|congruence].
Qed.

Lemma colon_free_cons (c : ascii) (s : string) :
  colon_free (String c s) <-> c <> ":"%char /\ colon_free s.
Proof.
  unfold colon_free. simpl. split.
  - intros H. split; [intros ->|intros Hin]; apply H; auto.
  - intros [Hc Hs] [Heq|Hin]; [apply Hc; now subst|now apply Hs].
Qed.

Lemma Index_colon_free (s : string) :
  colon_free s -> strings.Index s ":" = None.
Proof.
  induction s as [|c s IH]; intros Hfree.
  - reflexivity.
  - apply colon_free_cons in Hfree. destruct Hfree as [Hc Hs].
    cbn [strings.Index].
    destruct (String.prefix ":" (String c s)) eqn:Hprefix.
    + apply prefix_colon in Hprefix. contradiction.
    + now rewrite (IH Hs).
Qed.

Lemma Index_first_colon (u p : string) :
  colon_free u ->
  strings.Index (u ++ ":" ++ p) ":" = Some (String.length u).
Proof.
  induction u as [|c u IH]; intros Hfree.
  - simpl. destruct p; reflexivity.
  - apply colon_free_cons in Hfree. destruct Hfree as [Hc Hs].
    change ((String c u) ++ ":" ++ p) with (String c (u ++ ":" ++ p)).
    cbn [strings.Index].
    destruct (String.prefix ":" (String c (u ++ ":" ++ p))) eqn:Hprefix.
    + apply prefix_colon in Hprefix. contradiction.
    + now rewrite (IH Hs).
Qed.

Lemma take_append (u rest : string) :
  strings.take (String.length u) (u ++ rest) = u.
Proof.
  induction u as [|c u IH]; simpl.
  - now destruct rest.
  - now rewrite IH.
Qed.

Lemma drop_append (u rest : string) (n : nat) :
  strings.drop (String.length u + n) (u ++ rest) = strings.drop n rest.
Proof.
  induction u as [|c u IH]; simpl.
  - reflexivity.
  - exact IH.
Qed.

(** A token without a colon is not split. *)
Lemma SplitN_colon_free (s : string) :
  colon_free s -> strings.SplitN s ":" 2 = [s].
Proof.
  intros Hfree. unfold strings.SplitN.
  destruct s as [|c s].
  - reflexivity.
  - rewrite Nat.min_l by (cbn [String.length]; lia).
    cbn [Nat.sub strings.genSplit_loop]. now rewrite (Index_colon_free _ Hfree).
Qed.

(** A token is cut at its first colon, and only there. *)
Lemma SplitN_first_colon (u p : string) :
  colon_free u -> strings.SplitN (u ++ ":" ++ p) ":" 2 = [u; p].
Proof.
  intros Hfree. unfold strings.SplitN.
  rewrite Nat.min_l by (destruct u; cbn [String.length append]; lia).
  cbn [Nat.sub strings.genSplit_loop].
  rewrite (Index_first_colon _ _ Hfree).
  rewrite take_append. rewrite drop_append. reflexivity.
Qed.

(** Every token is colon-free or has a first colon. *)
Lemma first_colon (s : string) :
  colon_free s \/ exists u p, s = u ++ ":" ++ p /\ colon_free u.
Proof.
  induction s as [|c s IH].
  - left. intros [].
  - destruct (ascii_dec c ":") as [->|Hc].
    + right. exists "", s. split; [reflexivity|intros []].
    + destruct IH as [Hfree|(u & p & -> & Hfree)].
      * left. apply colon_free_cons. auto.
      * right. exists (String c u), p. split; [reflexivity|].
        apply colon_free_cons. auto.
Qed.

(* ===================================================================== *)
(** ** GetDockerCredentials *)
(* ===================================================================== *)

Section Docker.

Variable w : World.
Context {J : JSON AWSCredentials}.
Variable target : TargetEnvironment.
Variable envDetails : EnvironmentDetails.

Let run : M (result DockerCredentials) :=
  GetDockerCredentials w target envDetails.

Section Answer.

Variable out : ecr.GetAuthorizationTokenOutput.
Hypothesis Hanswer : registry_answers w target envDetails out.

Ltac to_answer :=
  destruct Hanswer as (c & Haws & Hkey & Hsecret & Hconfig & Hecr);
  unfold run, GetDockerCredentials;
  rewrite (GetAWSCredentials_complete w target c Haws Hkey Hsecret);
  cbn [bind emit ret deref app]; fold (aws_config envDetails c);
  rewrite Hconfig; cbn [bind emit ret deref app]; rewrite Hecr.

Lemma run_missing_authorization :
  missing_authorization out ->
  outcome_of run = Returned (None, Some EmptyAuthorizationTokenError).
Proof.
  unfold missing_authorization. intros Hmissing. to_answer.
  destruct (ecr.AuthorizationData_ out) as [|[token endpoint] rest].
  - reflexivity.
  - simpl in Hmissing. destruct Hmissing as [-> | ->].
    + reflexivity.
    + destruct token; reflexivity.
Qed.

Section Token.

Variables (authorization64 registryURL : string).
Variable rest : list ecr.AuthorizationData.
Hypothesis Hdata :
  ecr.AuthorizationData_ out =
    {| ecr.AuthorizationToken := Some authorization64;
       ecr.ProxyEndpoint := Some registryURL |} :: rest.

Lemma run_not_base64 e :
  base64_DecodeString w authorization64 = inr e ->
  outcome_of run = Returned (None, Some (foreign e)).
Proof.
  intros Hdecode. to_answer. rewrite Hdata.
  cbn [bind emit ret deref app]. now rewrite Hdecode.
Qed.

Lemma run_split authorization :
  base64_DecodeString w authorization64 = inl authorization ->
  outcome_of run =
    match strings.SplitN authorization ":" 2 with
    | [username; password] =>
        Returned (Some {| Username := username;
                          Password := password;
                          RegistryURL := registryURL |}, None)
    | _ => Returned (None, Some AuthorizationTokenParseError)
    end.
Proof.
  intros Hdecode. to_answer. rewrite Hdata.
  cbn [bind emit ret deref app]. rewrite Hdecode.
  destruct (strings.SplitN authorization ":" 2) as [|a [|b [|x l]]];
    reflexivity.
Qed.

End Token.
End Answer.

Lemma errorString_not_parse_error (text : string) :
  errorString ("failed to get AWS credentials: " ++ text)
    <> AuthorizationTokenParseError.
Proof. unfold AuthorizationTokenParseError. simpl. congruence. Qed.

(** The parse error comes from one place only: a token that decoded and
    holds no colon. *)
Lemma run_parse_error_inv p :
  outcome_of run = Returned (p, Some AuthorizationTokenParseError) ->
  exists out authorization64 registryURL rest authorization,
    registry_answers w target envDetails out /\
    ecr.AuthorizationData_ out =
      {| ecr.AuthorizationToken := Some authorization64;
         ecr.ProxyEndpoint := Some registryURL |} :: rest /\
    base64_DecodeString w authorization64 = inl authorization /\
    colon_free authorization.
Proof.
  unfold run, GetDockerCredentials.
  destruct (GetAWSCredentials w target) as [[r|v] t] eqn:Haws;
    cbn [bind emit ret deref app outcome_of fst]; [|discriminate].
  destruct (GetAWSCredentials_returns w target r t Haws)
    as [(c & -> & Hserves & Hkey & Hsecret)|[-> | ->]].
  2, 3: cbn; intros [= _ H]; discriminate H.
  cbn [bind emit ret deref app outcome_of fst].
  fold (aws_config envDetails c).
  destruct (config_LoadDefaultConfig w (aws_config envDetails c)) as [e|]
    eqn:Hconfig; cbn [bind emit ret deref app outcome_of fst];
    [discriminate|].
  destruct (ecr_GetAuthorizationToken w (aws_config envDetails c))
    as [out|e] eqn:Hecr; cbn [bind emit ret deref app outcome_of fst];
    [|discriminate].
  destruct (ecr.AuthorizationData_ out) as [|[[token|] [endpoint|]] rest]
    eqn:Hdata; cbn [bind emit ret deref app outcome_of fst].
  1, 3, 4, 5: discriminate.
  destruct (base64_DecodeString w token) as [authorization|e] eqn:Hdecode;
    cbn [bind emit ret deref app outcome_of fst]; [|discriminate].
  intros Hrun.
  exists out, token, endpoint, rest, authorization.
  split; [exists c; auto|]. split; [exact Hdata|]. split; [exact Hdecode|].
  destruct (first_colon authorization) as [Hfree|(u & pw & -> & Hfree)];
    [exact Hfree|].
  rewrite (SplitN_first_colon u pw Hfree) in Hrun. discriminate Hrun.
Qed.

End Docker.

(** C5: once the registry's token has been decoded, [GetDockerCredentials]
    splits it at the first colon only.  A token without a colon is rejected
    with [AuthorizationTokenParseError]; a token [u:p] with no colon in [u]
    gives username [u] and password [p], whatever colons [p] holds; so
    abc:de:f gives username abc and password de:f. *)
Theorem GetDockerCredentials_first_colon :
  forall (w : World) (J : JSON AWSCredentials) (target : TargetEnvironment)
         (envDetails : EnvironmentDetails)
         (out : ecr.GetAuthorizationTokenOutput)
         (authorization64 registryURL : string)
         (rest : list ecr.AuthorizationData) (authorization : string),
    registry_answers w target envDetails out ->
    ecr.AuthorizationData_ out =
      {| ecr.AuthorizationToken := Some authorization64;
         ecr.ProxyEndpoint := Some registryURL |} :: rest ->
    base64_DecodeString w authorization64 = inl authorization ->
    let run := GetDockerCredentials w target envDetails in
    (colon_free authorization ->
       outcome_of run = Returned (None, Some AuthorizationTokenParseError)) /\
    (forall u p,
       authorization = u ++ ":" ++ p -> colon_free u ->
       outcome_of run
         = Returned (Some {| Username := u; Password := p;
                             RegistryURL := registryURL |}, None)) /\
    (authorization = "abc:de:f" ->
       outcome_of run
         = Returned (Some {| Username := "abc"; Password := "de:f";
                             RegistryURL := registryURL |}, None)).
Proof.
  intros w J target envDetails out authorization64 registryURL rest
         authorization Hanswer Hdata Hdecode. cbv zeta.
  rewrite (run_split w target envDetails out Hanswer _ _ _ Hdata _ Hdecode).
  repeat split.
  - intros Hfree. now rewrite (SplitN_colon_free _ Hfree).
  - intros u p -> Hfree. now rewrite (SplitN_first_colon u p Hfree).
  - intros ->. reflexivity.
Qed.

Lemma GetDockerCredentials_first_colon_witness :
  let J := scripted.JSON_AWSCredentials in
  let w := scripted.world
             [("POST", scripted.aws_path, scripted.ok scripted.credentials_body)]
             scripted.userinfo (scripted.authorization "YWJjOmRlOmY=") in
  base64_DecodeString w "YWJjOmRlOmY=" = inl "abc:de:f" /\
  outcome_of (GetDockerCredentials w scripted.target
                (scripted.details "tiny-squids-ns"))
    = Returned (Some {| Username := "abc"; Password := "de:f";
                        RegistryURL := scripted.registry |}, None).
Proof.
  cbv zeta. split; [reflexivity|].
  apply (GetDockerCredentials_first_colon
           (scripted.world
              [("POST", scripted.aws_path,
                scripted.ok scripted.credentials_body)]
              scripted.userinfo (scripted.authorization "YWJjOmRlOmY="))
           scripted.JSON_AWSCredentials scripted.target
           (scripted.details "tiny-squids-ns")
           {| ecr.AuthorizationData_ :=
                [ {| ecr.AuthorizationToken := Some "YWJjOmRlOmY=";
                     ecr.ProxyEndpoint := Some scripted.registry |} ] |}
           "YWJjOmRlOmY=" scripted.registry [] "abc:de:f").
  - exists scripted.credentials. split.
    + eexists. repeat split; vm_compute; reflexivity.
    + repeat split; try (vm_compute; discriminate).
  - reflexivity.
  - reflexivity.
  - reflexivity.
Defined.

(** C6: when the registry's answer has an empty result list, or a first
    element without the authorization token or without the proxy endpoint,
    [GetDockerCredentials] returns [EmptyAuthorizationTokenError] and no
    credentials. *)
Theorem GetDockerCredentials_empty_authorization :
  forall (w : World) (J : JSON AWSCredentials) (target : TargetEnvironment)
         (envDetails : EnvironmentDetails)
         (out : ecr.GetAuthorizationTokenOutput),
    registry_answers w target envDetails out ->
    missing_authorization out ->
    outcome_of (GetDockerCredentials w target envDetails)
      = Returned (None, Some EmptyAuthorizationTokenError).
Proof.
  intros w J target envDetails out Hanswer Hmissing.
  exact (run_missing_authorization w target envDetails out Hanswer Hmissing).
Qed.

Lemma GetDockerCredentials_empty_authorization_witness :
  let J := scripted.JSON_AWSCredentials in
  let w := scripted.world
             [("POST", scripted.aws_path, scripted.ok scripted.credentials_body)]
             scripted.userinfo scripted.no_authorization in
  outcome_of (GetDockerCredentials w scripted.target
                (scripted.details "tiny-squids-ns"))
    = Returned
        (None,
         Some (errorString
                 "received an empty authorization token response for ECR repository")).
Proof.
  cbv zeta.
  apply (GetDockerCredentials_empty_authorization
           (scripted.world
              [("POST", scripted.aws_path,
                scripted.ok scripted.credentials_body)]
              scripted.userinfo scripted.no_authorization)
           scripted.JSON_AWSCredentials scripted.target
           (scripted.details "tiny-squids-ns")
           {| ecr.AuthorizationData_ := [] |}).
  - exists scripted.credentials. split.
    + eexists. repeat split; vm_compute; reflexivity.
    + repeat split; try (vm_compute; discriminate).
  - exact I.
Defined.

(** C10: when the registry's token is not valid base64,
    [GetDockerCredentials] returns the decoder's error, unchanged, and no
    credentials.  That error is not [AuthorizationTokenParseError], which is
    returned only when the token did decode and the decoded text holds no
    colon. *)
Theorem GetDockerCredentials_not_base64 :
  forall (w : World) (J : JSON AWSCredentials) (target : TargetEnvironment)
         (envDetails : EnvironmentDetails),
    let run := GetDockerCredentials w target envDetails in
    (forall out authorization64 registryURL rest e,
       registry_answers w target envDetails out ->
       ecr.AuthorizationData_ out =
         {| ecr.AuthorizationToken := Some authorization64;
            ecr.ProxyEndpoint := Some registryURL |} :: rest ->
       base64_DecodeString w authorization64 = inr e ->
       outcome_of run = Returned (None, Some (foreign e)) /\
       foreign e <> AuthorizationTokenParseError) /\
    (forall p,
       outcome_of run = Returned (p, Some AuthorizationTokenParseError) ->
       exists out authorization64 registryURL rest authorization,
         registry_answers w target envDetails out /\
         ecr.AuthorizationData_ out =
           {| ecr.AuthorizationToken := Some authorization64;
              ecr.ProxyEndpoint := Some registryURL |} :: rest /\
         base64_DecodeString w authorization64 = inl authorization /\
         colon_free authorization).
Proof.
  intros w J target envDetails. cbv zeta. split.
  - intros out authorization64 registryURL rest e Hanswer Hdata Hdecode.
    split; [|discriminate].
    exact (run_not_base64 w target envDetails out Hanswer _ _ _ Hdata e
             Hdecode).
  - intros p. apply run_parse_error_inv.
Qed.

Lemma GetDockerCredentials_not_base64_witness :
  let J := scripted.JSON_AWSCredentials in
  let w := scripted.world
             [("POST", scripted.aws_path, scripted.ok scripted.credentials_body)]
             scripted.userinfo (scripted.authorization "not base64!") in
  base64_DecodeString w "not base64!" = inr (base64.CorruptInputError 3) /\
  outcome_of (GetDockerCredentials w scripted.target
                (scripted.details "tiny-squids-ns"))
    = Returned (None, Some (foreign (base64.CorruptInputError 3))) /\
  foreign (base64.CorruptInputError 3) <> AuthorizationTokenParseError.
Proof.
  cbv zeta. split; [reflexivity|].
  pose proof (GetDockerCredentials_not_base64
                (scripted.world
                   [("POST", scripted.aws_path,
                     scripted.ok scripted.credentials_body)]
                   scripted.userinfo (scripted.authorization "not base64!"))
                scripted.JSON_AWSCredentials scripted.target
                (scripted.details "tiny-squids-ns")) as H.
  cbv zeta in H. destruct H as (H & _).
  apply (H {| ecr.AuthorizationData_ :=
                [ {| ecr.AuthorizationToken := Some "not base64!";
                     ecr.ProxyEndpoint := Some scripted.registry |} ] |}
           "not base64!" scripted.registry []
           (base64.CorruptInputError 3)).
  - exists scripted.credentials. split.
    + eexists. repeat split; vm_compute; reflexivity.
    + repeat split; try (vm_compute; discriminate).
  - reflexivity.
  - reflexivity.
Defined.

(* ===================================================================== *)
(** ** The two request executors: methods and decode failures *)
(* ===================================================================== *)

Section Executors.

Variable w : World.

Lemma httpRequest_put_panics {T} {R : Response T} client path body :
  httpRequest (T := T) w client MethodPut path body =
    (Panicked "HTTP request method not implemented",
     [Log PanicLevel "HTTP request method not implemented"]).
Proof. reflexivity. Qed.

Ltac quiet := eexists; eexists; split; [reflexivity|intros ? []].
Ltac logged :=
  eexists; eexists; split; [reflexivity|intros ? [<-|[]]; eauto].

Lemma httpRequest_accepts {T} {R : Response T} client method path body :
  In method [MethodGet; MethodPost] ->
  exists (r : result T) log,
    httpRequest w client method path body =
      (Returned r, HttpCall client method path (sent method body) :: log) /\
    only_errors_logged log.
Proof.
  unfold only_errors_logged.
  intros [<-|[<-|[]]]; unfold httpRequest, resty_call, sent; simpl.
  - destruct (resty_Execute w client MethodGet path None) as [response|e];
      simpl; [|quiet].
    rewrite status_failed_negb.
    destruct (status_ok (resty.StatusCode response)); simpl; [|quiet].
    unfold response_shape. destruct R as [conv|J]; simpl; [quiet|].
    destruct (json_Unmarshal_ptr (resty.Body response)) as [p [e|]]; simpl;
      [logged|quiet].
  - destruct (resty_Execute w client MethodPost path body) as [response|e];
      simpl; [|quiet].
    rewrite status_failed_negb.
    destruct (status_ok (resty.StatusCode response)); simpl; [|quiet].
    unfold response_shape. destruct R as [conv|J]; simpl; [quiet|].
    destruct (json_Unmarshal_ptr (resty.Body response)) as [p [e|]]; simpl;
      [logged|quiet].
Qed.

Ltac request_returns :=
  match goal with
  | |- context [resty_Execute ?w ?c ?m ?u ?b] =>
      destruct (resty_Execute w c m u b) as [response|e]; simpl; [|quiet];
      rewrite status_failed_negb;
      destruct (status_ok (resty.StatusCode response)); simpl; [|quiet]
  end.

Lemma Request_accepts {T} {R : Response T} c method url body :
  In method [MethodGet; MethodPost; MethodPut] ->
  exists (r : T * option error) log,
    metahttp.Request w c method url body =
      (Returned r,
       HttpCall (metahttp.Resty c) method url (sent method body) :: log) /\
    only_errors_logged log.
Proof.
  unfold only_errors_logged.
  intros [<-|[<-|[<-|[]]]]; unfold metahttp.Request, resty_call, sent; simpl;
    request_returns;
    (destruct R as [conv|J]; simpl; [quiet|]);
    (destruct (json_Unmarshal (resty.Body response) zero) as [v [e|]]; simpl;
     [logged|quiet]).
Qed.

Lemma httpRequest_garbles {T} {J : JSON T} client method path body
    rawBody (partial : T) cause :
  In method [MethodGet; MethodPost] ->
  garbles w client method path (sent method body) rawBody partial cause ->
  httpRequest (T := T) w client method path body =
    (Returned (None, Some (foreign cause)),
     [HttpCall client method path (sent method body);
      unmarshal_failure cause rawBody]).
Proof.
  intros [<-|[<-|[]]] (response & Hexec & Hstatus & <- & Hnull & Hjson);
    unfold sent in *; simpl in Hexec;
    unfold httpRequest, resty_call; simpl;
    rewrite Hexec; simpl; rewrite status_failed_negb, Hstatus; simpl;
    unfold response_shape, Response_struct;
    rewrite (json_Unmarshal_ptr_garbled _ _ _ Hnull Hjson); reflexivity.
Qed.

Lemma Request_garbles {T} {J : JSON T} c method url body
    rawBody (partial : T) cause :
  In method [MethodGet; MethodPost; MethodPut] ->
  garbles w (metahttp.Resty c) method url (sent method body)
    rawBody partial cause ->
  metahttp.Request w c method url body =
    (Returned (partial, Some (foreign cause)),
     [HttpCall (metahttp.Resty c) method url (sent method body);
      unmarshal_failure cause rawBody]).
Proof.
  intros [<-|[<-|[<-|[]]]]
         (response & Hexec & Hstatus & <- & Hnull & Hjson);
    unfold sent in *; simpl in Hexec;
    unfold metahttp.Request, resty_call; simpl;
    rewrite Hexec; simpl; rewrite status_failed_negb, Hstatus; simpl;
    rewrite Hjson; reflexivity.
Qed.

End Executors.

(** C8, as the code has it: when a body served with a status in [200,300)
    does not parse as JSON, both executors return the parse error itself,
    unwrapped: it has no cause beneath it and its message is the parser's,
    so neither the path nor the body is added to it.  The body goes to the
    log, in one error-level line, together with the parser's message.
    [httpRequest] returns no value next to the error; [metahttp.Request]
    returns the value as the decoder left it. *)
Theorem decode_failure_returns_the_parse_error :
  forall (w : World) (T : Type) (J : JSON T)
         (method path : string) (body : option string)
         (rawBody : string) (partial : T) (cause : foreign_error),
    (forall client,
       In method [MethodGet; MethodPost] ->
       garbles w client method path (sent method body)
         rawBody partial cause ->
       httpRequest (T := T) w client method path body =
         (Returned (None, Some (foreign cause)),
          [HttpCall client method path (sent method body);
           unmarshal_failure cause rawBody])) /\
    (forall c,
       In method [MethodGet; MethodPost; MethodPut] ->
       garbles w (metahttp.Resty c) method path (sent method body)
         rawBody partial cause ->
       metahttp.Request w c method path body =
         (Returned (partial, Some (foreign cause)),
          [HttpCall (metahttp.Resty c) method path (sent method body);
           unmarshal_failure cause rawBody])) /\
    Unwrap (foreign cause) = None /\
    Error (foreign cause) = fe_text cause /\
    ~ is_DecodeError path cause (foreign cause).
Proof.
  intros w T J method path body rawBody partial cause.
  split; [|split; [|split; [|split]]].
  - intros client Hmethod Hgarbles.
    exact (httpRequest_garbles w client method path body rawBody partial
             cause Hmethod Hgarbles).
  - intros c Hmethod Hgarbles.
    exact (Request_garbles w c method path body rawBody partial cause
             Hmethod Hgarbles).
  - reflexivity.
  - reflexivity.
  - intros [Hunwrap _]. discriminate Hunwrap.
Qed.

Lemma decode_failure_returns_the_parse_error_witness :
  let w := scripted.world
             [("POST", scripted.aws_path, scripted.ok "{")]
             scripted.userinfo scripted.no_authorization in
  let J := scripted.JSON_AWSCredentials in
  httpRequest (T := AWSCredentials) w (Resty scripted.target)
      MethodPost scripted.aws_path None =
    (Returned (None, Some (foreign scripted.SyntaxError)),
     [HttpCall (Resty scripted.target) MethodPost scripted.aws_path None;
      Log ErrorLevel
        "Failed to unmarshal response: unexpected end of JSON input, raw body: {"]).
Proof.
  cbv zeta.
  pose proof (decode_failure_returns_the_parse_error
                (scripted.world
                   [("POST", scripted.aws_path, scripted.ok "{")]
                   scripted.userinfo scripted.no_authorization)
                AWSCredentials scripted.JSON_AWSCredentials
                MethodPost scripted.aws_path None
                "{" scripted.no_credentials scripted.SyntaxError) as H.
  destruct H as (H & _).
  apply (H (Resty scripted.target)).
  - right. left. reflexivity.
  - eexists. repeat split; vm_compute; reflexivity.
Defined.

(** C8, as the claim has it, fails: the StackAPI answers 200 with the
    truncated body of one opening brace; the error that comes back is the
    parser's own error, not a [DecodeError] that carries the path and has the
    parse error as its cause. *)
Lemma decode_failure_is_not_a_DecodeError :
  let w := scripted.world
             [("POST", scripted.aws_path, scripted.ok "{")]
             scripted.userinfo scripted.no_authorization in
  let J := scripted.JSON_AWSCredentials in
  garbles w (Resty scripted.target) MethodPost scripted.aws_path None
    "{" scripted.no_credentials scripted.SyntaxError /\
  (exists e,
     outcome_of (httpPostRequest (T := AWSCredentials) w
                   (Resty scripted.target) scripted.aws_path None)
       = Returned (None, Some e) /\
     e = foreign scripted.SyntaxError /\
     ~ is_DecodeError scripted.aws_path scripted.SyntaxError e) /\
  (exists e v,
     outcome_of (metahttp.Post (T := AWSCredentials) w
                   (metahttp.NewClient (TokenSet scripted.target)
                      (StackApiBaseURL scripted.target))
                   scripted.aws_path None)
       = Returned (v, Some e) /\
     e = foreign scripted.SyntaxError /\
     ~ is_DecodeError scripted.aws_path scripted.SyntaxError e).
Proof.
  cbv zeta. split; [|split].
  - eexists. repeat split; vm_compute; reflexivity.
  - exists (foreign scripted.SyntaxError).
    split; [vm_compute; reflexivity|]. split; [reflexivity|].
    intros [Hunwrap _]. discriminate Hunwrap.
  - exists (foreign scripted.SyntaxError), scripted.no_credentials.
    split; [vm_compute; reflexivity|]. split; [reflexivity|].
    intros [Hunwrap _]. discriminate Hunwrap.
Qed.

(** What a GET or POST through [httpRequest] comes to. *)
Lemma httpRequest_shape :
  forall (w : World) (T : Type) (R : Response T) (client : resty.Client)
         (method path : string) (body : option string),
    In method [MethodGet; MethodPost] ->
    exists (r : result T) log,
      httpRequest w client method path body =
        (Returned r, HttpCall client method path (sent method body) :: log) /\
      calls log = [] /\
      (fst r = None \/ snd r = None) /\
      (fst r = None -> snd r = None ->
         exists J response,
           R = Structured J /\
           resty_Execute w client method path (sent method body)
             = inl response /\
           status_ok (resty.StatusCode response) = true /\
           json_null (resty.Body response) = true).
Proof.
  intros w T R client method path body Hmethod.
  assert (Hsent : resty_call w client method path (sent method body) =
                  (Returned (resty_Execute w client method path
                               (sent method body)),
                   [HttpCall client method path (sent method body)]))
    by reflexivity.
  assert (Hrun : httpRequest w client method path body =
            bind (resty_call w client method path (sent method body))
              (fun r =>
                 match r with
                 | inr err =>
                     ret (None, Some (wrapError
                            (method ++ " request to " ++ path ++
                             " failed: " ++ fe_text err) (foreign err)))
                 | inl response =>
                     if status_failed (resty.StatusCode response) then
                       ret (None, Some (errorString
                              (method ++ " request to " ++ path ++
                               " failed with status code " ++
                               itoa (resty.StatusCode response))))
                     else
                       match R with
                       | PlainText conv =>
                           ret (Some (conv (resty_String w response)), None)
                       | Structured _ =>
                           match json_Unmarshal_ptr (resty.Body response) with
                           | (_, Some err) =>
                               emit (Log ErrorLevel
                                       ("Failed to unmarshal response: " ++
                                        fe_text err ++ ", raw body: " ++
                                        resty.Body response)) ;;
                               ret (None, Some (foreign err))
                           | (result, None) => ret (result, None)
                           end
                       end
                 end)).
  { destruct Hmethod as [<-|[<-|[]]]; reflexivity. }
  rewrite Hrun, Hsent. clear Hrun Hsent. cbn [bind].
  destruct (resty_Execute w client method path (sent method body))
    as [response|e] eqn:Hexec.
  - rewrite status_failed_negb.
    destruct (status_ok (resty.StatusCode response)) eqn:Hstatus;
      cbn [negb].
    + destruct R as [conv|J].
      * eexists. eexists. split; [reflexivity|].
        split; [reflexivity|]. split; [now right|]. discriminate.
      * unfold json_Unmarshal_ptr.
        destruct (json_null (resty.Body response)) eqn:Hnull.
        -- eexists. eexists. split; [reflexivity|].
           split; [reflexivity|]. split; [now left|].
           intros _ _. exists J, response. auto.
        -- destruct (json_Unmarshal (resty.Body response) zero) as [v [e|]].
           ++ eexists. eexists. split; [reflexivity|].
              split; [reflexivity|]. split; [now left|]. discriminate.
           ++ eexists. eexists. split; [reflexivity|].
              split; [reflexivity|]. split; [now right|]. discriminate.
    + eexists. eexists. split; [reflexivity|].
      split; [reflexivity|]. split; [now left|]. discriminate.
  - eexists. eexists. split; [reflexivity|].
    split; [reflexivity|]. split; [now left|]. discriminate.
Qed.

(** C9, as the code has it: [metahttp.Request] accepts GET, POST and PUT:
    it issues the call and returns, logging nothing at panic level.  The
    package-private [httpRequest] of envapi accepts GET and POST in the same
    way, and never returns both a result and an error; it returns a result
    or an error except when a structured body, served with a status in
    [200,300), is the JSON literal null: then, and only then, it returns
    neither.  [httpRequest] has no case for PUT, which takes its default
    branch: nothing is sent and the run panics. *)
Theorem request_executors_accepted_methods :
  forall (w : World) (T : Type) (R : Response T)
         (method url : string) (body : option string),
    (forall c,
       In method [MethodGet; MethodPost; MethodPut] ->
       exists (r : T * option error) log,
         metahttp.Request w c method url body =
           (Returned r,
            HttpCall (metahttp.Resty c) method url (sent method body) :: log) /\
         only_errors_logged log) /\
    (forall client,
       In method [MethodGet; MethodPost] ->
       exists (r : result T) log,
         httpRequest w client method url body =
           (Returned r,
            HttpCall client method url (sent method body) :: log) /\
         only_errors_logged log /\
         (fst r = None \/ snd r = None) /\
         (fst r = None -> snd r = None ->
            exists J response,
              R = Structured J /\
              resty_Execute w client method url (sent method body)
                = inl response /\
              status_ok (resty.StatusCode response) = true /\
              json_null (resty.Body response) = true)) /\
    (forall client (J : JSON T) response,
       In method [MethodGet; MethodPost] ->
       R = Structured J ->
       resty_Execute w client method url (sent method body) = inl response ->
       status_ok (resty.StatusCode response) = true ->
       json_null (resty.Body response) = true ->
       httpRequest w client method url body =
         (Returned (None, None),
          [HttpCall client method url (sent method body)])) /\
    (forall client,
       method = MethodPut ->
       httpRequest (T := T) w client method url body =
         (Panicked "HTTP request method not implemented",
          [Log PanicLevel "HTTP request method not implemented"])).
Proof.
  intros w T R method url body. split; [|split; [|split]].
  - intros c Hmethod. exact (Request_accepts w c method url body Hmethod).
  - intros client Hmethod.
    destruct (httpRequest_accepts w client method url body Hmethod)
      as (r & log & Hrun & Hlog).
    destruct (httpRequest_shape w T R client method url body Hmethod)
      as (r' & log' & Hrun' & _ & Hone & Hneither).
    rewrite Hrun in Hrun'. injection Hrun' as <- <-.
    exists r, log. repeat split; assumption.
  - intros client J response Hmethod -> Hexec Hstatus Hnull.
    destruct Hmethod as [<-|[<-|[]]];
      unfold sent in *; simpl in Hexec;
      unfold httpRequest, resty_call; simpl;
      rewrite Hexec; simpl; rewrite status_failed_negb, Hstatus; simpl;
      unfold response_shape, json_Unmarshal_ptr; rewrite Hnull;
      reflexivity.
  - intros client ->. reflexivity.
Qed.

Lemma request_executors_accepted_methods_witness :
  exists (r : string * option error) log,
    metahttp.Request scripted.healthy
      (metahttp.NewClient (TokenSet scripted.target)
         (StackApiBaseURL scripted.target))
      MethodPut scripted.details_path (Some "{}") =
      (Returned r,
       HttpCall (Resty scripted.target) MethodPut scripted.details_path
         (Some "{}") :: log) /\
    only_errors_logged log.
Proof.
  pose proof (request_executors_accepted_methods scripted.healthy
                string Response_string MethodPut scripted.details_path
                (Some "{}")) as H.
  destruct H as (H & _).
  apply (H (metahttp.NewClient (TokenSet scripted.target)
              (StackApiBaseURL scripted.target))).
  right. right. left. reflexivity.
Defined.

(** C9, as the claim has it, fails for the executor of envapi: a PUT through
    [httpRequest] sends nothing and panics. *)
Lemma httpRequest_rejects_PUT :
  In MethodPut [MethodGet; MethodPost; MethodPut] /\
  httpRequest (T := string) scripted.healthy (Resty scripted.target)
      MethodPut scripted.details_path (Some "{}") =
    (Panicked "HTTP request method not implemented",
     [Log PanicLevel "HTTP request method not implemented"]) /\
  calls (trace_of (httpRequest (T := string) scripted.healthy
                     (Resty scripted.target) MethodPut
                     scripted.details_path (Some "{}"))) = [].
Proof.
  split; [right; right; left; reflexivity|].
  split; reflexivity.
Qed.

(* ===================================================================== *)
(** ** Runs against the scripted StackAPI *)
(* ===================================================================== *)

Section Runs.

#[local] Existing Instance scripted.JSON_AWSCredentials.
#[local] Existing Instance scripted.JSON_KubeExecCredential.
#[local] Existing Instance scripted.JSON_EnvironmentDetails.

Example healthy_aws_credentials :
  GetAWSCredentials scripted.healthy scripted.target =
    (Returned (Some scripted.credentials, None),
     [HttpCall (Resty scripted.target) "POST"
        "/v0/credentials/tiny-squids/aws" None]).
Proof. vm_compute. reflexivity. Qed.

Example healthy_docker_credentials :
  outcome_of (GetDockerCredentials scripted.healthy scripted.target
                (scripted.details "tiny-squids-ns")) =
    Returned (Some {| Username := "AWS"; Password := "pass";
                      RegistryURL := scripted.registry |}, None).
Proof. vm_compute. reflexivity. Qed.

Example healthy_details :
  outcome_of (GetDetails scripted.healthy scripted.target) =
    Returned (Some (scripted.details "tiny-squids-ns"), None).
Proof. vm_compute. reflexivity. Qed.

Example healthy_exec_credential_is_plain_text :
  outcome_of (GetKubeExecCredential scripted.healthy scripted.target) =
    Returned (Some scripted.cluster_body, None).
Proof. vm_compute. reflexivity. Qed.

Example healthy_kubeconfig_calls :
  calls (trace_of (GetKubeConfigWithExecCredential scripted.healthy
                     scripted.target)) =
    [ post_execcredential scripted.target;
      get_details scripted.target;
      fetch_userinfo scripted.target ].
Proof. vm_compute. reflexivity. Qed.

Example not_logged_in :
  let w := scripted.world
             [ ("POST", scripted.k8s_path, scripted.ok scripted.cluster_body);
               ("GET", scripted.details_path,
                scripted.ok (scripted.details_body "tiny-squids-ns")) ]
             (inr scripted.no_session) scripted.no_authorization in
  outcome_of (GetKubeConfigWithExecCredential w scripted.target) =
    Returned
      (None,
       Some (wrapError "Failed to fetch userinfo: not logged in"
               (foreign scripted.no_session))).
Proof. vm_compute. reflexivity. Qed.

Example empty_access_key :
  let w := scripted.world
             [("POST", scripted.aws_path, scripted.ok scripted.no_key_body)]
             scripted.userinfo scripted.no_authorization in
  outcome_of (GetAWSCredentials w scripted.target) =
    Returned (None, Some (errorString "AWS credentials missing AccessKeyId")).
Proof. vm_compute. reflexivity. Qed.

Example null_body_panics :
  let w := scripted.world
             [("POST", scripted.aws_path, scripted.ok "null")]
             scripted.userinfo scripted.no_authorization in
  outcome_of (GetAWSCredentials w scripted.target) = Panicked nil_dereference.
Proof. vm_compute. reflexivity. Qed.

Example registry_unreachable :
  let w := scripted.world
             [("POST", scripted.aws_path, scripted.ok scripted.credentials_body)]
             scripted.userinfo (inr scripted.access_denied) in
  outcome_of (GetDockerCredentials w scripted.target
                (scripted.details "tiny-squids-ns")) =
    Returned (None, Some (foreign scripted.access_denied)).
Proof. vm_compute. reflexivity. Qed.

Example base64_of_a_token :
  base64.EncodeToString "abc:de:f" = "YWJjOmRlOmY=" /\
  base64.DecodeString "YWJjOmRlOmY=" = inl "abc:de:f" /\
  base64.DecodeString "YQ==" = inl "a" /\
  base64.DecodeString "YWI=" = inl "ab".
Proof. repeat split. Qed.

Example split_of_tokens :
  strings.SplitN "abc:de:f" ":" 2 = ["abc"; "de:f"] /\
  strings.SplitN "abcdef" ":" 2 = ["abcdef"] /\
  strings.SplitN "" ":" 2 = [""] /\
  strings.SplitN ":" ":" 2 = [""; ""].
Proof. repeat split. Qed.

End Runs.

(* ===================================================================== *)
(** ** More on the broker: what every run does *)
(* ===================================================================== *)

Lemma only_errors_logged_calls (log : list event) :
  only_errors_logged log -> calls log = [].
Proof.
  induction log as [|e log IH]; intros Hlog.
  - reflexivity.
  - destruct (Hlog e (or_introl eq_refl)) as (msg & ->). simpl.
    apply IH. intros e' Hin. apply Hlog. now right.
Qed.

Lemma calls_app (a b : list event) :
  calls (a ++ b) = (calls a ++ calls b)%list.
Proof. apply filter_app. Qed.

(** X1: a GET or POST through [httpRequest] always returns, after exactly
    one call, and never with both a value and an error.  It returns neither
    only when a structured body, served with a status in [200,300), is the
    JSON literal null. *)
Theorem httpRequest_value_or_error :
  forall (w : World) (T : Type) (R : Response T) (client : resty.Client)
         (method path : string) (body : option string),
    In method [MethodGet; MethodPost] ->
    exists (r : result T) log,
      httpRequest w client method path body =
        (Returned r, HttpCall client method path (sent method body) :: log) /\
      calls log = [] /\
      (fst r = None \/ snd r = None) /\
      (fst r = None -> snd r = None ->
         exists J response,
           R = Structured J /\
           resty_Execute w client method path (sent method body)
             = inl response /\
           status_ok (resty.StatusCode response) = true /\
           json_null (resty.Body response) = true).
Proof.
  exact httpRequest_shape.
Qed.

Lemma httpRequest_value_or_error_witness :
  exists (r : result string) log,
    httpRequest scripted.healthy (Resty scripted.target) MethodGet
        scripted.details_path None =
      (Returned r,
       HttpCall (Resty scripted.target) MethodGet scripted.details_path None
         :: log) /\
    calls log = [] /\
    (fst r = None \/ snd r = None).
Proof.
  destruct (httpRequest_value_or_error scripted.healthy string
              Response_string (Resty scripted.target) MethodGet
              scripted.details_path None (or_introl eq_refl))
    as (r & log & Hrun & Hcalls & Hone & _).
  exists r, log. auto.
Defined.

(** X2: the two plain-text operations return what [String()] of the
    response gives, for any response with a status in [200,300): the body
    with the white space at its two ends trimmed by [strings.TrimSpace]
    (the empty string for an empty body).  The body is never parsed, so no
    body can make them fail.  Each makes one POST, to
    /v0/credentials/{humanId}/k8s and to the same path with
    ?type=execcredential. *)
Theorem plain_text_operations_return_the_trimmed_body :
  forall (w : World) (target : TargetEnvironment),
    (forall response,
       resty_Execute w (Resty target) MethodPost
         ("/v0/credentials/" ++ HumanId target ++ "/k8s") None
         = inl response ->
       status_ok (resty.StatusCode response) = true ->
       GetKubeConfigWithEmbeddedCredentials w target =
         (Returned
            (Some (if string_empty (resty.Body response) then ""
                   else strings_TrimSpace w (resty.Body response)), None),
          [Log DebugLevel "Fetching kubeconfig with embedded secret";
           HttpCall (Resty target) MethodPost
             ("/v0/credentials/" ++ HumanId target ++ "/k8s") None])) /\
    (forall response,
       resty_Execute w (Resty target) MethodPost
         (execcredential_path target) None = inl response ->
       status_ok (resty.StatusCode response) = true ->
       GetKubeExecCredential w target =
         (Returned
            (Some (if string_empty (resty.Body response) then ""
                   else strings_TrimSpace w (resty.Body response)), None),
          [post_execcredential target])).
Proof.
  assert (Htext : forall w response,
            resty_String w response =
              if string_empty (resty.Body response) then ""
              else strings_TrimSpace w (resty.Body response)).
  { intros w response. unfold resty_String.
    now destruct (resty.Body response). }
  intros w target. split; intros response Hexec Hstatus.
  - unfold GetKubeConfigWithEmbeddedCredentials. cbv zeta.
    remember ("/v0/credentials/" ++ HumanId target ++ "/k8s") as path.
    unfold httpPostRequest, httpRequest, resty_call. simpl.
    rewrite Hexec. simpl. rewrite status_failed_negb, Hstatus.
    now rewrite <- Htext.
  - unfold GetKubeExecCredential, post_execcredential. cbv zeta.
    fold (execcredential_path target).
    remember (execcredential_path target) as path.
    unfold httpPostRequest, httpRequest, resty_call. simpl.
    rewrite Hexec. simpl. rewrite status_failed_negb, Hstatus.
    now rewrite <- Htext.
Qed.

Lemma plain_text_operations_return_the_trimmed_body_witness :
  outcome_of
    (GetKubeConfigWithEmbeddedCredentials samples.padded_kubeconfig
       scripted.target)
    = Returned (Some "not: [json", None).
Proof.
  destruct (plain_text_operations_return_the_trimmed_body
              samples.padded_kubeconfig scripted.target) as (H & _).
  rewrite (H {| resty.StatusCode := 200;
                resty.Body := samples.padded "not: [json" |}).
  - reflexivity.
  - reflexivity.
  - reflexivity.
Defined.

(** X3: [GetAWSCredentials] returns credentials exactly when the StackAPI
    served them and both keys are non-empty (the session token and the
    expiration are not looked at), and then returns them unchanged.  When it
    returns an error, the error is one of its own two, never the error of
    the request. *)
Theorem GetAWSCredentials_returns_exactly :
  forall (w : World) (J : JSON AWSCredentials) (target : TargetEnvironment),
    (forall c,
       (exists t, GetAWSCredentials w target = (Returned (Some c, None), t))
       <->
       (serves w (Resty target) MethodPost (aws_path target) None (Some c) /\
        AccessKeyId c <> "" /\ SecretAccessKey c <> "")) /\
    (forall p e t,
       GetAWSCredentials w target = (Returned (p, Some e), t) ->
       p = None /\
       (e = IncompleteCredentialError_AccessKeyId \/
        e = IncompleteCredentialError_SecretAccessKey)).
Proof.
  intros w J target. split.
  - intros c. split.
    + intros (t & Hrun).
      destruct (GetAWSCredentials_returns w target _ _ Hrun)
        as [(c' & Hr & Hserves & Hkey & Hsecret)|[Hr|Hr]];
        try discriminate Hr.
      injection Hr as <-. auto.
    + intros (Hserves & Hkey & Hsecret). eexists.
      exact (GetAWSCredentials_complete w target c Hserves Hkey Hsecret).
  - intros p e t Hrun.
    destruct (GetAWSCredentials_returns w target _ _ Hrun)
      as [(c' & Hr & _)|[Hr|Hr]]; try discriminate Hr;
      injection Hr as -> ->; auto.
Qed.

Lemma GetAWSCredentials_returns_exactly_witness :
  let J := scripted.JSON_AWSCredentials in
  exists t,
    GetAWSCredentials scripted.healthy scripted.target =
      (Returned (Some scripted.credentials, None), t).
Proof.
  cbv zeta.
  destruct (GetAWSCredentials_returns_exactly scripted.healthy
              scripted.JSON_AWSCredentials scripted.target) as (H & _).
  apply H. split.
  - eexists. repeat split; vm_compute; reflexivity.
  - split; vm_compute; discriminate.
Defined.

Lemma SplitN_two_inv (s u p : string) :
  strings.SplitN s ":" 2 = [u; p] -> s = u ++ ":" ++ p /\ colon_free u.
Proof.
  intros Hsplit.
  destruct (first_colon s) as [Hfree|(u' & p' & -> & Hfree)].
  - rewrite (SplitN_colon_free s Hfree) in Hsplit. discriminate Hsplit.
  - rewrite (SplitN_first_colon u' p' Hfree) in Hsplit.
    injection Hsplit as <- <-. auto.
Qed.

Section DockerRuns.

Variable w : World.
Context {J : JSON AWSCredentials}.
Variable target : TargetEnvironment.
Variable envDetails : EnvironmentDetails.

Let run : M (result DockerCredentials) :=
  GetDockerCredentials w target envDetails.

Lemma docker_run_incomplete c :
  serves w (Resty target) MethodPost (aws_path target) None (Some c) ->
  AccessKeyId c = "" \/ SecretAccessKey c = "" ->
  exists e,
    (e = IncompleteCredentialError_AccessKeyId \/
     e = IncompleteCredentialError_SecretAccessKey) /\
    run = (Returned
             (None,
              Some (errorString ("failed to get AWS credentials: " ++ Error e))),
           [Log DebugLevel "Get AWS credentials"; post_aws target]).
Proof.
  intros Hserves Hempty. unfold run, GetDockerCredentials.
  rewrite (GetAWSCredentials_served w target c Hserves).
  destruct (string_empty (AccessKeyId c)) eqn:Hkey.
  - exists IncompleteCredentialError_AccessKeyId. split; [now left|].
    reflexivity.
  - destruct (string_empty (SecretAccessKey c)) eqn:Hsecret.
    + exists IncompleteCredentialError_SecretAccessKey. split; [now right|].
      reflexivity.
    + apply string_empty_false in Hkey, Hsecret. tauto.
Qed.

Section Complete.

Variable c : AWSCredentials.
Hypothesis Hserves :
  serves w (Resty target) MethodPost (aws_path target) None (Some c).
Hypothesis Hkey : AccessKeyId c <> "".
Hypothesis Hsecret : SecretAccessKey c <> "".

Ltac to_config :=
  unfold run, GetDockerCredentials;
  rewrite (GetAWSCredentials_complete w target c Hserves Hkey Hsecret);
  cbn [bind emit ret deref app]; fold (aws_config envDetails c).

Lemma docker_run_config_fails e :
  config_LoadDefaultConfig w (aws_config envDetails c) = Some e ->
  outcome_of run = Returned (None, Some (foreign e)) /\
  calls (trace_of run) = firstn 2 (docker_calls target envDetails c).
Proof.
  intros Hconfig. to_config. rewrite Hconfig. split; reflexivity.
Qed.

Lemma docker_run_registry_fails e :
  config_LoadDefaultConfig w (aws_config envDetails c) = None ->
  ecr_GetAuthorizationToken w (aws_config envDetails c) = inr e ->
  outcome_of run = Returned (None, Some (foreign e)) /\
  calls (trace_of run) = docker_calls target envDetails c.
Proof.
  intros Hconfig Hecr. to_config. rewrite Hconfig.
  cbn [bind emit ret deref app]. rewrite Hecr. split; reflexivity.
Qed.

Lemma docker_run_registry_answers out :
  config_LoadDefaultConfig w (aws_config envDetails c) = None ->
  ecr_GetAuthorizationToken w (aws_config envDetails c) = inl out ->
  calls (trace_of run) = docker_calls target envDetails c.
Proof.
  intros Hconfig Hecr. to_config. rewrite Hconfig.
  cbn [bind emit ret deref app]. rewrite Hecr.
  destruct (ecr.AuthorizationData_ out) as [|[[token|] [endpoint|]] rest];
    try reflexivity.
  cbn [bind emit ret deref app].
  destruct (base64_DecodeString w token) as [authorization|e];
    [|reflexivity].
  destruct (strings.SplitN authorization ":" 2) as [|a [|b [|x l]]];
    reflexivity.
Qed.

End Complete.

Lemma docker_run_credentials_inv d e :
  outcome_of run = Returned (Some d, e) ->
  e = None /\
  colon_free (Username d) /\
  exists out authorization64 rest authorization,
    registry_answers w target envDetails out /\
    ecr.AuthorizationData_ out =
      {| ecr.AuthorizationToken := Some authorization64;
         ecr.ProxyEndpoint := Some (RegistryURL d) |} :: rest /\
    base64_DecodeString w authorization64 = inl authorization /\
    authorization = Username d ++ ":" ++ Password d.
Proof.
  unfold run, GetDockerCredentials.
  destruct (GetAWSCredentials w target) as [[r|v] t] eqn:Haws;
    cbn [bind emit ret deref app outcome_of fst]; [|discriminate].
  destruct (GetAWSCredentials_returns w target r t Haws)
    as [(c & -> & Hserves & Hkey & Hsecret)|[-> | ->]].
  2, 3: cbn; discriminate.
  cbn [bind emit ret deref app outcome_of fst].
  fold (aws_config envDetails c).
  destruct (config_LoadDefaultConfig w (aws_config envDetails c)) as [e'|]
    eqn:Hconfig; cbn [bind emit ret deref app outcome_of fst];
    [discriminate|].
  destruct (ecr_GetAuthorizationToken w (aws_config envDetails c))
    as [out|e'] eqn:Hecr; cbn [bind emit ret deref app outcome_of fst];
    [|discriminate].
  destruct (ecr.AuthorizationData_ out) as [|[[token|] [endpoint|]] rest]
    eqn:Hdata; cbn [bind emit ret deref app outcome_of fst].
  1, 3, 4, 5: discriminate.
  destruct (base64_DecodeString w token) as [authorization|e'] eqn:Hdecode;
    cbn [bind emit ret deref app outcome_of fst]; [|discriminate].
  destruct (strings.SplitN authorization ":" 2) as [|a [|b [|x l]]]
    eqn:Hsplit; cbn [bind emit ret deref app outcome_of fst];
    try discriminate.
  intros [= <- <-]. cbn [Username Password RegistryURL].
  destruct (SplitN_two_inv _ _ _ Hsplit) as [Hjoin Hfree].
  split; [reflexivity|]. split; [exact Hfree|].
  exists out, token, rest, authorization.
  split; [exists c; auto|]. auto.
Qed.

End DockerRuns.

(** X4: [GetDockerCredentials] asks in the order POST for the AWS
    credentials, LoadDefaultConfig, GetAuthorizationToken, the last two with
    the region of the deployment and the credentials as served, and stops at
    the first failure.  Incomplete credentials give an error whose message
    quotes the cause but does not wrap it (Unwrap gives nothing), and no
    AWS call is made; a failed LoadDefaultConfig or GetAuthorizationToken
    is returned unchanged. *)
Theorem GetDockerCredentials_order :
  forall (w : World) (J : JSON AWSCredentials) (target : TargetEnvironment)
         (envDetails : EnvironmentDetails) (c : AWSCredentials),
    serves w (Resty target) MethodPost (aws_path target) None (Some c) ->
    let run := GetDockerCredentials w target envDetails in
    (AccessKeyId c = "" \/ SecretAccessKey c = "" ->
       exists cause,
         (cause = IncompleteCredentialError_AccessKeyId \/
          cause = IncompleteCredentialError_SecretAccessKey) /\
         outcome_of run
           = Returned
               (None,
                Some (errorString
                        ("failed to get AWS credentials: " ++ Error cause))) /\
         Unwrap (errorString
                   ("failed to get AWS credentials: " ++ Error cause)) = None /\
         calls (trace_of run) = firstn 1 (docker_calls target envDetails c)) /\
    (AccessKeyId c <> "" -> SecretAccessKey c <> "" ->
       (forall e,
          config_LoadDefaultConfig w (aws_config envDetails c) = Some e ->
          outcome_of run = Returned (None, Some (foreign e)) /\
          calls (trace_of run) = firstn 2 (docker_calls target envDetails c)) /\
       (config_LoadDefaultConfig w (aws_config envDetails c) = None ->
          (forall e,
             ecr_GetAuthorizationToken w (aws_config envDetails c) = inr e ->
             outcome_of run = Returned (None, Some (foreign e)) /\
             calls (trace_of run) = docker_calls target envDetails c) /\
          (forall out,
             ecr_GetAuthorizationToken w (aws_config envDetails c) = inl out ->
             calls (trace_of run) = docker_calls target envDetails c))).
Proof.
  intros w J target envDetails c Hserves. cbv zeta. split.
  - intros Hempty.
    destruct (docker_run_incomplete w target envDetails c Hserves Hempty)
      as (cause & Hcause & Hrun).
    exists cause. rewrite Hrun. repeat split; auto.
  - intros Hkey Hsecret. split.
    + intros e.
      apply (docker_run_config_fails w target envDetails c Hserves Hkey Hsecret).
    + intros Hconfig. split.
      * intros e.
        apply (docker_run_registry_fails w target envDetails c Hserves Hkey
                 Hsecret e Hconfig).
      * intros out.
        apply (docker_run_registry_answers w target envDetails c Hserves Hkey
                 Hsecret out Hconfig).
Qed.

Lemma GetDockerCredentials_order_witness :
  let J := scripted.JSON_AWSCredentials in
  let w := scripted.world
             [("POST", scripted.aws_path, scripted.ok scripted.credentials_body)]
             scripted.userinfo (inr scripted.access_denied) in
  outcome_of (GetDockerCredentials w scripted.target
                (scripted.details "tiny-squids-ns"))
    = Returned (None, Some (foreign scripted.access_denied)) /\
  calls (trace_of (GetDockerCredentials w scripted.target
                     (scripted.details "tiny-squids-ns")))
    = docker_calls scripted.target (scripted.details "tiny-squids-ns")
        scripted.credentials.
Proof.
  cbv zeta.
  pose proof (GetDockerCredentials_order
                (scripted.world
                   [("POST", scripted.aws_path,
                     scripted.ok scripted.credentials_body)]
                   scripted.userinfo (inr scripted.access_denied))
                scripted.JSON_AWSCredentials scripted.target
                (scripted.details "tiny-squids-ns") scripted.credentials) as H.
  cbv zeta in H. destruct H as (_ & H).
  - eexists. repeat split; vm_compute; reflexivity.
  - destruct H as (_ & H).
    + vm_compute. discriminate.
    + vm_compute. discriminate.
    + destruct H as (H & _); [reflexivity|].
      apply H. reflexivity.
Defined.

(** X5: whenever [GetDockerCredentials] returns credentials, it returns no
    error, the username holds no colon, username, colon and password put
    together are the decoded token of the first element of the registry's
    answer, and the registry URL is the proxy endpoint of that element; the
    further elements are not looked at. *)
Theorem GetDockerCredentials_returned_credentials :
  forall (w : World) (J : JSON AWSCredentials) (target : TargetEnvironment)
         (envDetails : EnvironmentDetails) (d : DockerCredentials)
         (e : option error),
    outcome_of (GetDockerCredentials w target envDetails)
      = Returned (Some d, e) ->
    e = None /\
    colon_free (Username d) /\
    exists out authorization64 rest authorization,
      registry_answers w target envDetails out /\
      ecr.AuthorizationData_ out =
        {| ecr.AuthorizationToken := Some authorization64;
           ecr.ProxyEndpoint := Some (RegistryURL d) |} :: rest /\
      base64_DecodeString w authorization64 = inl authorization /\
      authorization = Username d ++ ":" ++ Password d.
Proof.
  intros w J target envDetails d e.
  apply docker_run_credentials_inv.
Qed.

Lemma GetDockerCredentials_returned_credentials_witness :
  let J := scripted.JSON_AWSCredentials in
  exists authorization,
    base64_DecodeString scripted.healthy "QVdTOnBhc3M=" = inl authorization /\
    authorization = "AWS" ++ ":" ++ "pass".
Proof.
  cbv zeta.
  destruct (GetDockerCredentials_returned_credentials scripted.healthy
              scripted.JSON_AWSCredentials scripted.target
              (scripted.details "tiny-squids-ns")
              {| Username := "AWS"; Password := "pass";
                 RegistryURL := scripted.registry |} None)
    as (_ & _ & out & token & rest & authorization & Hanswer & Hdata
        & Hdecode & Hjoin).
  - vm_compute. reflexivity.
  - exists authorization. split; [|exact Hjoin].
    destruct Hanswer as (c & _ & _ & _ & _ & Hecr).
    vm_compute in Hecr. injection Hecr as <-.
    vm_compute in Hdata. injection Hdata as <- _.
    exact Hdecode.
Defined.

(** X6: the kubeconfig that is returned names apiVersion v1 and kind
    Config, has no preferences, gives its cluster the server URL of the
    payload and the CA data of the payload encoded as base64, and pins its
    context to the namespace the deployment details reported. *)
Theorem kubeconfig_cluster_and_namespace :
  forall (w : World) (JE : JSON KubeExecCredential)
         (JD : JSON EnvironmentDetails) (Y : YAML)
         (target : TargetEnvironment)
         (credentials : KubeExecCredential)
         (cluster : clientauthentication.Cluster)
         (environment : EnvironmentDetails)
         (userinfo : auth.UserInfoResponse),
    serves w (Resty target) MethodPost (execcredential_path target) None
      (Some credentials) ->
    clientauthentication.Cluster_ (Spec credentials) = Some cluster ->
    nonempty_cluster cluster ->
    serves w (Resty target) MethodGet (deployment_path target) None
      (Some environment) ->
    KubernetesNamespace (Deployment environment) <> "" ->
    auth_FetchUserInfo w (TokenSet target) = inl userinfo ->
    exists doc cl cx,
      outcome_of (GetKubeConfigWithExecCredential w target)
        = Returned (Some (yaml_Marshal doc), None) /\
      yaml_Unmarshal (yaml_Marshal doc) = Some doc /\
      ApiVersion doc = "v1" /\ Kind doc = "Config" /\ Preferences doc = [] /\
      Clusters doc = [cl] /\
      Server (cluster_Cluster cl) = clientauthentication.Server cluster /\
      CertificateAuthorityData (cluster_Cluster cl)
        = base64_EncodeToString w
            (clientauthentication.CertificateAuthorityData cluster) /\
      Contexts doc = [cx] /\
      context_namespace (context_Context cx)
        = KubernetesNamespace (Deployment environment).
Proof.
  intros w JE JD Y target credentials cluster environment userinfo
         Hpost Hcluster Hnonempty Hget Hns Hauth.
  rewrite (run_assembles w target _ _ Hpost Hcluster Hnonempty _ Hget
             userinfo Hns Hauth).
  eexists. eexists. eexists.
  split; [reflexivity|].
  split; [apply yaml_Unmarshal_Marshal|].
  repeat split.
Qed.

Lemma kubeconfig_cluster_and_namespace_witness :
  let JE := scripted.JSON_KubeExecCredential in
  let JD := scripted.JSON_EnvironmentDetails in
  exists doc cl cx,
    outcome_of (GetKubeConfigWithExecCredential scripted.healthy scripted.target)
      = Returned (Some (yaml_Marshal doc), None) /\
    yaml_Unmarshal (yaml_Marshal doc) = Some doc /\
    ApiVersion doc = "v1" /\ Kind doc = "Config" /\ Preferences doc = [] /\
    Clusters doc = [cl] /\
    Server (cluster_Cluster cl) = "https://k8s.example" /\
    CertificateAuthorityData (cluster_Cluster cl) = "Q0E=" /\
    Contexts doc = [cx] /\
    context_namespace (context_Context cx) = "tiny-squids-ns".
Proof.
  cbv zeta.
  apply (kubeconfig_cluster_and_namespace scripted.healthy
           scripted.JSON_KubeExecCredential scripted.JSON_EnvironmentDetails
           wire_YAML scripted.target
           (scripted.exec_credential (Some scripted.cluster))
           scripted.cluster (scripted.details "tiny-squids-ns")
           scripted.developer).
  - eexists. repeat split; vm_compute; reflexivity.
  - reflexivity.
  - left. vm_compute. discriminate.
  - eexists. repeat split; vm_compute; reflexivity.
  - vm_compute. discriminate.
  - reflexivity.
Defined.

Lemma httpRequest_calls {T} {R : Response T} (w : World)
    (client : resty.Client) (method path : string) :
  In method [MethodGet; MethodPost] ->
  exists (r : result T) log,
    httpRequest w client method path None =
      (Returned r, HttpCall client method path None :: log) /\
    calls log = [] /\ (fst r = None \/ snd r = None).
Proof.
  intros Hmethod.
  destruct (httpRequest_shape w T R client method path None Hmethod)
    as (r & log & Hrun & Hcalls & Hone & _).
  exists r, log. split; [|auto].
  rewrite Hrun. unfold sent. now destruct (String.eqb method MethodGet).
Qed.

(** X7: in every run of [GetKubeConfigWithExecCredential], whatever the
    outside answers and also when the run panics, the calls made are the
    first one, two or three of: POST for the exec credential, GET for the
    deployment details, identity lookup.  When the run returns, it returns
    either a kubeconfig and no error, after all three calls, or an error and
    no kubeconfig. *)
Theorem GetKubeConfigWithExecCredential_calls :
  forall (w : World) (JE : JSON KubeExecCredential)
         (JD : JSON EnvironmentDetails) (Y : YAML)
         (target : TargetEnvironment),
    let run := GetKubeConfigWithExecCredential w target in
    exists k,
      1 <= k <= 3 /\
      calls (trace_of run) = firstn k (kubeconfig_calls target) /\
      (forall r,
         outcome_of run = Returned r ->
         (exists dump, r = (Some dump, None) /\ k = 3) \/
         (exists e, r = (None, Some e))).
Proof.
  intros w JE JD Y target. cbv zeta.
  unfold GetKubeConfigWithExecCredential, GetDetails, httpPostRequest,
    httpGetRequest. cbv zeta.
  fold (execcredential_path target). fold (deployment_path target).
  destruct (httpRequest_calls (T := KubeExecCredential) w (Resty target)
              MethodPost (execcredential_path target))
    as ([p e] & log1 & -> & Hlog1 & Hone1); [right; now left|].
  cbn [bind emit ret deref app outcome_of trace_of fst snd].
  destruct e as [e|].
  { exists 1. cbn. rewrite calls_app, Hlog1. repeat split; try lia.
    intros r [= <-]. right. eauto. }
  destruct p as [credentials|].
  2: { exists 1. cbn. rewrite calls_app, Hlog1. repeat split; try lia.
       discriminate. }
  cbn [bind emit ret deref app outcome_of trace_of fst snd].
  destruct (clientauthentication.Cluster_ (Spec credentials)) as [cluster|].
  2: { exists 1. cbn. rewrite !calls_app, Hlog1. repeat split; try lia.
       discriminate. }
  cbn [bind emit ret deref app outcome_of trace_of fst snd].
  destruct (string_empty (clientauthentication.CertificateAuthorityData cluster)
            && string_empty (clientauthentication.Server cluster)).
  { exists 1. cbn. rewrite !calls_app, Hlog1. repeat split; try lia.
    intros r [= <-]. right. eauto. }
  destruct (httpRequest_calls (T := EnvironmentDetails) w (Resty target)
              MethodGet (deployment_path target))
    as ([p e] & log2 & -> & Hlog2 & Hone2); [now left|].
  cbn [bind emit ret deref app outcome_of trace_of fst snd].
  destruct e as [e|].
  { exists 2. cbn. rewrite !calls_app, Hlog1. cbn. rewrite !calls_app, Hlog2.
    repeat split; try lia. intros r [= <-]. right. eauto. }
  destruct p as [environment|].
  2: { exists 2. cbn. rewrite !calls_app, Hlog1. cbn.
       rewrite !calls_app, Hlog2. repeat split; try lia. discriminate. }
  cbn [bind emit ret deref app outcome_of trace_of fst snd].
  destruct (string_empty (KubernetesNamespace (Deployment environment))).
  { exists 2. cbn. rewrite !calls_app, Hlog1. cbn. rewrite !calls_app, Hlog2.
    repeat split; try lia. intros r [= <-]. right. eauto. }
  cbn [bind emit ret deref app outcome_of trace_of fst snd].
  destruct (auth_FetchUserInfo w (TokenSet target)) as [userinfo|cause].
  - exists 3. cbn. rewrite !calls_app, Hlog1. cbn. rewrite !calls_app, Hlog2.
    repeat split; try lia. intros r [= <-]. left. eauto.
  - exists 3. cbn. rewrite !calls_app, Hlog1. cbn. rewrite !calls_app, Hlog2.
    repeat split; try lia. intros r [= <-]. right. eauto.
Qed.

(* ===================================================================== *)
(** ** More on package metahttp *)
(* ===================================================================== *)

Lemma append_assoc (a b c : string) : (a ++ b) ++ c = a ++ b ++ c.
Proof. induction a as [|x a IH]; simpl; [reflexivity|now rewrite IH]. Qed.

Lemma prefix_append (a b : string) : String.prefix a (a ++ b) = true.
Proof.
  induction a as [|x a IH]; simpl.
  - now destruct b.
  - destruct (ascii_dec x x); [exact IH|congruence].
Qed.

(** The error [metahttp.Request] builds for a failed request: the message
    names the base URL and the path. *)
Lemma Request_fails {T} {R : Response T} (w : World) (c : metahttp.Client)
    (method url : string) (body : option string) :
  In method [MethodGet; MethodPost; MethodPut] ->
  metahttp.Request w c method url body =
    match resty_Execute w (metahttp.Resty c) method url (sent method body) with
    | inr err =>
        (Returned
           (zero_value R,
            Some (wrapError
                    (method ++ " request to " ++ metahttp.BaseURL c ++ url ++
                     " failed: " ++ fe_text err) (foreign err))),
         [HttpCall (metahttp.Resty c) method url (sent method body)])
    | inl response =>
        if status_ok (resty.StatusCode response) then
          metahttp.Request w c method url body
        else
          (Returned
             (zero_value R,
              Some (errorString
                      (method ++ " request to " ++ metahttp.BaseURL c ++ url ++
                       " failed with status code " ++
                       itoa (resty.StatusCode response)))),
           [HttpCall (metahttp.Resty c) method url (sent method body)])
    end.
Proof.
  intros [<-|[<-|[<-|[]]]]; unfold sent; simpl;
    match goal with
    | |- context [resty_Execute w (metahttp.Resty c) ?m url ?b] =>
        destruct (resty_Execute w (metahttp.Resty c) m url b)
          as [response|err] eqn:Hexec
    end;
    try (unfold metahttp.Request, resty_call; simpl; rewrite Hexec;
         reflexivity);
    destruct (status_ok (resty.StatusCode response)) eqn:Hstatus;
    try reflexivity;
    unfold metahttp.Request, resty_call; simpl; rewrite Hexec; simpl;
    rewrite status_failed_negb, Hstatus; reflexivity.
Qed.

Lemma Request_failure :
  forall (w : World) (T : Type) (R : Response T) (c : metahttp.Client)
         (method url : string) (body : option string),
    In method [MethodGet; MethodPost; MethodPut] ->
    fails w (metahttp.Resty c) method url (sent method body) ->
    exists e,
      metahttp.Request w c method url body =
        (Returned (zero_value R, Some e),
         [HttpCall (metahttp.Resty c) method url (sent method body)]) /\
      String.prefix (method ++ " request to " ++ metahttp.BaseURL c ++ url ++
                     " failed") (Error e) = true /\
      (forall err,
         resty_Execute w (metahttp.Resty c) method url (sent method body)
           = inr err ->
         Unwrap e = Some (foreign err)) /\
      (forall response,
         resty_Execute w (metahttp.Resty c) method url (sent method body)
           = inl response ->
         Unwrap e = None /\
         e = errorString
               (method ++ " request to " ++ metahttp.BaseURL c ++ url ++
                " failed with status code " ++
                itoa (resty.StatusCode response))).
Proof.
  intros w T R c method url body Hmethod Hfails.
  rewrite (Request_fails w c method url body Hmethod).
  unfold fails in Hfails.
  destruct (resty_Execute w (metahttp.Resty c) method url (sent method body))
    as [response|err].
  - rewrite Hfails. eexists. split; [reflexivity|]. split.
    + cbn [Error].
      replace (method ++ " request to " ++ metahttp.BaseURL c ++ url ++
               " failed with status code " ++
               itoa (resty.StatusCode response))
        with ((method ++ " request to " ++ metahttp.BaseURL c ++ url ++
               " failed") ++
              " with status code " ++ itoa (resty.StatusCode response)).
      * apply prefix_append.
      * now rewrite !append_assoc.
    + split; [discriminate|]. intros r [= <-]. split; reflexivity.
  - eexists. split; [reflexivity|]. split.
    + cbn [Error].
      replace (method ++ " request to " ++ metahttp.BaseURL c ++ url ++
               " failed: " ++ fe_text err)
        with ((method ++ " request to " ++ metahttp.BaseURL c ++ url ++
               " failed") ++ ": " ++ fe_text err).
      * apply prefix_append.
      * now rewrite !append_assoc.
    + split; [|discriminate]. intros e [= <-]. reflexivity.
Qed.

(** X8: when a request fails before any decoding (transport error, or a
    status outside [200,300)), [metahttp.Request] returns the zero value of
    the result type with the error, after the one call.  A transport error
    is wrapped, so that Unwrap gives the cause back; a status error has no
    cause.  Both messages start with the method and name base URL and
    path. *)
Theorem Request_failure_returns_the_zero_value :
  forall (w : World) (T : Type) (R : Response T) (c : metahttp.Client)
         (method url : string) (body : option string),
    In method [MethodGet; MethodPost; MethodPut] ->
    fails w (metahttp.Resty c) method url (sent method body) ->
    exists e,
      metahttp.Request w c method url body =
        (Returned (zero_value R, Some e),
         [HttpCall (metahttp.Resty c) method url (sent method body)]) /\
      String.prefix (method ++ " request to " ++ metahttp.BaseURL c ++ url ++
                     " failed") (Error e) = true /\
      (forall err,
         resty_Execute w (metahttp.Resty c) method url (sent method body)
           = inr err ->
         Unwrap e = Some (foreign err)) /\
      (forall response,
         resty_Execute w (metahttp.Resty c) method url (sent method body)
           = inl response ->
         Unwrap e = None /\
         e = errorString
               (method ++ " request to " ++ metahttp.BaseURL c ++ url ++
                " failed with status code " ++
                itoa (resty.StatusCode response))).
Proof.
  exact Request_failure.
Qed.

Lemma Request_failure_returns_the_zero_value_witness :
  exists e,
    metahttp.Request (T := string) scripted.healthy
      (metahttp.NewClient (TokenSet scripted.target)
         (StackApiBaseURL scripted.target))
      MethodGet "/v0/missing" None =
      (Returned ("", Some e),
       [HttpCall (Resty scripted.target) MethodGet "/v0/missing" None]) /\
    Unwrap e = Some (foreign scripted.connection_refused).
Proof.
  destruct (Request_failure_returns_the_zero_value scripted.healthy string
              Response_string
              (metahttp.NewClient (TokenSet scripted.target)
                 (StackApiBaseURL scripted.target))
              MethodGet "/v0/missing" None)
    as (e & Hrun & _ & Hwrap & _).
  - now left.
  - exact I.
  - exists e. split; [exact Hrun|]. apply Hwrap. reflexivity.
Defined.

(** X9: [Download] does not look at the status.  A response with a status
    outside [200,300), for which [metahttp.Get] returns an error, is
    returned by [Download] as it is, with no error.  [Download] fails only
    when the transport does, and then wraps the cause in a message that
    names the base URL followed by the file path. *)
Theorem Download_does_not_check_the_status :
  forall (w : World) (T : Type) (R : Response T)
         (output : resty.Client -> string -> string ->
                   resty.Response + foreign_error)
         (c : metahttp.Client) (url filePath : string),
    (forall response,
       status_ok (resty.StatusCode response) = false ->
       (resty_Execute w (metahttp.Resty c) MethodGet url None = inl response ->
        exists e,
          outcome_of (metahttp.Get (T := T) w c url)
            = Returned (zero_value R, Some e)) /\
       (output (metahttp.Resty c) filePath url = inl response ->
        Download output c url filePath = (Some response, None))) /\
    (forall err,
       output (metahttp.Resty c) filePath url = inr err ->
       exists e,
         Download output c url filePath = (None, Some e) /\
         Unwrap e = Some (foreign err) /\
         Error e = "Failed to download file from " ++ metahttp.BaseURL c ++
                   filePath ++ ": " ++ fe_text err).
Proof.
  intros w T R output c url filePath. split.
  - intros response Hstatus. split.
    + intros Hexec.
      destruct (Request_failure w T R c MethodGet url
                  None (or_introl eq_refl)) as (e & Hrun & _).
      * unfold fails. change (sent MethodGet None) with (@None string).
        rewrite Hexec. exact Hstatus.
      * exists e. unfold metahttp.Get. now rewrite Hrun.
    + intros Hout. unfold Download. now rewrite Hout.
  - intros err Hout. unfold Download. rewrite Hout.
    eexists. repeat split.
Qed.

Lemma Download_does_not_check_the_status_witness :
  let not_found : resty.Response :=
    {| resty.StatusCode := 404; resty.Body := "" |} in
  Download (fun _ _ _ => inl not_found)
    (metahttp.NewClient (TokenSet scripted.target)
       (StackApiBaseURL scripted.target))
    "/v0/artifact" "artifact.zip" = (Some not_found, None).
Proof.
  cbv zeta.
  destruct (Download_does_not_check_the_status scripted.healthy string
              Response_string
              (fun _ _ _ =>
                 inl {| resty.StatusCode := 404; resty.Body := "" |})
              (metahttp.NewClient (TokenSet scripted.target)
                 (StackApiBaseURL scripted.target))
              "/v0/artifact" "artifact.zip") as (H & _).
  destruct (H {| resty.StatusCode := 404; resty.Body := "" |})
    as (_ & Hdownload).
  - reflexivity.
  - apply Hdownload. reflexivity.
Defined.

(* ===================================================================== *)
(** ** cmd: build docker-image, the helpers *)
(* ===================================================================== *)

Lemma detectEnvVar_unset (d : build.Deps) (keys : list string) :
  (forall k, In k keys -> build.os_LookupEnv d k = None) ->
  build.detectEnvVar d keys = "".
Proof.
  induction keys as [|key keys IH]; intros Hunset; simpl.
  - reflexivity.
  - rewrite (Hunset key (or_introl eq_refl)). apply IH.
    intros k Hin. apply Hunset. now right.
Qed.

Lemma detectEnvVar_found (d : build.Deps) (keys : list string) :
  build.detectEnvVar d keys = "" \/
  exists key, In key keys /\
    build.os_LookupEnv d key = Some (build.detectEnvVar d keys).
Proof.
  induction keys as [|key keys IH]; simpl.
  - now left.
  - destruct (build.os_LookupEnv d key) as [val|] eqn:Hkey.
    + right. exists key. auto.
    + destruct IH as [IH|(k & Hin & Hk)]; [now left|].
      right. exists k. auto.
Qed.

(** X10: [detectEnvVar] gives the value of the first key that is set, and
    the empty string when none is.  A key that is set to the empty string
    counts as set: it ends the search, and the keys after it are not
    read. *)
Theorem detectEnvVar_first_set :
  forall (d : build.Deps) (before after : list string) (key val : string),
    (forall k, In k before -> build.os_LookupEnv d k = None) ->
    (build.os_LookupEnv d key = Some val ->
       build.detectEnvVar d (before ++ key :: after) = val) /\
    (build.os_LookupEnv d key = None ->
       (forall k, In k after -> build.os_LookupEnv d k = None) ->
       build.detectEnvVar d (before ++ key :: after) = "").
Proof.
  intros d before after key val Hbefore. split.
  - intros Hkey. induction before as [|b before IH]; simpl.
    + now rewrite Hkey.
    + rewrite (Hbefore b (or_introl eq_refl)). apply IH.
      intros k Hin. apply Hbefore. now right.
  - intros Hkey Hafter. apply detectEnvVar_unset.
    intros k Hin. apply in_app_or in Hin.
    destruct Hin as [Hin|[<-|Hin]]; auto.
Qed.

Lemma detectEnvVar_first_set_witness :
  build.detectEnvVar
    (samples.os [("GIT_COMMIT", ""); ("GITHUB_SHA", "7d1ebc858b")])
    ([] ++ "GIT_COMMIT" :: ["GITHUB_SHA"]) = "".
Proof.
  destruct (detectEnvVar_first_set
              (samples.os [("GIT_COMMIT", ""); ("GITHUB_SHA", "7d1ebc858b")])
              [] ["GITHUB_SHA"] "GIT_COMMIT" "") as (H & _).
  - intros k [].
  - apply H. reflexivity.
Defined.

Section BuildHelpers.

Variable d : build.Deps.

Lemma resolveCommitId_value (o : build.buildDockerImageOpts) :
  exists log,
    build.resolveCommitId d o =
      (cmd.Done
         (if string_empty (build.flagCommitID o) then
            if string_empty
                 (build.detectEnvVar d
                    [ "GIT_COMMIT"; "GITHUB_SHA"; "CI_COMMIT_SHA";
                      "CIRCLE_SHA1"; "TRAVIS_COMMIT"; "BUILD_SOURCEVERSION";
                      "BITBUCKET_COMMIT"; "BUILD_VCS_NUMBER";
                      "BUILDKITE_COMMIT"; "DRONE_COMMIT_SHA";
                      "SEMAPHORE_GIT_SHA" ])
            then "none"
            else build.detectEnvVar d
                   [ "GIT_COMMIT"; "GITHUB_SHA"; "CI_COMMIT_SHA";
                     "CIRCLE_SHA1"; "TRAVIS_COMMIT"; "BUILD_SOURCEVERSION";
                     "BITBUCKET_COMMIT"; "BUILD_VCS_NUMBER";
                     "BUILDKITE_COMMIT"; "DRONE_COMMIT_SHA";
                     "SEMAPHORE_GIT_SHA" ]
          else build.flagCommitID o),
       [cmd.Say cmd.LInfo log]).
Proof.
  unfold build.resolveCommitId. cbv zeta.
  destruct (string_empty (build.flagCommitID o)).
  - destruct (string_empty (build.detectEnvVar d _)); simpl;
      eexists; reflexivity.
  - eexists; reflexivity.
Qed.

Lemma resolveBuildNumber_value (o : build.buildDockerImageOpts) :
  exists log,
    build.resolveBuildNumber d o =
      (cmd.Done
         (if string_empty (build.flagBuildNumber o) then
            if string_empty
                 (build.detectEnvVar d
                    [ "BUILD_NUMBER"; "GITHUB_RUN_NUMBER"; "CI_PIPELINE_IID";
                      "CIRCLE_BUILD_NUM"; "TRAVIS_BUILD_NUMBER";
                      "BUILD_BUILDNUMBER"; "BITBUCKET_BUILD_NUMBER";
                      "BUILDKITE_BUILD_NUMBER"; "DRONE_BUILD_NUMBER";
                      "SEMAPHORE_BUILD_NUMBER" ])
            then "none"
            else build.detectEnvVar d
                   [ "BUILD_NUMBER"; "GITHUB_RUN_NUMBER"; "CI_PIPELINE_IID";
                     "CIRCLE_BUILD_NUM"; "TRAVIS_BUILD_NUMBER";
                     "BUILD_BUILDNUMBER"; "BITBUCKET_BUILD_NUMBER";
                     "BUILDKITE_BUILD_NUMBER"; "DRONE_BUILD_NUMBER";
                     "SEMAPHORE_BUILD_NUMBER" ]
          else build.flagBuildNumber o),
       [cmd.Say cmd.LInfo log]).
Proof.
  unfold build.resolveBuildNumber. cbv zeta.
  destruct (string_empty (build.flagBuildNumber o)).
  - destruct (string_empty (build.detectEnvVar d _)); simpl;
      eexists; reflexivity.
  - eexists; reflexivity.
Qed.

Lemma settled_value (flag : string) (keys : list string) :
  let v := if string_empty flag then
             if string_empty (build.detectEnvVar d keys) then "none"
             else build.detectEnvVar d keys
           else flag in
  v <> "" /\
  (flag <> "" -> v = flag) /\
  (flag = "" ->
     (build.detectEnvVar d keys = "" /\ v = "none") \/
     (v = build.detectEnvVar d keys /\
      exists key, In key keys /\ build.os_LookupEnv d key = Some v)).
Proof.
  cbv zeta. destruct (string_empty flag) eqn:Hflag.
  - apply string_empty_true in Hflag. subst flag.
    destruct (string_empty (build.detectEnvVar d keys)) eqn:Hdetect.
    + apply string_empty_true in Hdetect.
      repeat split; [discriminate|congruence|auto].
    + apply string_empty_false in Hdetect.
      repeat split; [exact Hdetect|congruence|].
      intros _. right. split; [reflexivity|].
      destruct (detectEnvVar_found d keys) as [Hnone|Hfound];
        [contradiction|exact Hfound].
  - apply string_empty_false in Hflag. repeat split; auto. contradiction.
Qed.

End BuildHelpers.

(** X11: the commit id and the build number that [Run] settles are never
    empty.  A flag that is given is taken as it is.  Without the flag the
    value is what [detectEnvVar] finds among the eleven variables listed
    for the commit id, or the ten listed for the build number, and so the
    value of one of these variables; it is none when the search gives the
    empty string, because no variable is set or because the first one that
    is set is empty.  Settling them only writes one line to the log
    each. *)
Theorem commit_id_and_build_number_are_never_empty :
  forall (d : build.Deps) (o : build.buildDockerImageOpts),
    let commitKeys :=
      [ "GIT_COMMIT"; "GITHUB_SHA"; "CI_COMMIT_SHA"; "CIRCLE_SHA1";
        "TRAVIS_COMMIT"; "BUILD_SOURCEVERSION"; "BITBUCKET_COMMIT";
        "BUILD_VCS_NUMBER"; "BUILDKITE_COMMIT"; "DRONE_COMMIT_SHA";
        "SEMAPHORE_GIT_SHA" ] in
    let buildKeys :=
      [ "BUILD_NUMBER"; "GITHUB_RUN_NUMBER"; "CI_PIPELINE_IID";
        "CIRCLE_BUILD_NUM"; "TRAVIS_BUILD_NUMBER"; "BUILD_BUILDNUMBER";
        "BITBUCKET_BUILD_NUMBER"; "BUILDKITE_BUILD_NUMBER";
        "DRONE_BUILD_NUMBER"; "SEMAPHORE_BUILD_NUMBER" ] in
    exists commitId buildNumber log1 log2,
      build.resolveCommitId d o
        = (cmd.Done commitId, [cmd.Say cmd.LInfo log1]) /\
      build.resolveBuildNumber d o
        = (cmd.Done buildNumber, [cmd.Say cmd.LInfo log2]) /\
      commitId <> "" /\ buildNumber <> "" /\
      (build.flagCommitID o <> "" -> commitId = build.flagCommitID o) /\
      (build.flagBuildNumber o <> "" -> buildNumber = build.flagBuildNumber o) /\
      (build.flagCommitID o = "" ->
         (build.detectEnvVar d commitKeys = "" /\ commitId = "none") \/
         (commitId = build.detectEnvVar d commitKeys /\
          exists key,
            In key commitKeys /\
            build.os_LookupEnv d key = Some commitId)) /\
      (build.flagBuildNumber o = "" ->
         (build.detectEnvVar d buildKeys = "" /\ buildNumber = "none") \/
         (buildNumber = build.detectEnvVar d buildKeys /\
          exists key,
            In key buildKeys /\
            build.os_LookupEnv d key = Some buildNumber)).
Proof.
  intros d o commitKeys buildKeys.
  destruct (resolveCommitId_value d o) as (log1 & H1).
  destruct (resolveBuildNumber_value d o) as (log2 & H2).
  eexists. eexists. exists log1, log2.
  split; [exact H1|]. split; [exact H2|].
  destruct (settled_value d (build.flagCommitID o) commitKeys)
    as (A1 & A2 & A3).
  destruct (settled_value d (build.flagBuildNumber o) buildKeys)
    as (B1 & B2 & B3).
  repeat split; assumption.
Qed.

(** X12: [resolveBuildEngine] gives buildx or buildkit whenever it gives no
    error, so the engine [Run] goes on with is one of the two.  An engine
    that is named is taken as it is when it is one of the two, whatever the
    environment holds, and is refused with an error and the empty string
    otherwise; when none is named, the engine is buildkit if
    BITBUCKET_PIPELINE_UUID is set (to anything) and buildx if not. *)
Theorem resolveBuildEngine_gives_a_valid_engine :
  forall (d : build.Deps) (engine : string),
    (snd (build.resolveBuildEngine d engine) = None ->
       fst (build.resolveBuildEngine d engine) = "buildx" \/
       fst (build.resolveBuildEngine d engine) = "buildkit") /\
    (engine = "buildx" \/ engine = "buildkit" ->
       build.resolveBuildEngine d engine = (engine, None)) /\
    (engine = "" ->
       build.resolveBuildEngine d engine =
         (match build.os_LookupEnv d "BITBUCKET_PIPELINE_UUID" with
          | Some _ => "buildkit"
          | None => "buildx"
          end, None)) /\
    (engine <> "" -> engine <> "buildx" -> engine <> "buildkit" ->
       build.resolveBuildEngine d engine =
         ("",
          Some (errorString
                  ("invalid Docker build engine '" ++ engine ++
                   "', must be one of: [buildx buildkit]")))).
Proof.
  intros d engine. unfold build.resolveBuildEngine.
  destruct (string_empty engine) eqn:Hempty.
  - apply string_empty_true in Hempty. subst engine.
    repeat split.
    + intros _. destruct (build.os_LookupEnv d _); auto.
    + intros [H|H]; discriminate H.
    + intros _. now destruct (build.os_LookupEnv d _).
    + congruence.
  - apply string_empty_false in Hempty.
    unfold build.validBuildEngines. cbn [build.matchEngine].
    destruct (String.eqb_spec engine "buildx") as [->|Hx].
    + repeat split; auto; congruence.
    + destruct (String.eqb_spec engine "buildkit") as [->|Hk].
      * repeat split; auto; congruence.
      * repeat split; try congruence.
        -- intros H. discriminate H.
        -- intros [H|H]; contradiction.
Qed.

Lemma resolveBuildEngine_gives_a_valid_engine_witness :
  build.resolveBuildEngine
    (samples.os [("BITBUCKET_PIPELINE_UUID", "")]) "buildx" = ("buildx", None).
Proof.
  destruct (resolveBuildEngine_gives_a_valid_engine
              (samples.os [("BITBUCKET_PIPELINE_UUID", "")]) "buildx")
    as (_ & H & _).
  apply H. now left.
Defined.

(** X13: [Prepare] never fails and leaves the flags alone.  Without
    arguments the image name is the pattern <projectID>:<timestamp> and the
    extra arguments stay what they were; with arguments the first one is
    the image name and the others are the extra arguments, so that name and
    extra arguments together are the arguments. *)
Theorem Prepare_splits_the_arguments :
  forall (o : build.buildDockerImageOpts) (args : list string),
    let o' := fst (build.Prepare o args) in
    snd (build.Prepare o args) = None /\
    build.flagBuildEngine o' = build.flagBuildEngine o /\
    build.flagArchitecture o' = build.flagArchitecture o /\
    build.flagCommitID o' = build.flagCommitID o /\
    build.flagBuildNumber o' = build.flagBuildNumber o /\
    (args = [] ->
       build.argImageName o' = "<projectID>:<timestamp>" /\
       build.extraArgs o' = build.extraArgs o) /\
    (args <> [] -> build.argImageName o' :: build.extraArgs o' = args).
Proof.
  intros o args. cbv zeta. destruct args as [|first rest]; simpl.
  - repeat split; try reflexivity. intros H. now contradiction H.
  - repeat split; try reflexivity; discriminate.
Qed.

Lemma Prepare_splits_the_arguments_witness :
  let o' := fst (build.Prepare (samples.opts "" [])
                   ["--build-arg"; "FOO=BAR"]) in
  build.argImageName o' :: build.extraArgs o' = ["--build-arg"; "FOO=BAR"].
Proof.
  cbv zeta.
  destruct (Prepare_splits_the_arguments (samples.opts "" [])
              ["--build-arg"; "FOO=BAR"]) as (_ & _ & _ & _ & _ & _ & H).
  apply H. discriminate.
Defined.

(* ===================================================================== *)
(** ** cmd: build docker-image, the run *)
(* ===================================================================== *)

Lemma resolveBuildEngine_valid (d : build.Deps) (engine e : string) :
  build.resolveBuildEngine d engine = (e, None) ->
  e = "buildx" \/ e = "buildkit".
Proof.
  unfold build.resolveBuildEngine.
  destruct (string_empty engine).
  - destruct (build.os_LookupEnv d _); intros [= <-]; auto.
  - unfold build.validBuildEngines. cbn [build.matchEngine].
    destruct (String.eqb_spec engine "buildx") as [->|Hx].
    + intros [= <-]. auto.
    + destruct (String.eqb_spec engine "buildkit") as [->|Hk].
      * intros [= <-]. auto.
      * discriminate.
Qed.

Lemma rebaseOrExit_cases (d : build.Deps) (targetPath newBaseDir what : string) :
  (exists rebased, build.rebaseOrExit d targetPath newBaseDir what
                   = (cmd.Done rebased, [])) \/
  (exists log, build.rebaseOrExit d targetPath newBaseDir what
               = (cmd.Exit 2, [cmd.Say cmd.LError log])).
Proof.
  unfold build.rebaseOrExit.
  destruct (build.rebasePath d targetPath newBaseDir) as [rebased [err|]].
  - right. eexists. reflexivity.
  - left. eexists. reflexivity.
Qed.

Lemma index_cases (segments : list Z) (i : nat) :
  (exists v, build.index segments i = (cmd.Done v, [])) \/
  (exists v, build.index segments i = (cmd.Crash v, []) /\
             String.prefix "runtime error: index out of range" v = true).
Proof.
  unfold build.index. destruct (nth_error segments i).
  - left. eexists. reflexivity.
  - right. eexists. split; reflexivity.
Qed.

Ltac cmd_step :=
  cbn [cmd.andThen cmd.say cmd.act cmd.pure cmd.os_Exit cmd.crash app
       cmd.effects cmd.actions_of cmd.ending_of filter cmd.is_effect
       fst snd].

Ltac rebase_step :=
  match goal with
  | |- context [build.rebaseOrExit ?d ?a ?b ?c] =>
      destruct (rebaseOrExit_cases d a b c) as [(? & ->)|(? & ->)];
      cmd_step; [|split; [right; now left|discriminate]]
  end.

Ltac finish_build project ea :=
  match goal with
  | |- context [cmd.Exec _ ?env "docker" _] =>
      match goal with
      | |- context [build.buildArgs ?d ?img ?df ?pl ?sdk ?pr ?be ?sc ?dv
                      ?pid ?bn ?cid] =>
          exists project, env, ea, (build.filepath_ToSlash d df),
            (skipn 7 (build.buildArgs d img df pl sdk pr be sc dv pid bn cid))
      end
  end;
  split; [reflexivity|];
  split; [unfold build.buildArgs; cbn [skipn app]; reflexivity|].

(** X14: whatever the operating system answers, [Run] does at most two
    things besides writing to the log: it probes docker once, and after
    that it runs one command, the docker build.  The build is only run
    when the project resolved, the image name does not end in :latest, the
    architecture is amd64 or arm64 and the probe found docker, and then in
    the build root, with the arguments of the engine first (build with
    DOCKER_BUILDKIT=1 in the environment, or buildx build --load), the
    image under -t, the platform linux/<architecture>, the extra arguments
    after all build arguments and a single dot last.  [Run] panics only on
    a runtime version with fewer than two segments, never on the engine. *)
Theorem Run_probes_and_builds_at_most_once :
  forall (d : build.Deps) (o : build.buildDockerImageOpts),
    let run := build.Run d o in
    (cmd.effects (cmd.actions_of run) = [] \/
     cmd.effects (cmd.actions_of run) = [cmd.DockerInfo] \/
     exists project env engineArgs dockerFile rest,
       build.resolveProject d = inl project /\
       cmd.effects (cmd.actions_of run) =
         [ cmd.DockerInfo;
           cmd.Exec (build.BuildRootDir project) env "docker"
             (engineArgs ++
              [ "--pull"; "-t"; build.resolveImageName d o project;
                "-f"; dockerFile;
                "--platform"; ("linux/" ++ build.flagArchitecture o)%string ] ++
              rest ++ build.extraArgs o ++ ["."])%list ] /\
       HasSuffix (build.resolveImageName d o project) ":latest" = false /\
       build.contains ["amd64"; "arm64"] (build.flagArchitecture o) = true /\
       build.docker_info d = build.Delivered None /\
       ((engineArgs = ["build"] /\
         env = (build.os_Environ d ++
                ["DOCKER_CLI_HINTS=false"; "DOCKER_BUILDKIT=1"])%list) \/
        (engineArgs = ["buildx"; "build"; "--load"] /\
         env = (build.os_Environ d ++ ["DOCKER_CLI_HINTS=false"])%list))) /\
    (forall v,
       cmd.ending_of run = cmd.Crash v ->
       String.prefix "runtime error: index out of range" v = true).
Proof.
  intros d o. cbv zeta. unfold build.Run. cmd_step.
  destruct (build.resolveProject d) as [project|err] eqn:Hproject.
  2: { cmd_step. split; [now left|discriminate]. }
  cbv zeta.
  destruct (HasSuffix (build.resolveImageName d o project) ":latest")
    eqn:Hlatest.
  { cmd_step. split; [now left|discriminate]. }
  destruct ((0 <? Datatypes.length (build.extraArgs o))%nat); cmd_step.
  all: destruct (resolveCommitId_value d o) as (log1 & ->); cmd_step.
  all: destruct (resolveBuildNumber_value d o) as (log2 & ->); cmd_step.
  all: destruct (build.os_NotExist d (build.SdkRootDir project)); cmd_step;
    [split; [now left|discriminate]|].
  all: destruct (build.os_NotExist d
                   (build.filepath_Join d (build.SdkRootDir project)
                      "Dockerfile.server")); cmd_step;
    [split; [now left|discriminate]|].
  all: destruct (build.os_NotExist d (build.BackendDir project)); cmd_step;
    [split; [now left|discriminate]|].
  all: destruct (build.os_NotExist d (build.SharedCodeDir project)); cmd_step;
    [split; [now left|discriminate]|].
  all: destruct (build.contains ["amd64"; "arm64"] (build.flagArchitecture o))
    eqn:Harch; cbn [negb]; cmd_step;
    [|split; [now left|discriminate]].
  all: unfold build.checkDockerAvailable; cmd_step.
  all: destruct (build.docker_info d) as [[e|]|] eqn:Hinfo;
    cbn [build.checkCommand]; cmd_step;
    [split; [right; now left|discriminate]| |
     split; [right; now left|discriminate]].
  all: destruct (build.resolveBuildEngine d (build.flagBuildEngine o))
    as [engine [err|]] eqn:Hengine; cmd_step;
    [split; [right; now left|discriminate]|].
  all: rebase_step.
  all: rebase_step.
  all: rebase_step.
  all: rebase_step.
  all: rebase_step.
  all: destruct (resolveBuildEngine_valid d _ _ Hengine) as [-> | ->];
    cbn [String.eqb Ascii.eqb Bool.eqb]; cmd_step.
  all: match goal with
       | |- context [build.index ?l 0] =>
           destruct (index_cases l 0) as [(? & ->)|(? & -> & ?)]; cmd_step;
           [|split; [right; now left|intros ? [= <-]; assumption]]
       end.
  all: match goal with
       | |- context [build.index ?l 1] =>
           destruct (index_cases l 1) as [(? & ->)|(? & -> & ?)]; cmd_step;
           [|split; [right; now left|intros ? [= <-]; assumption]]
       end.
  all: unfold build.executeCommand; cmd_step.
  all: match goal with
       | |- context [build.exec_Run ?d ?a ?b ?c ?e] =>
           destruct (build.exec_Run d a b c e)
       end; cbn [option_map]; cmd_step.
  all: split; [|discriminate].
  all: right; right.
  all: first [finish_build project (@cons string "build" nil)
             |finish_build project ["buildx"; "build"; "--load"]].
  all: split; [first [exact Hlatest|reflexivity]|].
  all: split; [first [exact Harch|reflexivity]|].
  all: split; [first [exact Hinfo|reflexivity]|].
  all: first [left; split; [reflexivity|];
              rewrite <- app_assoc; reflexivity
             |right; split; reflexivity].
Qed.

(** X15: an image name that, with the placeholders filled in, ends in
    :latest is refused: [Run] exits with code 1 after four lines of log,
    without looking at any path, probing docker or running a command. *)
Theorem Run_refuses_the_latest_tag :
  forall (d : build.Deps) (o : build.buildDockerImageOpts)
         (project : build.Project),
    build.resolveProject d = inl project ->
    HasSuffix (build.resolveImageName d o project) ":latest" = true ->
    build.Run d o =
      (cmd.Exit 1,
       [ cmd.Say cmd.LInfo "";
         cmd.Say cmd.LInfo (build.styles_RenderTitle d "Build Docker Image");
         cmd.Say cmd.LInfo "";
         cmd.Say cmd.LError
           "Building docker image with 'latest' tag is not allowed. Use a commit hash or timestamp instead." ]) /\
    cmd.effects (cmd.actions_of (build.Run d o)) = [].
Proof.
  intros d o project Hproject Hlatest.
  assert (Hrun : build.Run d o =
      (cmd.Exit 1,
       [ cmd.Say cmd.LInfo "";
         cmd.Say cmd.LInfo (build.styles_RenderTitle d "Build Docker Image");
         cmd.Say cmd.LInfo "";
         cmd.Say cmd.LError
           "Building docker image with 'latest' tag is not allowed. Use a commit hash or timestamp instead." ])).
  { unfold build.Run. rewrite Hproject. cbv zeta. rewrite Hlatest.
    reflexivity. }
  split; [exact Hrun|]. rewrite Hrun. reflexivity.
Qed.

Lemma Run_refuses_the_latest_tag_witness :
  cmd.ending_of (build.Run (samples.os []) (samples.opts "<projectID>:latest" []))
    = cmd.Exit 1 /\
  cmd.effects
    (cmd.actions_of
       (build.Run (samples.os []) (samples.opts "<projectID>:latest" [])))
    = [].
Proof.
  destruct (Run_refuses_the_latest_tag (samples.os [])
              (samples.opts "<projectID>:latest" []) samples.project)
    as (Hrun & Heffects).
  - reflexivity.
  - vm_compute. reflexivity.
  - rewrite Hrun. split; [reflexivity|exact Heffects].
Defined.

(** No opening angle bracket among the bytes of [s]. *)
Lemma Index_no_bracket (s rest : string) :
  ~ In "<"%char (list_ascii_of_string s) ->
  strings.Index s (String "<" rest) = None.
Proof.
  induction s as [|c s IH]; intros Hfree.
  - reflexivity.
  - cbn [strings.Index].
    change (String.prefix (String "<" rest) (String c s))
      with (if ascii_dec "<" c then String.prefix rest s else false).
    destruct (ascii_dec "<" c) as [<-|Hne].
    + exfalso. apply Hfree. now left.
    + rewrite IH; [reflexivity|]. intros Hin. apply Hfree. now right.
Qed.

Lemma uint_no_bracket (u : Decimal.uint) :
  ~ In "<"%char (list_ascii_of_string (NilEmpty.string_of_uint u)).
Proof.
  induction u; simpl; intros H;
    try contradiction; destruct H as [H|H]; try discriminate H;
    contradiction.
Qed.

Lemma itoa_no_bracket (n : Z) :
  ~ In "<"%char (list_ascii_of_string (itoa n)).
Proof.
  unfold itoa, NilZero.string_of_int, NilZero.string_of_uint.
  destruct (Z.to_int n) as [u|u].
  - destruct u; try apply uint_no_bracket.
    simpl. intros [H|[]]. discriminate H.
  - destruct u.
    + simpl. intros [H|[H|[]]]; discriminate H.
    + simpl. intros [H|H]; [discriminate H|].
      revert H. apply (uint_no_bracket (Decimal.D0 u)).
    + simpl. intros [H|H]; [discriminate H|].
      revert H. apply (uint_no_bracket (Decimal.D1 u)).
    + simpl. intros [H|H]; [discriminate H|].
      revert H. apply (uint_no_bracket (Decimal.D2 u)).
    + simpl. intros [H|H]; [discriminate H|].
      revert H. apply (uint_no_bracket (Decimal.D3 u)).
    + simpl. intros [H|H]; [discriminate H|].
      revert H. apply (uint_no_bracket (Decimal.D4 u)).
    + simpl. intros [H|H]; [discriminate H|].
      revert H. apply (uint_no_bracket (Decimal.D5 u)).
    + simpl. intros [H|H]; [discriminate H|].
      revert H. apply (uint_no_bracket (Decimal.D6 u)).
    + simpl. intros [H|H]; [discriminate H|].
      revert H. apply (uint_no_bracket (Decimal.D7 u)).
    + simpl. intros [H|H]; [discriminate H|].
      revert H. apply (uint_no_bracket (Decimal.D8 u)).
    + simpl. intros [H|H]; [discriminate H|].
      revert H. apply (uint_no_bracket (Decimal.D9 u)).
Qed.

Lemma append_empty (s : string) : s ++ "" = s.
Proof. induction s as [|c s IH]; simpl; [reflexivity|now rewrite IH]. Qed.

Lemma Replace_loop_no_bracket (k : nat) (s old rest new : string) :
  ~ In "<"%char (list_ascii_of_string s) ->
  Replace_loop k s (String "<" rest) new = s.
Proof.
  intros Hfree. destruct k; simpl; [reflexivity|].
  now rewrite (Index_no_bracket s rest Hfree).
Qed.

(** [Index] finds at the very start a separator the text begins with. *)
Lemma Index_head (old rest : string) :
  strings.Index (old ++ rest) old = Some 0.
Proof.
  pose proof (prefix_append old rest) as H.
  destruct (old ++ rest); unfold strings.Index; fold strings.Index;
    now rewrite H.
Qed.

(** Replacing [old] at the head of a text that holds no other one. *)
Lemma ReplaceAll_head (o' rest new : string) :
  ~ In "<"%char (list_ascii_of_string rest) ->
  ReplaceAll (String "<" o' ++ rest) (String "<" o') new = new ++ rest.
Proof.
  intros Hfree. unfold ReplaceAll.
  destruct (String.eqb (String "<" o') new) eqn:Heq.
  - apply String.eqb_eq in Heq. now rewrite Heq.
  - remember (String "<" o') as old eqn:Hold.
    assert (Hlen : exists k, String.length (old ++ rest) = S k).
    { subst old. simpl. eauto. }
    destruct Hlen as [k ->].
    unfold Replace_loop; fold Replace_loop.
    rewrite Index_head. unfold strings.take.
    replace (0 + String.length old) with (String.length old + 0)
      by apply Nat.add_comm.
    rewrite drop_append. unfold strings.drop.
    subst old. rewrite (Replace_loop_no_bracket _ rest o' o' new Hfree).
    reflexivity.
Qed.

(** X16: without an IMAGE:TAG argument the image is named after the project
    and the time: [Prepare] on no arguments followed by the naming of [Run]
    gives the project id, a colon and the unix time in decimal. *)
Theorem default_image_name :
  forall (d : build.Deps) (o : build.buildDockerImageOpts)
         (project : build.Project),
    build.resolveImageName d (fst (build.Prepare o [])) project =
      build.ProjectHumanID project ++ ":" ++ itoa (build.time_Now_Unix d).
Proof.
  intros d o project. unfold build.resolveImageName.
  cbn [build.Prepare fst build.argImageName].
  assert (Hfirst :
    ReplaceAll "<projectID>:<timestamp>" "<timestamp>"
      (itoa (build.time_Now_Unix d))
    = "<projectID>" ++ ":" ++ itoa (build.time_Now_Unix d)).
  { unfold ReplaceAll.
    destruct (String.eqb "<timestamp>" (itoa (build.time_Now_Unix d)))
      eqn:Heq.
    - apply String.eqb_eq in Heq. rewrite <- Heq. reflexivity.
    - simpl. now rewrite append_empty. }
  cbv zeta. rewrite Hfirst.
  apply ReplaceAll_head.
  cbn [append list_ascii_of_string]. intros [H|H]; [discriminate H|].
  revert H. apply itoa_no_bracket.
Qed.

(* ===================================================================== *)
(** ** The remove, dev and update commands; package styles *)
(* ===================================================================== *)

Lemma GetKubeConfigWithEmbeddedCredentials_returns (w : World) target :
  exists payload err,
    GetKubeConfigWithEmbeddedCredentials w target =
      (Returned (payload, err),
       [Log DebugLevel "Fetching kubeconfig with embedded secret";
        post_kubeconfig target]).
Proof.
  unfold GetKubeConfigWithEmbeddedCredentials, httpPostRequest, httpRequest,
    resty_call, post_kubeconfig, kubeconfig_path.
  remember ("/v0/credentials/" ++ HumanId target ++ "/k8s") as path.
  simpl.
  destruct (resty_Execute w (Resty target) MethodPost path None) as [r|e];
    simpl.
  - destruct (status_failed (resty.StatusCode r)); simpl; eauto.
  - eauto.
Qed.

(** *** Runs of the commands *)

Lemma andThen_ending {A B} (m : cmd.C A) (k : A -> cmd.C B) :
  cmd.ending_of (cmd.andThen m k) =
    match cmd.ending_of m with
    | cmd.Done a => cmd.ending_of (k a)
    | cmd.Exit code => cmd.Exit code
    | cmd.Crash v => cmd.Crash v
    end.
Proof.
  destruct m as [[a|code|v] t]; simpl; try reflexivity.
  now destruct (k a).
Qed.

Lemma andThen_actions {A B} (m : cmd.C A) (k : A -> cmd.C B) :
  cmd.actions_of (cmd.andThen m k) =
    (cmd.actions_of m ++
     match cmd.ending_of m with
     | cmd.Done a => cmd.actions_of (k a)
     | _ => []
     end)%list.
Proof.
  destruct m as [[a|code|v] t]; simpl; try now rewrite app_nil_r.
  now destruct (k a).
Qed.

Lemma effects_app (s t : list cmd.action) :
  cmd.effects (s ++ t) = (cmd.effects s ++ cmd.effects t)%list.
Proof. apply filter_app. Qed.

Ltac run_step1 :=
  rewrite ?andThen_ending, ?andThen_actions, ?effects_app;
  cbn [cmd.say cmd.act cmd.pure cmd.os_Exit cmd.ending_of cmd.actions_of
       cmd.effects filter cmd.is_effect fst snd app post_kubeconfig
       get_details];
  repeat match goal with
         | |- context [filter cmd.is_effect ?t] =>
             change (filter cmd.is_effect t) with (cmd.effects t)
         end.

Ltac run_step := repeat (progress run_step1).

Section RemoveLoops.

Context {Project AuthProvider ActionConfig : Type}.
Variable d : remove.Deps Project AuthProvider ActionConfig.
Variable actionConfig : ActionConfig.

Lemma removeReleases_all releases :
  Forall (uninstalls d actionConfig) releases ->
  cmd.ending_of (remove.removeReleases d actionConfig releases) = cmd.Done tt /\
  cmd.effects (cmd.actions_of (remove.removeReleases d actionConfig releases))
    = map cmd.UninstallRelease releases.
Proof.
  induction 1 as [|release rest Hok _ [IHe IHa]]; [now split|].
  cbn [remove.removeReleases]. unfold uninstalls in Hok. rewrite Hok.
  run_step. rewrite IHe, IHa. now split.
Qed.

Lemma removeReleases_stops before release after err :
  Forall (uninstalls d actionConfig) before ->
  remove.helmutil_UninstallRelease d actionConfig release = Some err ->
  cmd.ending_of
    (remove.removeReleases d actionConfig (before ++ release :: after))
    = cmd.Exit 1 /\
  cmd.effects
    (cmd.actions_of
       (remove.removeReleases d actionConfig (before ++ release :: after)))
    = map cmd.UninstallRelease (before ++ [release]).
Proof.
  intros Hbefore Hfail.
  induction Hbefore as [|r rest Hok _ [IHe IHa]].
  - cbn [app remove.removeReleases]. rewrite Hfail. run_step. now split.
  - cbn [app remove.removeReleases]. unfold uninstalls in Hok. rewrite Hok.
    run_step. rewrite IHe, IHa. now split.
Qed.

Lemma uninstallReleases_all releases :
  Forall (uninstalls d actionConfig) releases ->
  cmd.ending_of (remove.uninstallReleases d actionConfig releases)
    = cmd.Done None /\
  cmd.effects
    (cmd.actions_of (remove.uninstallReleases d actionConfig releases))
    = map cmd.UninstallRelease releases.
Proof.
  induction 1 as [|release rest Hok _ [IHe IHa]]; [now split|].
  cbn [remove.uninstallReleases]. unfold uninstalls in Hok. rewrite Hok.
  run_step. rewrite IHe, IHa. now split.
Qed.

Lemma uninstallReleases_stops before release after err :
  Forall (uninstalls d actionConfig) before ->
  remove.helmutil_UninstallRelease d actionConfig release = Some err ->
  cmd.ending_of
    (remove.uninstallReleases d actionConfig (before ++ release :: after))
    = cmd.Done
        (Some (wrapError
                 ("failed to uninstall Helm relese " ++ cmd.Name release ++
                  ": " ++ Error err) err)) /\
  cmd.effects
    (cmd.actions_of
       (remove.uninstallReleases d actionConfig (before ++ release :: after)))
    = map cmd.UninstallRelease (before ++ [release]).
Proof.
  intros Hbefore Hfail.
  induction Hbefore as [|r rest Hok _ [IHe IHa]].
  - cbn [app remove.uninstallReleases]. rewrite Hfail. run_step. now split.
  - cbn [app remove.uninstallReleases]. unfold uninstalls in Hok. rewrite Hok.
    run_step. rewrite IHe, IHa. now split.
Qed.

End RemoveLoops.

(** The common start of the two remove commands, once everything
    resolved: rewrite with what the collaborators answer. *)
Ltac remove_start Hresolves Hout :=
  let project := fresh "project" in
  let Hproject := fresh "Hproject" in
  let Hlogin := fresh "Hlogin" in
  let Henv := fresh "Henv" in
  let Hget := fresh "Hget" in
  let payload' := fresh "payload" in
  let err' := fresh "err" in
  destruct Hresolves as (project & Hproject & Hlogin & Henv);
  match type of Hout with
  | outcome_of (GetKubeConfigWithEmbeddedCredentials ?w ?target) = _ =>
      destruct (GetKubeConfigWithEmbeddedCredentials_returns w target)
        as (payload' & err' & Hget);
      unfold outcome_of in Hout; rewrite Hget in Hout; cbn [fst] in Hout;
      injection Hout as -> ->;
      unfold remove_game_server, remove_botclients, remove.RunGameServer,
        remove.RunBotClients;
      cbn [remove.game_server_argEnvironment
           remove.botclients_argEnvironment];
      rewrite Hproject, Hlogin, Henv;
      change (NewTargetEnvironment _ _ _) with target;
      rewrite Hget; cbn [cmd.lift map]; run_step
  end.

Ltac helm_start Hhelm :=
  let Hconfig := fresh "Hconfig" in
  let Hlist := fresh "Hlist" in
  let lerr := fresh "lerr" in
  destruct Hhelm as (Hconfig & Hlist);
  rewrite Hconfig; run_step;
  match type of Hlist with
  | fst ?l = _ =>
      let listed := fresh "listed" in
      destruct l as [listed lerr]; cbn [fst] in Hlist; subst listed
  end.

Section RemoveRuns.

Context {Project AuthProvider ActionConfig : Type}.
Variable w : World.
Variable d : remove.Deps Project AuthProvider ActionConfig.
Variable env : string.
Variable tokenSet : auth.TokenSet.
Variable envConfig : remove.EnvironmentConfig.
Hypothesis Hresolves : resolves d env tokenSet envConfig.

Let target := target_of tokenSet envConfig.
Let namespace := remove.KubernetesNamespace envConfig.

Variables (payload : option string) (err : option error).
Hypothesis Hout :
  outcome_of (GetKubeConfigWithEmbeddedCredentials w target)
    = Returned (payload, err).

(** Both commands get as far as configuring Helm, with whatever the
    kubeconfig request gave. *)
Lemma remove_game_server_configures :
  exists rest,
    cmd.effects (cmd.actions_of (remove_game_server w d env)) =
      ([ cmd.RequireLoggedIn; cmd.Broker (post_kubeconfig target);
         cmd.NewActionConfig payload namespace ] ++ rest)%list.
Proof.
  remove_start Hresolves Hout. run_step. eexists. reflexivity.
Qed.

Lemma remove_botclients_configures :
  exists rest,
    cmd.effects (cmd.actions_of (remove_botclients w d env)) =
      ([ cmd.RequireLoggedIn; cmd.Broker (post_kubeconfig target);
         cmd.NewActionConfig payload namespace ] ++ rest)%list.
Proof.
  remove_start Hresolves Hout. run_step. eexists. reflexivity.
Qed.

Variable actionConfig : ActionConfig.

Lemma remove_game_server_loop releases :
  helm_lists d payload envConfig (remove.metaplayGameServerChartName d)
    actionConfig releases ->
  releases <> [] ->
  cmd.ending_of (remove_game_server w d env) =
    match cmd.ending_of (remove.removeReleases d actionConfig releases) with
    | cmd.Done _ => cmd.Done None
    | cmd.Exit code => cmd.Exit code
    | cmd.Crash v => cmd.Crash v
    end /\
  cmd.effects (cmd.actions_of (remove_game_server w d env)) =
    (helm_prelude target payload namespace
       (remove.metaplayGameServerChartName d) ++
     cmd.effects
       (cmd.actions_of (remove.removeReleases d actionConfig releases)))%list.
Proof.
  intros Hhelm Hsome. remove_start Hresolves Hout.
  helm_start Hhelm.
  destruct releases as [|release rest]; [contradiction|].
  cbn [List.length Nat.eqb].
  run_step.
  destruct (cmd.ending_of
              (remove.removeReleases d actionConfig (release :: rest)));
    run_step; rewrite ?app_nil_r; now split.
Qed.

Lemma remove_botclients_loop releases :
  helm_lists d payload envConfig (remove.metaplayLoadTestChartName d)
    actionConfig releases ->
  releases <> [] ->
  cmd.ending_of (remove_botclients w d env) =
    cmd.ending_of (remove.uninstallReleases d actionConfig releases) /\
  cmd.effects (cmd.actions_of (remove_botclients w d env)) =
    (helm_prelude target payload namespace
       (remove.metaplayLoadTestChartName d) ++
     cmd.effects
       (cmd.actions_of
          (remove.uninstallReleases d actionConfig releases)))%list.
Proof.
  intros Hhelm Hsome. remove_start Hresolves Hout.
  helm_start Hhelm.
  destruct releases as [|release rest]; [contradiction|].
  cbn [List.length Nat.eqb].
  run_step.
  destruct (cmd.ending_of
              (remove.uninstallReleases d actionConfig (release :: rest)))
    as [[e|]|code|v];
    run_step; rewrite ?app_nil_r; now split.
Qed.

End RemoveRuns.

Lemma GetKubeConfigWithEmbeddedCredentials_fails (w : World) target :
  fails w (Resty target) MethodPost (kubeconfig_path target) None ->
  outcome_of (GetKubeConfigWithEmbeddedCredentials w target) =
    Returned
      (None,
       Some (request_error w (Resty target) MethodPost
               (kubeconfig_path target) None)).
Proof.
  unfold fails, request_error, GetKubeConfigWithEmbeddedCredentials,
    httpPostRequest, httpRequest, resty_call, kubeconfig_path.
  remember ("/v0/credentials/" ++ HumanId target ++ "/k8s") as path.
  simpl.
  destruct (resty_Execute w (Resty target) MethodPost path None) as [r|e].
  - intros H. simpl. rewrite status_failed_negb, H. reflexivity.
  - reflexivity.
Qed.

(** X17: neither remove command looks at the error of the kubeconfig
    request.  When the project, the login and the environment resolve and
    the request fails, both go on and configure Helm with a nil kubeconfig
    for the namespace of the environment. *)
Theorem remove_commands_ignore_the_kubeconfig_error :
  forall {Project AuthProvider ActionConfig : Type} (w : World)
         (d : remove.Deps Project AuthProvider ActionConfig) (env : string)
         (tokenSet : auth.TokenSet) (envConfig : remove.EnvironmentConfig),
    let target := target_of tokenSet envConfig in
    resolves d env tokenSet envConfig ->
    fails w (Resty target) MethodPost (kubeconfig_path target) None ->
    exists rest rest',
      cmd.effects (cmd.actions_of (remove_game_server w d env)) =
        ([ cmd.RequireLoggedIn; cmd.Broker (post_kubeconfig target);
           cmd.NewActionConfig None (remove.KubernetesNamespace envConfig) ]
         ++ rest)%list /\
      cmd.effects (cmd.actions_of (remove_botclients w d env)) =
        ([ cmd.RequireLoggedIn; cmd.Broker (post_kubeconfig target);
           cmd.NewActionConfig None (remove.KubernetesNamespace envConfig) ]
         ++ rest')%list.
Proof.
  intros Project AuthProvider ActionConfig w d env tokenSet envConfig target
    Hresolves Hfails.
  apply GetKubeConfigWithEmbeddedCredentials_fails in Hfails.
  destruct (remove_game_server_configures w d env tokenSet envConfig
              Hresolves _ _ Hfails) as (rest & Hgs).
  destruct (remove_botclients_configures w d env tokenSet envConfig
              Hresolves _ _ Hfails) as (rest' & Hbc).
  exists rest, rest'. now split.
Qed.

Lemma samples_helm_resolves releases stuck env :
  resolves (samples.helm releases stuck) env samples.tokenSet
    samples.environment.
Proof. exists tt. repeat split. Qed.

Lemma remove_commands_ignore_the_kubeconfig_error_witness :
  exists rest rest',
    cmd.effects
      (cmd.actions_of
         (remove_game_server scripted.healthy samples.nothing
            "tiny-squids")) =
      ([ cmd.RequireLoggedIn; cmd.Broker (post_kubeconfig scripted.target);
         cmd.NewActionConfig None "tiny-squids-ns" ] ++ rest)%list /\
    cmd.effects
      (cmd.actions_of
         (remove_botclients scripted.healthy samples.nothing
            "tiny-squids")) =
      ([ cmd.RequireLoggedIn; cmd.Broker (post_kubeconfig scripted.target);
         cmd.NewActionConfig None "tiny-squids-ns" ] ++ rest')%list.
Proof.
  apply (remove_commands_ignore_the_kubeconfig_error scripted.healthy
           samples.nothing "tiny-squids" samples.tokenSet
           samples.environment).
  - apply samples_helm_resolves.
  - vm_compute. exact I.
Defined.

(** X18: remove game-server uninstalls the listed releases in the order of
    the listing and stops at the first that does not uninstall: it exits
    with code 1, and the releases after it are left alone.  An error of the
    listing itself makes no difference. *)
Theorem remove_game_server_stops_at_the_first_failure :
  forall {Project AuthProvider ActionConfig : Type} (w : World)
         (d : remove.Deps Project AuthProvider ActionConfig) (env : string)
         (tokenSet : auth.TokenSet) (envConfig : remove.EnvironmentConfig)
         (payload : option string) (err : option error)
         (actionConfig : ActionConfig)
         (before : list cmd.Release) (release : cmd.Release)
         (after : list cmd.Release) (cause : error),
    let target := target_of tokenSet envConfig in
    resolves d env tokenSet envConfig ->
    outcome_of (GetKubeConfigWithEmbeddedCredentials w target)
      = Returned (payload, err) ->
    helm_lists d payload envConfig (remove.metaplayGameServerChartName d)
      actionConfig (before ++ release :: after) ->
    Forall (uninstalls d actionConfig) before ->
    remove.helmutil_UninstallRelease d actionConfig release = Some cause ->
    cmd.ending_of (remove_game_server w d env) = cmd.Exit 1 /\
    cmd.effects (cmd.actions_of (remove_game_server w d env)) =
      (helm_prelude target payload (remove.KubernetesNamespace envConfig)
         (remove.metaplayGameServerChartName d) ++
       map cmd.UninstallRelease (before ++ [release]))%list.
Proof.
  intros Project AuthProvider ActionConfig w d env tokenSet envConfig payload
    err actionConfig before release after cause target Hresolves Hout Hhelm
    Hbefore Hfail.
  destruct (remove_game_server_loop w d env tokenSet envConfig Hresolves
              payload err Hout actionConfig _ Hhelm) as (Hending & Heffects).
  { now destruct before. }
  destruct (removeReleases_stops d actionConfig before release after cause
              Hbefore Hfail) as (Hloop & Hdone).
  rewrite Hending, Heffects, Hloop, Hdone. now split.
Qed.

(** X19: remove botclients uninstalls the listed releases in the order of
    the listing and stops at the first that does not uninstall: it returns
    an error that names the release and wraps the cause, and the releases
    after it are left alone. *)
Theorem remove_botclients_stops_at_the_first_failure :
  forall {Project AuthProvider ActionConfig : Type} (w : World)
         (d : remove.Deps Project AuthProvider ActionConfig) (env : string)
         (tokenSet : auth.TokenSet) (envConfig : remove.EnvironmentConfig)
         (payload : option string) (err : option error)
         (actionConfig : ActionConfig)
         (before : list cmd.Release) (release : cmd.Release)
         (after : list cmd.Release) (cause : error),
    let target := target_of tokenSet envConfig in
    resolves d env tokenSet envConfig ->
    outcome_of (GetKubeConfigWithEmbeddedCredentials w target)
      = Returned (payload, err) ->
    helm_lists d payload envConfig (remove.metaplayLoadTestChartName d)
      actionConfig (before ++ release :: after) ->
    Forall (uninstalls d actionConfig) before ->
    remove.helmutil_UninstallRelease d actionConfig release = Some cause ->
    cmd.ending_of (remove_botclients w d env)
      = cmd.Done (Some (uninstall_error release cause)) /\
    Unwrap (uninstall_error release cause) = Some cause /\
    cmd.effects (cmd.actions_of (remove_botclients w d env)) =
      (helm_prelude target payload (remove.KubernetesNamespace envConfig)
         (remove.metaplayLoadTestChartName d) ++
       map cmd.UninstallRelease (before ++ [release]))%list.
Proof.
  intros Project AuthProvider ActionConfig w d env tokenSet envConfig payload
    err actionConfig before release after cause target Hresolves Hout Hhelm
    Hbefore Hfail.
  destruct (remove_botclients_loop w d env tokenSet envConfig Hresolves
              payload err Hout actionConfig _ Hhelm) as (Hending & Heffects).
  { now destruct before. }
  destruct (uninstallReleases_stops d actionConfig before release after cause
              Hbefore Hfail) as (Hloop & Hdone).
  rewrite Hending, Heffects, Hloop, Hdone. now repeat split.
Qed.

(** X20: when every listed release uninstalls, remove game-server
    uninstalls each of them once, in the order of the listing, and returns
    without error. *)
Theorem remove_game_server_uninstalls_every_release :
  forall {Project AuthProvider ActionConfig : Type} (w : World)
         (d : remove.Deps Project AuthProvider ActionConfig) (env : string)
         (tokenSet : auth.TokenSet) (envConfig : remove.EnvironmentConfig)
         (payload : option string) (err : option error)
         (actionConfig : ActionConfig) (releases : list cmd.Release),
    let target := target_of tokenSet envConfig in
    resolves d env tokenSet envConfig ->
    outcome_of (GetKubeConfigWithEmbeddedCredentials w target)
      = Returned (payload, err) ->
    helm_lists d payload envConfig (remove.metaplayGameServerChartName d)
      actionConfig releases ->
    releases <> [] ->
    Forall (uninstalls d actionConfig) releases ->
    cmd.ending_of (remove_game_server w d env) = cmd.Done None /\
    cmd.effects (cmd.actions_of (remove_game_server w d env)) =
      (helm_prelude target payload (remove.KubernetesNamespace envConfig)
         (remove.metaplayGameServerChartName d) ++
       map cmd.UninstallRelease releases)%list.
Proof.
  intros Project AuthProvider ActionConfig w d env tokenSet envConfig payload
    err actionConfig releases target Hresolves Hout Hhelm Hsome Hall.
  destruct (remove_game_server_loop w d env tokenSet envConfig Hresolves
              payload err Hout actionConfig _ Hhelm Hsome)
    as (Hending & Heffects).
  destruct (removeReleases_all d actionConfig releases Hall)
    as (Hloop & Hdone).
  rewrite Hending, Heffects, Hloop, Hdone. now split.
Qed.

(** X21: when every listed release uninstalls, remove botclients
    uninstalls each of them once, in the order of the listing, and returns
    without error. *)
Theorem remove_botclients_uninstalls_every_release :
  forall {Project AuthProvider ActionConfig : Type} (w : World)
         (d : remove.Deps Project AuthProvider ActionConfig) (env : string)
         (tokenSet : auth.TokenSet) (envConfig : remove.EnvironmentConfig)
         (payload : option string) (err : option error)
         (actionConfig : ActionConfig) (releases : list cmd.Release),
    let target := target_of tokenSet envConfig in
    resolves d env tokenSet envConfig ->
    outcome_of (GetKubeConfigWithEmbeddedCredentials w target)
      = Returned (payload, err) ->
    helm_lists d payload envConfig (remove.metaplayLoadTestChartName d)
      actionConfig releases ->
    releases <> [] ->
    Forall (uninstalls d actionConfig) releases ->
    cmd.ending_of (remove_botclients w d env) = cmd.Done None /\
    cmd.effects (cmd.actions_of (remove_botclients w d env)) =
      (helm_prelude target payload (remove.KubernetesNamespace envConfig)
         (remove.metaplayLoadTestChartName d) ++
       map cmd.UninstallRelease releases)%list.
Proof.
  intros Project AuthProvider ActionConfig w d env tokenSet envConfig payload
    err actionConfig releases target Hresolves Hout Hhelm Hsome Hall.
  destruct (remove_botclients_loop w d env tokenSet envConfig Hresolves
              payload err Hout actionConfig _ Hhelm Hsome)
    as (Hending & Heffects).
  destruct (uninstallReleases_all d actionConfig releases Hall)
    as (Hloop & Hdone).
  rewrite Hending, Heffects, Hloop, Hdone. now split.
Qed.

(** X22: when Helm lists no release, with or without an error of the
    listing, remove game-server exits with code 0 and remove botclients
    returns an error; neither uninstalls anything. *)
Theorem remove_commands_with_nothing_listed :
  forall {Project AuthProvider ActionConfig : Type} (w : World)
         (d : remove.Deps Project AuthProvider ActionConfig) (env : string)
         (tokenSet : auth.TokenSet) (envConfig : remove.EnvironmentConfig)
         (payload : option string) (err : option error)
         (actionConfig : ActionConfig),
    let target := target_of tokenSet envConfig in
    let namespace := remove.KubernetesNamespace envConfig in
    resolves d env tokenSet envConfig ->
    outcome_of (GetKubeConfigWithEmbeddedCredentials w target)
      = Returned (payload, err) ->
    helm_lists d payload envConfig (remove.metaplayGameServerChartName d)
      actionConfig [] ->
    helm_lists d payload envConfig (remove.metaplayLoadTestChartName d)
      actionConfig [] ->
    (cmd.ending_of (remove_game_server w d env) = cmd.Exit 0 /\
     cmd.effects (cmd.actions_of (remove_game_server w d env)) =
       helm_prelude target payload namespace
         (remove.metaplayGameServerChartName d)) /\
    (cmd.ending_of (remove_botclients w d env) =
       cmd.Done (Some (errorString "no existing bots deployment found")) /\
     cmd.effects (cmd.actions_of (remove_botclients w d env)) =
       helm_prelude target payload namespace
         (remove.metaplayLoadTestChartName d)).
Proof.
  intros Project AuthProvider ActionConfig w d env tokenSet envConfig payload
    err actionConfig target namespace Hresolves Hout Hgs Hbc.
  split.
  - pose proof Hresolves as Hr. pose proof Hout as Ho.
    remove_start Hr Ho. helm_start Hgs.
    cbn [List.length Nat.eqb]. run_step. now split.
  - pose proof Hresolves as Hr. pose proof Hout as Ho.
    remove_start Hr Ho. helm_start Hbc.
    cbn [List.length Nat.eqb]. run_step. now split.
Qed.

Lemma remove_game_server_stops_at_the_first_failure_witness :
  cmd.ending_of
    (remove_game_server scripted.healthy samples.games_stuck "tiny-squids")
    = cmd.Exit 1 /\
  cmd.effects
    (cmd.actions_of
       (remove_game_server scripted.healthy samples.games_stuck
          "tiny-squids")) =
    (helm_prelude scripted.target None "tiny-squids-ns" "metaplay-gameserver"
     ++ [ cmd.UninstallRelease (samples.release "game-a");
          cmd.UninstallRelease (samples.release "game-b") ])%list.
Proof.
  apply (remove_game_server_stops_at_the_first_failure scripted.healthy samples.games_stuck
           "tiny-squids" samples.tokenSet samples.environment None
           samples.refused tt
           [samples.release "game-a"] (samples.release "game-b")
           [samples.release "game-c"] samples.locked).
  - apply samples_helm_resolves.
  - vm_compute. reflexivity.
  - split; reflexivity.
  - repeat constructor.
  - reflexivity.
Defined.

Lemma remove_botclients_stops_at_the_first_failure_witness :
  cmd.ending_of
    (remove_botclients scripted.healthy samples.bots_stuck "tiny-squids")
    = cmd.Done
        (Some (uninstall_error (samples.release "bots-a") samples.locked)) /\
  Unwrap (uninstall_error (samples.release "bots-a") samples.locked)
    = Some samples.locked /\
  cmd.effects
    (cmd.actions_of
       (remove_botclients scripted.healthy samples.bots_stuck
          "tiny-squids")) =
    (helm_prelude scripted.target None "tiny-squids-ns" "metaplay-loadtest"
     ++ [ cmd.UninstallRelease (samples.release "bots-a") ])%list.
Proof.
  apply (remove_botclients_stops_at_the_first_failure scripted.healthy samples.bots_stuck
           "tiny-squids" samples.tokenSet samples.environment None
           samples.refused tt
           [] (samples.release "bots-a") [samples.release "bots-b"]
           samples.locked).
  - apply samples_helm_resolves.
  - vm_compute. reflexivity.
  - split; reflexivity.
  - constructor.
  - reflexivity.
Defined.

Lemma remove_game_server_uninstalls_every_release_witness :
  cmd.ending_of
    (remove_game_server scripted.healthy samples.games "tiny-squids")
    = cmd.Done None /\
  cmd.effects
    (cmd.actions_of
       (remove_game_server scripted.healthy samples.games "tiny-squids")) =
    (helm_prelude scripted.target None "tiny-squids-ns" "metaplay-gameserver"
     ++ [ cmd.UninstallRelease (samples.release "game-a");
          cmd.UninstallRelease (samples.release "game-b") ])%list.
Proof.
  apply (remove_game_server_uninstalls_every_release scripted.healthy samples.games
           "tiny-squids" samples.tokenSet samples.environment None
           samples.refused tt
           [samples.release "game-a"; samples.release "game-b"]).
  - apply samples_helm_resolves.
  - vm_compute. reflexivity.
  - split; reflexivity.
  - discriminate.
  - repeat constructor.
Defined.

Lemma remove_botclients_uninstalls_every_release_witness :
  cmd.ending_of
    (remove_botclients scripted.healthy samples.bots "tiny-squids")
    = cmd.Done None /\
  cmd.effects
    (cmd.actions_of
       (remove_botclients scripted.healthy samples.bots "tiny-squids")) =
    (helm_prelude scripted.target None "tiny-squids-ns" "metaplay-loadtest"
     ++ [ cmd.UninstallRelease (samples.release "bots-a") ])%list.
Proof.
  apply (remove_botclients_uninstalls_every_release scripted.healthy samples.bots
           "tiny-squids" samples.tokenSet samples.environment None
           samples.refused tt
           [samples.release "bots-a"]).
  - apply samples_helm_resolves.
  - vm_compute. reflexivity.
  - split; reflexivity.
  - discriminate.
  - repeat constructor.
Defined.

Lemma remove_commands_with_nothing_listed_witness :
  (cmd.ending_of
     (remove_game_server scripted.healthy samples.nothing "tiny-squids")
     = cmd.Exit 0 /\
   cmd.effects
     (cmd.actions_of
        (remove_game_server scripted.healthy samples.nothing
           "tiny-squids")) =
     helm_prelude scripted.target None "tiny-squids-ns"
       "metaplay-gameserver") /\
  (cmd.ending_of
     (remove_botclients scripted.healthy samples.nothing "tiny-squids")
     = cmd.Done (Some (errorString "no existing bots deployment found")) /\
   cmd.effects
     (cmd.actions_of
        (remove_botclients scripted.healthy samples.nothing
           "tiny-squids")) =
     helm_prelude scripted.target None "tiny-squids-ns"
       "metaplay-loadtest").
Proof.
  apply (remove_commands_with_nothing_listed scripted.healthy samples.nothing
           "tiny-squids" samples.tokenSet samples.environment None
           samples.refused tt).
  - apply samples_helm_resolves.
  - vm_compute. reflexivity.
  - split; reflexivity.
  - split; reflexivity.
Defined.

(** X23: before the project, the login and the environment have resolved,
    a remove command does nothing but ask for the login: no request to the
    StackAPI, nothing of Helm. *)
Theorem remove_commands_act_only_when_resolved :
  forall {Project AuthProvider ActionConfig : Type} (w : World)
         (d : remove.Deps Project AuthProvider ActionConfig) (env : string)
         (a : cmd.action),
    In a (cmd.effects (cmd.actions_of (remove_game_server w d env))) \/
    In a (cmd.effects (cmd.actions_of (remove_botclients w d env))) ->
    a <> cmd.RequireLoggedIn ->
    exists tokenSet envConfig, resolves d env tokenSet envConfig.
Proof.
  intros Project AuthProvider ActionConfig w d env a Hin Hother.
  unfold remove_game_server, remove_botclients, remove.RunGameServer,
    remove.RunBotClients in Hin.
  cbn [remove.game_server_argEnvironment remove.botclients_argEnvironment]
    in Hin.
  destruct (remove.tryResolveProject d) as [project|e] eqn:Hproject.
  2:{ cbn in Hin. now destruct Hin. }
  destruct (remove.tui_RequireLoggedIn d (remove.getAuthProvider d project))
    as [tokenSet|e] eqn:Hlogin.
  2:{ cbn in Hin. destruct Hin as [[H|[]]|[H|[]]]; now symmetry in H. }
  destruct (remove.resolveEnvironment d project tokenSet env)
    as [envConfig|e] eqn:Henv.
  2:{ cbn in Hin. destruct Hin as [[H|[]]|[H|[]]]; now symmetry in H. }
  exists tokenSet, envConfig, project. now repeat split.
Qed.

Lemma remove_commands_act_only_when_resolved_witness :
  exists tokenSet envConfig,
    resolves samples.games "tiny-squids" tokenSet envConfig.
Proof.
  apply (remove_commands_act_only_when_resolved scripted.healthy
           samples.games "tiny-squids"
           (cmd.UninstallRelease (samples.release "game-a"))).
  - left. vm_compute. tauto.
  - discriminate.
Defined.

Section BotClientRuns.

Variable w : World.
Context {JD : JSON EnvironmentDetails}.
Variable d : botclient.Deps.
Variable o : botclient.devBotClientOpts.
Variable project : botclient.Project.
Hypothesis Hproject : botclient.resolveProject d = inl project.

(** What [Run] does once the flags for the target environment are there. *)
Lemma botclient_run_with_flags flags t :
  botclient.resolveTargetEnvFlags w d o project
    = (cmd.Done (flags, None), t) ->
  botclient.checkDotnetSdkVersion d (botclient.MinDotnetSdkVersion project)
    = None ->
  botclient.execChildInteractive d (botclient.BotClientDir project) "dotnet"
    ["build"] = None ->
  cmd.effects (cmd.actions_of (botclient.Run w d o)) =
    (cmd.effects t ++
     [ dotnet_build project;
       dotnet_run project (flags ++ botclient.extraArgs o) ])%list /\
  cmd.ending_of (botclient.Run w d o) =
    match botclient.execChildInteractive d (botclient.BotClientDir project)
            "dotnet"
            ("run" :: "--no-build" :: flags ++ botclient.extraArgs o)%list
    with
    | Some _ => cmd.Exit 1
    | None => cmd.Done None
    end.
Proof.
  intros Hflags Hsdk Hbuild. unfold botclient.Run.
  rewrite Hproject, Hflags. cbn [cmd.andThen]. rewrite Hsdk.
  cbv zeta. rewrite Hbuild.
  change (["run"; "--no-build"] ++ flags)%list
    with ("run" :: "--no-build" :: flags).
  change (("run" :: "--no-build" :: flags) ++ botclient.extraArgs o)%list
    with ("run" :: "--no-build" :: flags ++ botclient.extraArgs o)%list.
  destruct (botclient.execChildInteractive d (botclient.BotClientDir project)
              "dotnet"
              ("run" :: "--no-build" :: flags ++ botclient.extraArgs o)%list);
    cbn; rewrite effects_app; now split.
Qed.

End BotClientRuns.

(** X24: without the environment flag dev botclient runs against the local
    server: no login, no request; it builds the BotClient project and then
    runs it without rebuilding, the extra arguments after [run --no-build].
    It exits with code 1 when the run fails. *)
Theorem botclient_local_run :
  forall (w : World) {JD : JSON EnvironmentDetails} (d : botclient.Deps)
         (o : botclient.devBotClientOpts) (project : botclient.Project),
    botclient.flagEnvironment o = "" ->
    botclient.resolveProject d = inl project ->
    botclient.checkDotnetSdkVersion d (botclient.MinDotnetSdkVersion project)
      = None ->
    botclient.execChildInteractive d (botclient.BotClientDir project)
      "dotnet" ["build"] = None ->
    cmd.effects (cmd.actions_of (botclient.Run w d o)) =
      [ dotnet_build project; dotnet_run project (botclient.extraArgs o) ] /\
    cmd.ending_of (botclient.Run w d o) =
      match botclient.execChildInteractive d (botclient.BotClientDir project)
              "dotnet" ("run" :: "--no-build" :: botclient.extraArgs o)
      with
      | Some _ => cmd.Exit 1
      | None => cmd.Done None
      end.
Proof.
  intros w JD d o project Hflag Hproject Hsdk Hbuild.
  apply (botclient_run_with_flags w d o project Hproject [] []);
    try assumption.
  unfold botclient.resolveTargetEnvFlags. now rewrite Hflag.
Qed.

Lemma botclient_local_run_witness :
  cmd.effects
    (cmd.actions_of
       (botclient.Run (JD := scripted.JSON_EnvironmentDetails)
          scripted.healthy (samples.dotnet false) (samples.bots_opts ""))) =
    [ dotnet_build samples.bots_project;
      dotnet_run samples.bots_project ["-MaxBots=5"] ] /\
  cmd.ending_of
    (botclient.Run (JD := scripted.JSON_EnvironmentDetails)
       scripted.healthy (samples.dotnet false) (samples.bots_opts ""))
    = cmd.Done None.
Proof.
  apply (botclient_local_run scripted.healthy
           (JD := scripted.JSON_EnvironmentDetails) (samples.dotnet false)
           (samples.bots_opts "") samples.bots_project);
    reflexivity.
Defined.

(** X25: with the environment flag, dev botclient asks for the login, gets
    the details of the environment, and after the build runs the bots with
    the host name of the environment's server and TLS switched on, before
    the extra arguments. *)
Theorem botclient_remote_run :
  forall (w : World) {JD : JSON EnvironmentDetails} (d : botclient.Deps)
         (o : botclient.devBotClientOpts) (project : botclient.Project)
         (tokenSet : auth.TokenSet) (envConfig : remove.EnvironmentConfig)
         (envInfo : EnvironmentDetails),
    let target := target_of tokenSet envConfig in
    botclient.flagEnvironment o <> "" ->
    botclient.resolveProject d = inl project ->
    botclient.tui_RequireLoggedIn d = inl tokenSet ->
    botclient.FindEnvironmentConfig d project (botclient.flagEnvironment o)
      = inl envConfig ->
    serves w (Resty target) MethodGet (deployment_path target) None
      (Some envInfo) ->
    botclient.checkDotnetSdkVersion d (botclient.MinDotnetSdkVersion project)
      = None ->
    botclient.execChildInteractive d (botclient.BotClientDir project)
      "dotnet" ["build"] = None ->
    cmd.effects (cmd.actions_of (botclient.Run w d o)) =
      [ cmd.RequireLoggedIn; cmd.Broker (get_details target);
        dotnet_build project;
        dotnet_run project
          ([ "--Bot:ServerHost=" ++ ServerHostname (Deployment envInfo);
             "--Bot:EnableTls=true" ] ++ botclient.extraArgs o) ].
Proof.
  intros w JD d o project tokenSet envConfig envInfo target Hflag Hproject
    Hlogin Hfind Hserves Hsdk Hbuild.
  apply string_empty_false in Hflag.
  apply httpGetRequest_serves in Hserves.
  assert (Hflags : exists t,
    botclient.resolveTargetEnvFlags w d o project =
      (cmd.Done
         ([ "--Bot:ServerHost=" ++ ServerHostname (Deployment envInfo);
            "--Bot:EnableTls=true" ], None), t) /\
    cmd.effects t = [cmd.RequireLoggedIn; cmd.Broker (get_details target)]).
  { unfold botclient.resolveTargetEnvFlags. rewrite Hflag, Hlogin, Hfind.
    cbn [negb]. fold (target_of tokenSet envConfig). fold target.
    unfold GetDetails. fold (deployment_path target). rewrite Hserves.
    eexists. split; reflexivity. }
  destruct Hflags as (t & Hflags & Ht).
  rewrite (proj1 (botclient_run_with_flags w d o project Hproject _ t Hflags
                    Hsdk Hbuild)), Ht.
  reflexivity.
Qed.

Lemma botclient_remote_run_witness :
  cmd.effects
    (cmd.actions_of
       (botclient.Run (JD := scripted.JSON_EnvironmentDetails)
          scripted.healthy (samples.dotnet false)
          (samples.bots_opts "tiny-squids"))) =
    [ cmd.RequireLoggedIn; cmd.Broker (get_details scripted.target);
      dotnet_build samples.bots_project;
      dotnet_run samples.bots_project
        [ "--Bot:ServerHost=tiny-squids.example"; "--Bot:EnableTls=true";
          "-MaxBots=5" ] ].
Proof.
  apply (botclient_remote_run scripted.healthy
           (JD := scripted.JSON_EnvironmentDetails) (samples.dotnet false)
           (samples.bots_opts "tiny-squids") samples.bots_project
           samples.tokenSet samples.environment
           (scripted.details "tiny-squids-ns")).
  - discriminate.
  - reflexivity.
  - reflexivity.
  - reflexivity.
  - eexists. repeat split; vm_compute; reflexivity.
  - reflexivity.
  - reflexivity.
Defined.

(** X26: when the StackAPI answers the details request with the JSON null,
    [GetDetails] gives a nil pointer and no error, and dev botclient
    panics on reading the host name: nothing is built or run. *)
Theorem botclient_panics_on_null_details :
  forall (w : World) {JD : JSON EnvironmentDetails} (d : botclient.Deps)
         (o : botclient.devBotClientOpts) (project : botclient.Project)
         (tokenSet : auth.TokenSet) (envConfig : remove.EnvironmentConfig),
    let target := target_of tokenSet envConfig in
    botclient.flagEnvironment o <> "" ->
    botclient.resolveProject d = inl project ->
    botclient.tui_RequireLoggedIn d = inl tokenSet ->
    botclient.FindEnvironmentConfig d project (botclient.flagEnvironment o)
      = inl envConfig ->
    serves w (Resty target) MethodGet (deployment_path target) None
      (@None EnvironmentDetails) ->
    cmd.ending_of (botclient.Run w d o) = cmd.Crash nil_dereference /\
    cmd.effects (cmd.actions_of (botclient.Run w d o)) =
      [ cmd.RequireLoggedIn; cmd.Broker (get_details target) ].
Proof.
  intros w JD d o project tokenSet envConfig target Hflag Hproject Hlogin
    Hfind Hserves.
  apply string_empty_false in Hflag.
  apply httpGetRequest_serves in Hserves.
  unfold botclient.Run, botclient.resolveTargetEnvFlags.
  rewrite Hproject, Hflag, Hlogin, Hfind.
  cbn [negb]. fold (target_of tokenSet envConfig). fold target.
  unfold GetDetails. fold (deployment_path target). rewrite Hserves.
  now split.
Qed.

Lemma botclient_panics_on_null_details_witness :
  cmd.ending_of
    (botclient.Run (JD := scripted.JSON_EnvironmentDetails)
       samples.null_details (samples.dotnet false)
       (samples.bots_opts "tiny-squids"))
    = cmd.Crash nil_dereference /\
  cmd.effects
    (cmd.actions_of
       (botclient.Run (JD := scripted.JSON_EnvironmentDetails)
          samples.null_details (samples.dotnet false)
          (samples.bots_opts "tiny-squids"))) =
    [ cmd.RequireLoggedIn; cmd.Broker (get_details scripted.target) ].
Proof.
  apply (botclient_panics_on_null_details samples.null_details
           (JD := scripted.JSON_EnvironmentDetails) (samples.dotnet false)
           (samples.bots_opts "tiny-squids") samples.bots_project
           samples.tokenSet samples.environment).
  - discriminate.
  - reflexivity.
  - reflexivity.
  - reflexivity.
  - eexists. repeat split; vm_compute; reflexivity.
Defined.

(** Resolving the flags for the target environment starts no process. *)
Lemma resolveTargetEnvFlags_actions (w : World)
    {JD : JSON EnvironmentDetails} (d : botclient.Deps)
    (o : botclient.devBotClientOpts) (project : botclient.Project)
    (a : cmd.action) :
  In a (cmd.actions_of (botclient.resolveTargetEnvFlags w d o project)) ->
  forall dir command args, a <> cmd.ExecChild dir command args.
Proof.
  unfold botclient.resolveTargetEnvFlags.
  destruct (negb (string_empty (botclient.flagEnvironment o)));
    [|intros []].
  destruct (botclient.tui_RequireLoggedIn d) as [tokenSet|e].
  2:{ cbn. intros [<-|[]]; discriminate. }
  destruct (botclient.FindEnvironmentConfig d project
              (botclient.flagEnvironment o)) as [envConfig|e].
  2:{ cbn. intros [<-|[]]; discriminate. }
  rewrite andThen_actions. cbn [cmd.act cmd.actions_of cmd.ending_of fst snd
    app].
  intros [<-|Hin]; [discriminate|].
  rewrite andThen_actions in Hin. apply in_app_or in Hin.
  destruct (GetDetails w _) as [[[envInfo err]|v] t].
  - cbn [cmd.lift cmd.actions_of cmd.ending_of fst snd] in Hin.
    destruct Hin as [Hin|Hin].
    + apply in_map_iff in Hin. destruct Hin as (e & <- & _). discriminate.
    + destruct err as [e|]; [now destruct Hin|].
      destruct envInfo as [envInfo|]; cbn in Hin.
      * destruct Hin as [<-|[]]. discriminate.
      * now destruct Hin.
  - cbn [cmd.lift cmd.actions_of cmd.ending_of fst snd] in Hin.
    destruct Hin as [Hin|[]].
    apply in_map_iff in Hin. destruct Hin as (e & <- & _). discriminate.
Qed.

(** X27: when the build of the BotClient project fails, dev botclient
    never starts the bots and never reports success, whatever else
    happens: the only process it may have started is the build. *)
Theorem botclient_broken_build_never_runs :
  forall (w : World) {JD : JSON EnvironmentDetails} (d : botclient.Deps)
         (o : botclient.devBotClientOpts),
    (forall dir,
       botclient.execChildInteractive d dir "dotnet" ["build"] <> None) ->
    cmd.ending_of (botclient.Run w d o) <> cmd.Done None /\
    forall dir command args,
      In (cmd.ExecChild dir command args)
         (cmd.actions_of (botclient.Run w d o)) ->
      command = "dotnet" /\ args = ["build"].
Proof.
  intros w JD d o Hbroken. unfold botclient.Run.
  destruct (botclient.resolveProject d) as [project|e].
  2:{ split; [discriminate|intros ? ? ? []]. }
  pose proof (resolveTargetEnvFlags_actions w d o project) as Hquiet.
  destruct (botclient.resolveTargetEnvFlags w d o project)
    as [[[flags [e|]]|code|v] t];
    cbn [cmd.actions_of snd] in Hquiet; cbn [cmd.andThen].
  - cbn. rewrite app_nil_r. split; [discriminate|].
    intros dir command args Hin. now destruct (Hquiet _ Hin dir command args).
  - destruct (botclient.checkDotnetSdkVersion d
                (botclient.MinDotnetSdkVersion project)) as [e|].
    + cbn. rewrite app_nil_r. split; [discriminate|].
      intros dir command args Hin.
      now destruct (Hquiet _ Hin dir command args).
    + cbv zeta.
      destruct (botclient.execChildInteractive d
                  (botclient.BotClientDir project) "dotnet" ["build"])
        as [e|] eqn:Hbuild; [|now destruct (Hbroken _ Hbuild)].
      cbn. split; [discriminate|].
      intros dir command args Hin. apply in_app_or in Hin.
      destruct Hin as [Hin|Hin];
        [now destruct (Hquiet _ Hin dir command args)|].
      destruct Hin as [Hin|[Hin|[]]]; [|discriminate Hin].
      injection Hin as _ <- <-. now split.
  - cbn. split; [discriminate|].
    intros dir command args Hin. now destruct (Hquiet _ Hin dir command args).
  - cbn. split; [discriminate|].
    intros dir command args Hin. now destruct (Hquiet _ Hin dir command args).
Qed.

Lemma botclient_broken_build_never_runs_witness :
  cmd.ending_of
    (botclient.Run (JD := scripted.JSON_EnvironmentDetails)
       scripted.healthy (samples.dotnet true) (samples.bots_opts ""))
    <> cmd.Done None /\
  forall dir command args,
    In (cmd.ExecChild dir command args)
       (cmd.actions_of
          (botclient.Run (JD := scripted.JSON_EnvironmentDetails)
             scripted.healthy (samples.dotnet true)
             (samples.bots_opts ""))) ->
    command = "dotnet" /\ args = ["build"].
Proof.
  apply (botclient_broken_build_never_runs scripted.healthy
           (JD := scripted.JSON_EnvironmentDetails) (samples.dotnet true)
           (samples.bots_opts "")).
  intros dir. discriminate.
Defined.



(** X29: every error update cli returns is a fixed message: the cause the
    library gave is neither wrapped nor quoted. *)
Theorem update_errors_drop_the_cause :
  forall {Source Updater : Type} (d : update.Deps Source Updater)
         (err : error),
    cmd.ending_of (update.Run d) = cmd.Done (Some err) ->
    Unwrap err = None /\
    In (Error err)
       [ "The update command is disabled on development builds!";
         "Failed to initialize the Metaplay CLI updater source";
         "Failed to initialize the Metaplay CLI updater";
         "Failed to detect the latest Metaplay CLI version";
         "Could not determine the Metaplay CLI executable path";
         "Failed to update the Metaplay CLI binary" ].
Proof.
  intros Source Updater d err. unfold update.Run.
  destruct (update.version_IsDevBuild d).
  { cbn. intros H. injection H as <-. split; [reflexivity|]. cbn. tauto. }
  destruct (update.selfupdate_NewGitHubSource d) as [source|e].
  2:{ cbn. intros H. injection H as <-. split; [reflexivity|]. cbn. tauto. }
  destruct (update.selfupdate_NewUpdater d source) as [updater|e].
  2:{ cbn. intros H. injection H as <-. split; [reflexivity|]. cbn. tauto. }
  destruct (update.updater_DetectLatest d updater "metaplay/cli")
    as [[latest found] [e|]].
  { cbn. intros H. injection H as <-. split; [reflexivity|]. cbn. tauto. }
  destruct found; [|cbn; discriminate].
  destruct (update.selfupdate_ExecutablePath d) as [path|e].
  2:{ cbn. intros H. injection H as <-. split; [reflexivity|]. cbn. tauto. }
  cbn [negb].
  destruct (update.updater_UpdateTo d updater latest path) as [e|].
  { cbn. intros H. injection H as <-. split; [reflexivity|]. cbn. tauto. }
  destruct latest; cbn; discriminate.
Qed.

Lemma update_errors_drop_the_cause_witness :
  Unwrap (errorString "The update command is disabled on development builds!")
    = None /\
  In (Error
        (errorString "The update command is disabled on development builds!"))
     [ "The update command is disabled on development builds!";
       "Failed to initialize the Metaplay CLI updater source";
       "Failed to initialize the Metaplay CLI updater";
       "Failed to detect the latest Metaplay CLI version";
       "Could not determine the Metaplay CLI executable path";
       "Failed to update the Metaplay CLI binary" ].
Proof.
  apply (update_errors_drop_the_cause (samples.updater true)).
  reflexivity.
Defined.

(** X30: the six colors of package styles are pairwise different exactly
    on a terminal with 256 colors or true color: with the 16 basic colors
    orange is yellow, and without color support all are white.  The seven
    styles are pairwise different exactly when the terminal has some color
    support: with the basic colors the prompt differs from the warning by
    being bold, while without colors the title and the prompt coincide. *)
Theorem styles_are_told_apart :
  forall colorSupport : styles.Support,
    (NoDup (styles.colors (styles.init colorSupport)) <->
     styles.Has16m colorSupport || styles.Has256 colorSupport = true) /\
    (NoDup (styles.all_styles (styles.init colorSupport)) <->
     styles.Has16m colorSupport || styles.Has256 colorSupport
       || styles.SupportsColor colorSupport = true).
Proof.
  intros [[] [] []]; split; split; intros H; try reflexivity;
    try discriminate H;
    try (repeat constructor; cbn; intuition discriminate);
    exfalso; vm_compute in H;
    repeat match goal with
           | H : NoDup (_ :: _) |- _ => inversion H; clear H; subst
           end;
    cbn in *; tauto.
Qed.
